(** * Sales & inventory: the till (till.py) and the dashboard (sales db.py)

    A shallow embedding of the checkout transaction of the till and of the
    reorder / low-stock computation of the dashboard, with the properties
    the specification states about them.

    Conventions of the embedding.
    - Integers of the source (quantities, stock) are [Z].
    - Currency values are Python floats in the source; here they are exact
      rationals [Q], so a theorem about a total is about the arithmetic the
      code writes down, not about binary rounding error.  [round(x, 2)] is
      rounding to the nearest hundredth, ties to even.
    - [st.session_state], the module globals [inventory_df] and [PRODUCTS]
      and the two files are the fields of one explicit state record that
      every operation takes and returns.
    - [uuid.uuid4()], [datetime.now()] and the success of [to_excel] come
      from the environment: they are arguments of the operations.
    - [st.warning], [st.error] and [st.success] are recorded as the list of
      messages an operation returns. *)

From Stdlib Require Import ZArith QArith Qround Qabs Qminmax Lia Lqa.
From stdpp Require Import gmap strings list sorting.

Close Scope Q_scope.
Local Open Scope Z_scope.

(** ** Data shared by the two scripts: the two persisted tables *)

(** A calendar date and a timestamp ([datetime]); only the date and the
    month of a timestamp are ever inspected. *)
Record Date := mkDate { d_year : Z; d_month : Z; d_day : Z }.

Record Timestamp := mkTs { ts_date : Date; ts_seconds : Z }.

(** One row of inventory.xlsx.  [reorder_level] is [None] for an empty
    cell (NaN). *)
Record InvRow := mkInv {
  inv_barcode : string;
  inv_name : string;
  inv_category : string;
  inv_brand : string;
  inv_supplier : string;
  inv_price : Q;
  inv_cost_price : Q;
  inv_pack_size : string;
  inv_stock_qty : Z;
  inv_reorder_level : option Z;
  inv_is_active : bool
}.

(** One row of sales_log.csv, in the column order of the header. *)
Record SaleRow := mkSale {
  sale_id : string;
  sale_timestamp : Timestamp;
  sale_membership_id : string;
  sale_barcode : string;
  sale_product_name : string;
  sale_category : string;
  sale_qty : Z;
  sale_unit_price : Q;
  sale_line_total : Q;
  sale_discount : Q
}.

Definition with_stock (n : Z) (r : InvRow) : InvRow :=
  mkInv (inv_barcode r) (inv_name r) (inv_category r) (inv_brand r)
        (inv_supplier r) (inv_price r) (inv_cost_price r) (inv_pack_size r)
        n (inv_reorder_level r) (inv_is_active r).

(** ** Rounding to two decimals *)

(** Nearest integer, ties to even. *)
Definition round_half_even (x : Q) : Z :=
  let f := Qfloor x in
  match Qcompare (x - inject_Z f) (1 # 2) with
  | Lt => f
  | Gt => f + 1
  | Eq => if Z.even f then f else f + 1
  end.

(** [round(x, 2)] on the exact value.  Where the exact value is exactly
    half a cent (1.275) the binary float the code holds lies next to it and
    may round either way; the properties below hold whichever way such a
    tie goes. *)
Definition round2 (x : Q) : Q :=
  Qmake (round_half_even (x * 100)%Q) 100.

Module Till.

(** *** Session and store *)

Inductive DiscountType := percent | fixed.

(** A cart line: the dict built at the end of [add_to_cart]. *)
Record CartLine := mkLine {
  line_id : string;
  line_barcode : string;
  line_name : string;
  line_qty : Z;
  line_unit_price : Q;
  line_category : string;
  line_pack_size : string
}.

Definition with_qty (q : Z) (l : CartLine) : CartLine :=
  mkLine (line_id l) (line_barcode l) (line_name l) q
         (line_unit_price l) (line_category l) (line_pack_size l).

(** [st.session_state] *)
Record Session := mkSession {
  cart : list CartLine;
  member_id : string;
  discount : Q;
  discount_type : DiscountType
}.

(** Everything the script reads and writes. *)
Record State := mkState {
  INVENTORY_FILE : list InvRow;        (* inventory.xlsx on disk *)
  SALES_FILE : list SaleRow;           (* sales_log.csv on disk, rows only *)
  inventory_df : list InvRow;          (* the module global data frame *)
  PRODUCTS : gmap string InvRow;       (* the module global dict *)
  session_state : Session
}.

Inductive Msg :=
| warning_not_found (barcode : string)
| warning_not_enough_stock (name : string) (available : Z)
| warning_cannot_add (qty : Z) (name : string) (left : Z)
| warning_quantity_must_be_positive
| error_not_found_at_checkout (name : string)
| error_insufficient_stock_at_checkout (name : string)
| error_failed_to_save_inventory
| success_sale_saved (member : string).

Definition set_cart (c : list CartLine) (s : State) : State :=
  mkState (INVENTORY_FILE s) (SALES_FILE s) (inventory_df s) (PRODUCTS s)
          (mkSession c (member_id (session_state s))
                     (discount (session_state s))
                     (discount_type (session_state s))).

(** *** Loading (module top level, lines 16-32) *)

(** [inventory_df[inventory_df["is_active"] == True]] *)
Definition active_rows (rows : list InvRow) : list InvRow :=
  filter (fun r => inv_is_active r = true) rows.

(** [set_index("barcode").to_dict(orient="index")]; pandas raises when the
    index is not unique, which is [None] here. *)
Definition to_dict (rows : list InvRow) : option (gmap string InvRow) :=
  if decide (NoDup (inv_barcode <$> rows))
  then Some (list_to_map ((fun r => (inv_barcode r, r)) <$> rows))
  else None.

(** The till reads the column reorder_level, which it adds with value 10
    to a sheet that lacks it (lines 25-27), only for the warning under the
    cart; the sheets here have the column. *)
Definition load (file : list InvRow) (sales : list SaleRow) (ss : Session)
  : option State :=
  let df := active_rows file in
  match to_dict df with
  | Some products => Some (mkState file sales df products ss)
  | None => None
  end.

Definition new_session : Session := mkSession [] "" 0%Q percent.

(** *** add_to_cart *)

Inductive Merge :=
| merged (c : list CartLine)      (* [line["qty"] += qty; return] *)
| refused (l : CartLine)          (* the warning inside the loop *)
| no_line.                        (* the loop ran to its end *)

(** The [for line in st.session_state.cart] loop of [add_to_cart]. *)
Fixpoint merge_line (barcode : string) (qty current_stock : Z)
         (c : list CartLine) : Merge :=
  match c with
  | [] => no_line
  | line :: rest =>
      if decide (line_barcode line = barcode) then
        if decide (line_qty line + qty > current_stock)
        then refused line
        else merged (with_qty (line_qty line + qty) line :: rest)
      else match merge_line barcode qty current_stock rest with
           | merged rest' => merged (line :: rest')
           | refused l => refused l
           | no_line => no_line
           end
  end.

Definition add_to_cart (uuid : string) (barcode : string) (qty : Z)
           (s : State) : State * list Msg :=
  match PRODUCTS s !! barcode with
  | None => (s, [warning_not_found barcode])
  | Some product =>
      let current_stock := inv_stock_qty product in
      if decide (qty > current_stock) then
        (s, [warning_not_enough_stock (inv_name product) current_stock])
      else
        match merge_line barcode qty current_stock (cart (session_state s)) with
        | refused line =>
            (s, [warning_cannot_add qty (inv_name product)
                                    (current_stock - line_qty line)])
        | merged c => (set_cart c s, [])
        | no_line =>
            let line := mkLine uuid barcode (inv_name product) qty
                               (inv_price product) (inv_category product)
                               (inv_pack_size product) in
            (set_cart (cart (session_state s) ++ [line]) s, [])
        end
  end.

(** *** remove_one_from_cart *)

(** [line["qty"] -= 1] on the first line with this id. *)
Fixpoint decrement_first (id : string) (c : list CartLine) : list CartLine :=
  match c with
  | [] => []
  | line :: rest =>
      if decide (line_id line = id)
      then with_qty (line_qty line - 1) line :: rest
      else line :: decrement_first id rest
  end.

Definition remove_one_from_cart (id : string) (s : State) : State :=
  let c := cart (session_state s) in
  match find (fun l => bool_decide (line_id l = id)) c with
  | None => s
  | Some line =>
      if decide (line_qty line > 1)
      then set_cart (decrement_first id c) s
      else set_cart (filter (fun l => line_id l ≠ id) c) s
  end.

(** *** handle_scan: the quantity check in front of add_to_cart *)

(** [qty] is the integer the widget holds; the barcode is already
    stripped.  The two input widgets are not part of the state. *)
Definition handle_scan (uuid : string) (code : string) (qty : Z)
           (s : State) : State * list Msg :=
  if decide (qty <= 0) then (s, [warning_quantity_must_be_positive])
  else if decide (code = "") then (s, [])
  else add_to_cart uuid code qty s.

(** *** calc_totals *)

(** [line["unit_price"] * line["qty"]] *)
Definition pretotal (line : CartLine) : Q :=
  (line_unit_price line * inject_Z (line_qty line))%Q.

(** [sum(l["unit_price"] * l["qty"] for l in cart)] *)
Definition cart_total (c : list CartLine) : Q :=
  fold_left (fun acc l => (acc + pretotal l)%Q) c 0%Q.

(** (subtotal, discount_amount, total) *)
Definition calc_totals (ss : Session) : Q * Q * Q :=
  let subtotal := cart_total (cart ss) in
  let discount_amount :=
    match discount_type ss with
    | percent => (discount ss / 100 * subtotal)%Q
    | fixed => discount ss
    end in
  (subtotal, discount_amount, (subtotal - discount_amount)%Q).

(** *** save_sale *)

(** The value of [line_total] when the row is written, before rounding. *)
Definition line_total (ty : DiscountType) (discount_applied : Q)
           (c : list CartLine) (line : CartLine) : Q :=
  let line_total := pretotal line in
  match ty with
  | percent =>
      if Qlt_le_dec 0 discount_applied
      then (line_total - line_total * discount_applied / 100)%Q
      else line_total
  | fixed =>
      if Qlt_le_dec 0 (cart_total c)
      then (line_total - (line_total / cart_total c) * discount_applied)%Q
      else line_total
  end.

Definition sale_row (sid : string) (ts : Timestamp) (member : string)
           (ss : Session) (c : list CartLine) (line : CartLine) : SaleRow :=
  mkSale sid ts member (line_barcode line) (line_name line)
         (line_category line) (line_qty line) (line_unit_price line)
         (round2 (line_total (discount_type ss) (discount ss) c line))
         (discount ss).

Definition save_sale (sid : string) (ts : Timestamp)
           (c : list CartLine) (member : string) (s : State) : State :=
  mkState (INVENTORY_FILE s)
          (SALES_FILE s ++ (sale_row sid ts member (session_state s) c <$> c))
          (inventory_df s) (PRODUCTS s) (session_state s).

(** *** update_inventory_after_checkout *)

(** One iteration of the loop over the cart, on the pair of globals.
    The dict entry is updated with [alter]: Python raises KeyError for a
    barcode of the data frame that is not a key of the dict, which cannot
    happen in a till that was loaded (lemma [run_in_sync]). *)
Definition sell_line (g : list InvRow * gmap string InvRow)
           (line : CartLine) : list InvRow * gmap string InvRow :=
  let barcode := line_barcode line in
  let qty_sold := line_qty line in
  match list_find (fun r => inv_barcode r = barcode) g.1 with
  | None => g
  | Some (idx, row) =>
      let current_stock := inv_stock_qty row in
      let new_stock := Z.max (current_stock - qty_sold) 0 in
      (<[idx := with_stock new_stock row]> g.1,
       alter (with_stock new_stock) barcode g.2)
  end.

(** [to_excel_ok] says whether writing the file succeeds. *)
Definition update_inventory_after_checkout (to_excel_ok : bool)
           (c : list CartLine) (s : State) : State * list Msg :=
  let g := fold_left sell_line c (inventory_df s, PRODUCTS s) in
  if to_excel_ok
  then (mkState g.1 (SALES_FILE s) g.1 g.2 (session_state s), [])
  else (mkState (INVENTORY_FILE s) (SALES_FILE s) g.1 g.2 (session_state s),
        [error_failed_to_save_inventory]).

(** *** checkout *)

(** The stock check in front: the message of the first line that fails. *)
Fixpoint check_stock (products : gmap string InvRow) (c : list CartLine)
  : option Msg :=
  match c with
  | [] => None
  | line :: rest =>
      match products !! line_barcode line with
      | None => Some (error_not_found_at_checkout (line_name line))
      | Some product =>
          if decide (line_qty line > inv_stock_qty product)
          then Some (error_insufficient_stock_at_checkout (line_name line))
          else check_stock products rest
      end
  end.

Definition reset_session (s : State) : State :=
  mkState (INVENTORY_FILE s) (SALES_FILE s) (inventory_df s) (PRODUCTS s)
          (mkSession [] "" 0%Q (discount_type (session_state s))).

Definition checkout (sid : string) (ts : Timestamp) (to_excel_ok : bool)
           (s : State) : State * list Msg :=
  let cart_copy := cart (session_state s) in
  let member := member_id (session_state s) in
  match check_stock (PRODUCTS s) cart_copy with
  | Some err => (s, [err])
  | None =>
      let s1 := save_sale sid ts cart_copy member s in
      let '(s2, msgs) := update_inventory_after_checkout to_excel_ok cart_copy s1 in
      (reset_session s2, msgs ++ [success_sale_saved member])
  end.

(** *** The session as a sequence of user actions *)

(** The discount widgets (lines 210-219) store the chosen type and value;
    both [number_input]s have [min_value] 0 and hold no smaller value. *)
Definition set_discount (ty : DiscountType) (v : Q) (s : State) : State :=
  if Qlt_le_dec v 0 then s
  else mkState (INVENTORY_FILE s) (SALES_FILE s) (inventory_df s) (PRODUCTS s)
               (mkSession (cart (session_state s))
                          (member_id (session_state s)) v ty).

(** The membership text input (line 195). *)
Definition set_member_id (m : string) (s : State) : State :=
  mkState (INVENTORY_FILE s) (SALES_FILE s) (inventory_df s) (PRODUCTS s)
          (mkSession (cart (session_state s)) m
                     (discount (session_state s))
                     (discount_type (session_state s))).

Inductive Event :=
| Scan (uuid code : string) (qty : Z)       (* barcode input: handle_scan *)
| Select (uuid barcode : string)            (* name search: add_to_cart(barcode) *)
| RemoveOne (id : string)                   (* the Remove 1 button *)
| SetMember (m : string)
| SetDiscount (ty : DiscountType) (v : Q)
| Checkout (sid : string) (ts : Timestamp) (to_excel_ok : bool).

Definition run_event (s : State) (e : Event) : State * list Msg :=
  match e with
  | Scan uuid code qty => handle_scan uuid code qty s
  | Select uuid barcode => add_to_cart uuid barcode 1 s
  | RemoveOne id => (remove_one_from_cart id s, [])
  | SetMember m => (set_member_id m s, [])
  | SetDiscount ty v => (set_discount ty v s, [])
  | Checkout sid ts ok => checkout sid ts ok s
  end.

(** The state after a sequence of actions. *)
Definition run (es : list Event) (s : State) : State :=
  fold_left (fun s e => (run_event s e).1) es s.

End Till.


Module Dashboard.

(** *** Merge of the ledger with the inventory (lines 43-49) *)

(** A row of [sales_merged]: the ledger row and, from the inventory row
    with the same barcode, the columns brand, supplier, cost_price, name,
    stock_qty, reorder_level (and category, renamed category_inv); they are
    all NaN when no inventory row matches, which is [None] here. *)
Record MergedRow := mkMerged {
  m_sale : SaleRow;
  m_inv : option InvRow
}.

(** [sales_df.merge(inventory_df[...], on='barcode', how='left')]: one
    output row per matching inventory row, in the order of the ledger. *)
Definition sales_merged (sales : list SaleRow) (inventory : list InvRow)
  : list MergedRow :=
  s ← sales;
  match filter (fun r => inv_barcode r = sale_barcode s) inventory with
  | [] => [mkMerged s None]
  | matches => mkMerged s ∘ Some <$> matches
  end.

(** *** Sidebar filters (lines 51-68) *)

Record Filters := mkFilters {
  date_range : Date * Date;
  selected_categories : list string;
  selected_brands : list string
}.

Definition date_leb (a b : Date) : bool :=
  if decide (d_year a = d_year b) then
    if decide (d_month a = d_month b) then bool_decide (d_day a <= d_day b)
    else bool_decide (d_month a < d_month b)
  else bool_decide (d_year a < d_year b).

Definition m_date (m : MergedRow) : Date := ts_date (sale_timestamp (m_sale m)).

(** The boolean mask of [sales_filtered]. *)
Definition passes (f : Filters) (m : MergedRow) : bool :=
  date_leb (date_range f).1 (m_date m)
  && date_leb (m_date m) (date_range f).2
  && bool_decide (sale_category (m_sale m) ∈ selected_categories f)
  && match m_inv m with
     | Some r => bool_decide (inv_brand r ∈ selected_brands f)
     | None => false
     end.

Definition sales_filtered (f : Filters) (merged : list MergedRow)
  : list MergedRow :=
  filter (fun m => passes f m = true) merged.

(** *** Reorder / low stock logic (lines 96-108) *)

(** [dt.to_period('M')] *)
Definition Month : Type := Z * Z.

Definition month (m : MergedRow) : Month := (d_year (m_date m), d_month (m_date m)).

Definition m_barcode (m : MergedRow) : string := sale_barcode (m_sale m).

Definition sum_qty (rows : list MergedRow) : Z :=
  foldr (fun m acc => sale_qty (m_sale m) + acc) 0 rows.

(** The grouping key of [groupby(['barcode', 'month'])]. *)
Definition key (m : MergedRow) : string * Month := (m_barcode m, month m).

(** [groupby(['barcode', 'month'])['qty'].sum()]: one entry per distinct
    key.  pandas orders the entries by key; every later use is by key. *)
Definition qty_by_barcode_month (rows : list MergedRow)
  : list ((string * Month) * Z) :=
  (fun k => (k, sum_qty (filter (fun m => key m = k) rows)))
    <$> remove_dups (key <$> rows).

(** [Series.mean()] of integers *)
Definition mean (xs : list Z) : Q :=
  (inject_Z (foldr Z.add 0%Z xs) / inject_Z (Z.of_nat (length xs)))%Q.

(** [....groupby('barcode').mean()], a Series indexed by barcode. *)
Definition monthly_sales_per_product (rows : list MergedRow) : gmap string Q :=
  let monthly := qty_by_barcode_month rows in
  list_to_map
    ((fun b => (b, mean (snd <$> filter (fun e => e.1.1 = b) monthly)))
       <$> remove_dups ((fun e => e.1.1) <$> monthly)).

(** [lambda x: max(int(np.ceil(x * 2)), 5)] *)
Definition dynamic_level (x : Q) : Z := Z.max (Qceiling (x * 2)%Q) 5.

Definition reorder_levels (rows : list MergedRow) : gmap string Z :=
  dynamic_level <$> monthly_sales_per_product rows.

(** A row of [inventory_with_reorder]: the inventory row, the merged-in
    column and the filled [reorder_level] column. *)
Record ReorderRow := mkReorder {
  r_inv : InvRow;
  dynamic_reorder_level : option Z;
  reorder_level : Z
}.

(** [fillna(dynamic_reorder_level).fillna(5)] on one row *)
Definition fill_level (explicit dynamic : option Z) : Z :=
  match explicit with
  | Some v => v
  | None => match dynamic with Some d => d | None => 5 end
  end.

Definition inventory_with_reorder (rows : list MergedRow)
           (inventory : list InvRow) : list ReorderRow :=
  (fun r =>
     let dyn := reorder_levels rows !! inv_barcode r in
     mkReorder r dyn (fill_level (inv_reorder_level r) dyn)) <$> inventory.

Definition low_stock_df (rows : list MergedRow) (inventory : list InvRow)
  : list ReorderRow :=
  filter (fun r => inv_stock_qty (r_inv r) <= reorder_level r)
         (inventory_with_reorder rows inventory).

(** *** Reorder quantities (Inventory Status tab, lines 231-239) *)

(** [astype(int)]: truncation towards zero *)
Definition astype_int (x : Q) : Z :=
  if Qlt_le_dec x 0 then Qceiling x else Qfloor x.

(** [max(x, 0)] *)
Definition max0 (x : Q) : Q := if Qlt_le_dec x 0 then 0%Q else x.

Record LowStockRow := mkLow {
  l_row : ReorderRow;
  avg_monthly_sales : Q;
  reorder_qty : Z
}.

Definition low_stock_with_reorder_qty (rows : list MergedRow)
           (inventory : list InvRow) : list LowStockRow :=
  (fun r =>
     let avg := default 0%Q (monthly_sales_per_product rows !! inv_barcode (r_inv r)) in
     mkLow r avg
           (astype_int (max0 (2 * avg - inject_Z (inv_stock_qty (r_inv r)))%Q)))
    <$> low_stock_df rows inventory.

(** *** The whole computation, from the two tables and the filters *)

Definition filtered_rows (sales : list SaleRow) (inventory : list InvRow)
           (f : Filters) : list MergedRow :=
  sales_filtered f (sales_merged sales inventory).

Definition effective_reorder_levels (sales : list SaleRow)
           (inventory : list InvRow) (f : Filters) : list (string * Z) :=
  (fun r => (inv_barcode (r_inv r), reorder_level r))
    <$> inventory_with_reorder (filtered_rows sales inventory f) inventory.

Definition low_stock_barcodes (sales : list SaleRow)
           (inventory : list InvRow) (f : Filters) : list string :=
  (fun r => inv_barcode (r_inv r))
    <$> low_stock_df (filtered_rows sales inventory f) inventory.

End Dashboard.


(** ** The rest of the two scripts *)

Module TillView.
Import Till.

(** *** The reorder warning under the cart (till.py, lines 224-239) *)

(** One iteration of the loop over the cart: the entry appended to
    [low_stock_items], the line's name and the remaining stock.  A line
    whose barcode is not in [PRODUCTS] appends nothing, and a comparison
    with an empty reorder_level cell (NaN) is false. *)
Definition low_stock_item (products : gmap string InvRow)
           (line : CartLine) : option (string * Z) :=
  match products !! line_barcode line with
  | None => None
  | Some product =>
      let remaining_stock := inv_stock_qty product - line_qty line in
      match inv_reorder_level product with
      | Some reorder_level =>
          if decide (remaining_stock <= reorder_level)
          then Some (line_name line, remaining_stock)
          else None
      | None => None
      end
  end.

Definition low_stock_items (s : State) : list (string * Z) :=
  omap (low_stock_item (PRODUCTS s)) (cart (session_state s)).

End TillView.

Module Reports.
Import Dashboard.

(** *** KPI calculations (sales db.py, lines 70-77) *)

Definition sum_Q (xs : list Q) : Q := foldr Qplus 0%Q xs.

(** [sales_filtered['line_total'].sum()] *)
Definition total_sales (rows : list MergedRow) : Q :=
  sum_Q ((fun m => sale_line_total (m_sale m)) <$> rows).

(** [sales_filtered['qty'].sum()] *)
Definition total_units (rows : list MergedRow) : Z := sum_qty rows.

(** [cost_price * qty], NaN ([None]) on a row without inventory match. *)
Definition cost (m : MergedRow) : option Q :=
  (fun r => (inv_cost_price r * inject_Z (sale_qty (m_sale m)))%Q) <$> m_inv m.

(** [sales_filtered['cost'].sum()]; the sum skips NaN. *)
Definition total_cost (rows : list MergedRow) : Q := sum_Q (omap cost rows).

Definition total_profit (rows : list MergedRow) : Q :=
  (total_sales rows - total_cost rows)%Q.

(** *** Sales by category / brand (lines 110-126) *)

(** [(df['line_total'] - df['cost_price'] * df['qty']).sum()]: a row
    without inventory match gives NaN, which the sum skips. *)
Definition calc_profit (df : list MergedRow) : Q :=
  sum_Q (omap (fun m => (fun c => (sale_line_total (m_sale m) - c)%Q) <$> cost m) df).

(** [Series.mean()] *)
Definition mean_Q (xs : list Q) : Q :=
  (sum_Q xs / inject_Z (Z.of_nat (length xs)))%Q.

(** [groupby(key)]: the distinct keys with their rows; rows whose key is
    NaN ([None]) are in no group.  pandas orders the groups by key. *)
Definition groupby {K : Type} `{EqDecision K} (by_key : MergedRow → option K)
           (rows : list MergedRow) : list (K * list MergedRow) :=
  (fun k => (k, filter (fun m => by_key m = Some k) rows))
    <$> remove_dups (omap by_key rows).

(** A row of [sales_by_category] and of [sales_by_brand]. *)
Record Breakdown := mkBreakdown {
  b_total_sales : Q;
  b_units_sold : Z;
  b_avg_discount : Q;
  b_profit : Q
}.

(** The [agg(...)] of one group. *)
Definition agg (group : list MergedRow) : Breakdown :=
  mkBreakdown (total_sales group) (total_units group)
              (mean_Q ((fun m => sale_discount (m_sale m)) <$> group))
              (calc_profit group).

(** [sort_values('total_sales', ascending=False)]; the order of rows with
    equal totals is the one this merge sort gives. *)
Definition more_sales {K : Type} (a b : K * Breakdown) : Prop :=
  Qle_bool (b_total_sales b.2) (b_total_sales a.2) = true.

#[global] Instance more_sales_dec {K : Type} : RelDecision (@more_sales K).
Proof. intros a b. unfold more_sales. apply _. Defined.

Definition sort_by_total_sales {K : Type} (table : list (K * Breakdown))
  : list (K * Breakdown) :=
  merge_sort more_sales table.

Definition sales_by_category (rows : list MergedRow)
  : list (string * Breakdown) :=
  sort_by_total_sales
    ((fun g => (g.1, agg g.2))
       <$> groupby (fun m => Some (sale_category (m_sale m))) rows).

Definition sales_by_brand (rows : list MergedRow)
  : list (string * Breakdown) :=
  sort_by_total_sales
    ((fun g => (g.1, agg g.2))
       <$> groupby (fun m => inv_brand <$> m_inv m) rows).

(** [monthly_sales] (lines 141-144): total sales and units per month. *)
Definition monthly_sales (rows : list MergedRow) : list (Month * (Q * Z)) :=
  (fun g => (g.1, (total_sales g.2, total_units g.2)))
    <$> groupby (fun m => Some (month m)) rows.

End Reports.

Module DashboardRun.
Import Dashboard.

(** *** How far the dashboard script gets *)

(** The two reorder tables of one run of the script: the effective reorder
    level per inventory row and the barcodes of the low-stock rows.  The
    script reaches the reorder logic (lines 96-108) only when some sale
    passes the filters: on an empty ledger it raises at the date widget
    (lines 53-55), and when no sale passes the filters it raises in the
    per-product statistics (lines 84-91); there is no table then. *)
Definition reorder_tables (sales : list SaleRow) (inventory : list InvRow)
           (f : Filters) : option (list (string * Z) * list string) :=
  match filtered_rows sales inventory f with
  | [] => None
  | _ :: _ =>
      Some (effective_reorder_levels sales inventory f,
            low_stock_barcodes sales inventory f)
  end.

End DashboardRun.

Module TillSession.
Import Till.

(** *** The script is run again after every action *)

(** Each run of till.py starts by reading inventory.xlsx again (lines
    16-32): the data frame and the dict are rebuilt from the file, the
    session state is kept.  [None] when [to_dict] raises. *)
Definition rerun (s : State) : option State :=
  load (INVENTORY_FILE s) (SALES_FILE s) (session_state s).

(** A session: every action is followed by a new run of the script. *)
Fixpoint session (es : list Event) (s : State) : option State :=
  match es with
  | [] => Some s
  | e :: rest =>
      match rerun (run_event s e).1 with
      | Some s' => session rest s'
      | None => None
      end
  end.

(** A checkout whose [to_excel] succeeds, or any other action. *)
Definition saves (e : Event) : Prop :=
  match e with
  | Checkout _ _ to_excel_ok => to_excel_ok = true
  | _ => True
  end.

End TillSession.
(** ** Predicates used to state the properties *)

Module TillSpec.
Import Till.

(** The line cannot be served from the stock [PRODUCTS] records. *)
Definition short_of_stock (products : gmap string InvRow)
           (line : CartLine) : Prop :=
  match products !! line_barcode line with
  | None => True
  | Some product => line_qty line > inv_stock_qty product
  end.

Definition is_checkout_error (m : Msg) : Prop :=
  match m with
  | error_not_found_at_checkout _
  | error_insufficient_stock_at_checkout _ => True
  | _ => False
  end.

(** The two warnings of [add_to_cart] about stock. *)
Definition is_insufficient_stock (m : Msg) : Prop :=
  match m with
  | warning_not_enough_stock _ _ | warning_cannot_add _ _ _ => True
  | _ => False
  end.

(** No stock quantity is negative, in the file, in the data frame and in
    the dict. *)
Definition stock_nonneg (s : State) : Prop :=
  Forall (fun r => 0 <= inv_stock_qty r) (INVENTORY_FILE s)
  ∧ Forall (fun r => 0 <= inv_stock_qty r) (inventory_df s)
  ∧ map_Forall (fun _ r => 0 <= inv_stock_qty r) (PRODUCTS s).

(** Every line has a positive quantity and no product has two lines. *)
Definition cart_ok (c : list CartLine) : Prop :=
  Forall (fun l => 1 <= line_qty l) c ∧ NoDup (line_barcode <$> c).

(** Every barcode of the data frame is a key of the dict. *)
Definition in_sync (s : State) : Prop :=
  ∀ r, r ∈ inventory_df s → is_Some (PRODUCTS s !! inv_barcode r).

(** The stock of a row after a cart has been sold. *)
Definition sold (c : list CartLine) (r : InvRow) : InvRow :=
  match find (fun l => bool_decide (line_barcode l = inv_barcode r)) c with
  | Some line => with_stock (Z.max (inv_stock_qty r - line_qty line) 0) r
  | None => r
  end.

Definition sum_Q (xs : list Q) : Q := foldr Qplus 0%Q xs.

(** The subtotal as the specification words it: the sum over the lines of
    unit_price * quantity. *)
Definition subtotal (c : list CartLine) : Q :=
  sum_Q ((fun l => (line_unit_price l * inject_Z (line_qty l))%Q) <$> c).

(** The line total of the sale-wide allocation rule of the specification
    (section 4.2, step 2), before rounding. *)
Definition allocated_total (ty : DiscountType) (discount_value : Q)
           (c : list CartLine) (line : CartLine) : Q :=
  let line_pretotal := (line_unit_price line * inject_Z (line_qty line))%Q in
  match ty with
  | percent => (line_pretotal * (1 - discount_value / 100))%Q
  | fixed =>
      if Qeq_dec (subtotal c) 0 then line_pretotal
      else (line_pretotal - (line_pretotal / subtotal c) * discount_value)%Q
  end.

(** A whole number of cents: a value with two decimals. *)
Definition whole_cents (x : Q) : Prop := ∃ n : Z, x = Qmake n 100.

Definition sum_totals (rows : list SaleRow) : Q :=
  foldr (fun r acc => (sale_line_total r + acc)%Q) 0%Q rows.

End TillSpec.

(** ** Quantities used to state further properties *)

Module TillQuantities.
Import Till TillSpec.

(** The units of a product in the cart. *)
Definition qty_in_cart (b : string) (c : list CartLine) : Z :=
  foldr (fun l acc => (if decide (line_barcode l = b) then line_qty l else 0) + acc)
        0 c.

(** The units of a product in the ledger. *)
Definition units_sold (b : string) (ledger : list SaleRow) : Z :=
  foldr (fun r acc => (if decide (sale_barcode r = b) then sale_qty r else 0) + acc)
        0 ledger.

(** The stock of a product in a table of inventory rows. *)
Definition stock_of (b : string) (rows : list InvRow) : Z :=
  foldr (fun r acc => (if decide (inv_barcode r = b) then inv_stock_qty r else 0) + acc)
        0 rows.

(** Every line is of a product of the dict and asks for no more than its
    stock. *)
Definition within_stock (products : gmap string InvRow)
           (c : list CartLine) : Prop :=
  Forall (fun l => ∃ p, products !! line_barcode l = Some p
                        ∧ line_qty l <= inv_stock_qty p) c.

(** The dict holds, under each barcode, the first row of the data frame
    with that barcode. *)
Definition mirrors (products : gmap string InvRow) (df : list InvRow) : Prop :=
  ∀ b, products !! b = snd <$> list_find (fun r => inv_barcode r = b) df.

(** The dict is the one [to_dict] builds from the data frame, the cart has
    one line of positive quantity per product, within stock. *)
Definition consistent (s : State) : Prop :=
  to_dict (inventory_df s) = Some (PRODUCTS s)
  ∧ cart_ok (cart (session_state s))
  ∧ within_stock (PRODUCTS s) (cart (session_state s)).

End TillQuantities.

Module ReportSums.
Import Reports.

(** The column sums of a breakdown table. *)
Definition units_column {K : Type} (table : list (K * Breakdown)) : Z :=
  foldr (fun r acc => b_units_sold r.2 + acc) 0 table.

Definition sales_column {K : Type} (table : list (K * Breakdown)) : Q :=
  foldr (fun r acc => (b_total_sales r.2 + acc)%Q) 0%Q table.

Definition profit_column {K : Type} (table : list (K * Breakdown)) : Q :=
  foldr (fun r acc => (b_profit r.2 + acc)%Q) 0%Q table.

(** The sum over a list of rows of an integer or a rational weight. *)
Definition sum_Z_of {A : Type} (w : A → Z) (l : list A) : Z :=
  foldr (fun x acc => w x + acc) 0 l.

Definition sum_Q_of {A : Type} (w : A → Q) (l : list A) : Q :=
  foldr (fun x acc => (w x + acc)%Q) 0%Q l.

(** A breakdown table before it is sorted. *)
Definition table {K : Type} `{EqDecision K}
           (by_key : Dashboard.MergedRow → option K)
           (rows : list Dashboard.MergedRow) : list (K * Breakdown) :=
  (fun g => (g.1, agg g.2)) <$> groupby by_key rows.

(** What a line contributes to the profit: nothing without a match. *)
Definition profit_of (m : Dashboard.MergedRow) : Q :=
  match cost m with
  | Some c => (sale_line_total (Dashboard.m_sale m) - c)%Q
  | None => 0%Q
  end.

End ReportSums.
(** ** Sample data *)

Module Sample.
Import Till.

Definition apple : InvRow :=
  mkInv "1001" "Apple" "Fruit" "Acme" "Fresh Ltd" 100%Q 60%Q "1kg" 10 None true.

Definition beer : InvRow :=
  mkInv "2002" "Beer" "Drinks" "Brew" "Hops Ltd" 200%Q 120%Q "6" 3 (Some 4) false.

Definition milk : InvRow :=
  mkInv "3003" "Milk" "Dairy" "Acme" "Fresh Ltd" 200%Q 150%Q "1l" 5 (Some 2) true.

(** inventory.xlsx: two active rows and an inactive one *)
Definition shop_file : list InvRow := [apple; beer; milk].

Definition with_session (ss : Session) : State :=
  mkState shop_file [] [apple; milk]
          (<["1001" := apple]> (<["3003" := milk]> ∅)) ss.

(** The till right after loading [shop_file]. *)
Definition shop : State := with_session new_session.

Definition noon : Timestamp := mkTs (mkDate 2024 3 15) 43200.

Definition apple_line (qty : Z) : CartLine :=
  mkLine "line-1" "1001" "Apple" qty 100%Q "Fruit" "1kg".

Definition milk_line (qty : Z) : CartLine :=
  mkLine "line-2" "3003" "Milk" qty 200%Q "Dairy" "1l".

(** One apple and one milk in the cart, 30 off the sale. *)
Definition two_lines : State :=
  with_session (mkSession [apple_line 1; milk_line 1] "M-7" 30%Q fixed).

(** A line for more apples than the stock holds. *)
Definition too_many : State :=
  with_session (mkSession [milk_line 1; apple_line 11] "" 0%Q percent).

(** Eight apples already in the cart. *)
Definition eight_apples : State :=
  with_session (mkSession [apple_line 8] "" 0%Q percent).

Definition browsing : list Event :=
  [Scan "line-1" "1001" 2; Select "line-2" "3003"; Scan "line-3" "1001" 3;
   Scan "line-4" "1001" 0; RemoveOne "line-2"; Select "line-5" "3003";
   Scan "line-6" "3003" 2].

Definition busy_morning : list Event :=
  [Scan "line-1" "1001" 2; Select "line-2" "3003"; Scan "line-3" "1001" 0;
   RemoveOne "line-1"; SetDiscount fixed 30%Q; Checkout "sale-1" noon true;
   Select "line-4" "3003"; Checkout "sale-2" noon false].

(** The ledger of the dashboard: apples sold in two months, milk once. *)
Definition sale (b n cat : string) (day : Date) (qty : Z) (price : Q) : SaleRow :=
  mkSale "sale" (mkTs day 43200) "" b n cat qty price
         (price * inject_Z qty)%Q 0%Q.

Definition ledger : list SaleRow :=
  [sale "1001" "Apple" "Fruit" (mkDate 2024 2 10) 4 100%Q;
   sale "1001" "Apple" "Fruit" (mkDate 2024 3 5) 1 100%Q;
   sale "3003" "Milk" "Dairy" (mkDate 2024 3 9) 2 200%Q;
   sale "1001" "Apple" "Fruit" (mkDate 2024 3 12) 5 100%Q].

(** The default filters: the last 90 days, every category, every brand. *)
Definition all_sales : Dashboard.Filters :=
  Dashboard.mkFilters (mkDate 2023 12 13, mkDate 2024 3 12)
                      ["Dairy"; "Fruit"] ["Acme"].

(** The same with the category Fruit deselected. *)
Definition dairy_only : Dashboard.Filters :=
  Dashboard.mkFilters (mkDate 2023 12 13, mkDate 2024 3 12)
                      ["Dairy"] ["Acme"].

(** The same rows selected by a shorter date range. *)
Definition since_february : Dashboard.Filters :=
  Dashboard.mkFilters (mkDate 2024 2 1, mkDate 2024 3 12)
                      ["Dairy"; "Fruit"] ["Acme"].

End Sample.


Module MoreSample.
Import Till Dashboard Sample.

Definition first_sale : MergedRow :=
  mkMerged (sale "1001" "Apple" "Fruit" (mkDate 2024 2 10) 4 100%Q) (Some apple).

Definition few_apples : InvRow := with_stock 3 apple.

Definition apple_reorder : LowStockRow :=
  mkLow (mkReorder apple (Some 10) 10) (10 # 2)%Q 0.

Definition three_milk : CartLine :=
  mkLine "line-1" "3003" "Milk" 3 200%Q "Dairy" "1l".

(** A morning in which every checkout writes the inventory file. *)
Definition saving_morning : list Event :=
  [Scan "line-1" "1001" 2; Select "line-2" "3003"; RemoveOne "line-1";
   SetDiscount fixed 30%Q; Checkout "sale-1" noon true;
   Select "line-4" "3003"; Checkout "sale-2" noon true].

End MoreSample.

(** ** The Reorder Analyzer as the specification words it *)

Module DashboardSpec.
Import Dashboard.

(** The ledger rows of one product. *)
Definition rows_of (b : string) (ledger : list MergedRow) : list MergedRow :=
  filter (fun m => m_barcode m = b) ledger.

(** The calendar months the product appears in. *)
Definition months_of (b : string) (ledger : list MergedRow) : list Month :=
  remove_dups (month <$> rows_of b ledger).

(** Step 1: the summed quantity of the product in one month. *)
Definition monthly_quantity (b : string) (mo : Month)
           (ledger : list MergedRow) : Z :=
  sum_qty (filter (fun m => month m = mo) (rows_of b ledger)).

(** Step 2: the mean of the monthly quantities over the months the product
    appears in; none for a product without sales. *)
Definition avgMonthlySales (b : string) (ledger : list MergedRow) : option Q :=
  match months_of b ledger with
  | [] => None
  | months =>
      let total :=
        foldr Z.add 0 ((fun mo => monthly_quantity b mo ledger) <$> months) in
      Some (inject_Z total / inject_Z (Z.of_nat (length months)))%Q
  end.

(** Step 3: max(ceil(avgMonthlySales * 2), 5) *)
Definition dynamic_reorder_level (avg : Q) : Z :=
  Z.max (Qceiling (avg * 2)%Q) 5.

(** Step 4: the explicit level if there is one, else the dynamic level,
    else 5. *)
Definition effective_reorder_level (r : InvRow) (ledger : list MergedRow) : Z :=
  match inv_reorder_level r with
  | Some explicit => explicit
  | None =>
      match avgMonthlySales (inv_barcode r) ledger with
      | Some avg => dynamic_reorder_level avg
      | None => 5
      end
  end.

(** Step 5 *)
Definition is_low_stock (r : InvRow) (ledger : list MergedRow) : Prop :=
  inv_stock_qty r <= effective_reorder_level r ledger.

(** The integer part of a rational, towards zero. *)
Definition truncate (x : Q) : Z := Z.quot (Qnum x) (Zpos (Qden x)).

(** Step 6: max(2 * avgMonthlySales - stock_quantity, 0) truncated to an
    integer; a product without sales has average 0. *)
Definition suggested_reorder_quantity (r : InvRow)
           (ledger : list MergedRow) : Z :=
  let avg := default 0%Q (avgMonthlySales (inv_barcode r) ledger) in
  truncate (Qmax (2 * avg - inject_Z (inv_stock_qty r)) 0)%Q.

End DashboardSpec.
(** ** Facts about rounding *)

Lemma round_half_even_comp (x y : Q) :
  (x == y)%Q → round_half_even x = round_half_even y.
Proof.
  intros E. unfold round_half_even.
  rewrite (Qfloor_comp _ _ E).
  assert (C : ((x - inject_Z (Qfloor y)) ?= (1 # 2))%Q
            = ((y - inject_Z (Qfloor y)) ?= (1 # 2))%Q).
  { apply Qcompare_comp; [ rewrite E | ]; reflexivity. }
  rewrite C. reflexivity.
Qed.

Lemma round_half_even_near (x : Q) :
  (Qabs (inject_Z (round_half_even x) - x) <= 1 # 2)%Q.
Proof.
  unfold round_half_even.
  pose proof (Qfloor_le x) as Hlo.
  pose proof (Qlt_floor x) as Hhi.
  rewrite inject_Z_plus in Hhi. change (inject_Z 1) with 1%Q in Hhi.
  apply Qabs_Qle_condition.
  destruct (Qcompare_spec (x - inject_Z (Qfloor x)) (1 # 2)) as [E | L | G].
  - destruct (Z.even (Qfloor x)).
    + split; lra.
    + rewrite inject_Z_plus. change (inject_Z 1) with 1%Q. split; lra.
  - split; lra.
  - rewrite inject_Z_plus. change (inject_Z 1) with 1%Q. split; lra.
Qed.

Lemma round2_comp (x y : Q) : (x == y)%Q → round2 x = round2 y.
Proof.
  intros E. unfold round2. f_equal. apply round_half_even_comp.
  rewrite E. reflexivity.
Qed.

Lemma round2_near (x : Q) : (Qabs (round2 x - x) <= 1 # 200)%Q.
Proof.
  pose proof (round_half_even_near (x * 100)) as H.
  apply Qabs_Qle_condition in H. apply Qabs_Qle_condition.
  unfold round2.
  assert (D : (round_half_even (x * 100) # 100
               == inject_Z (round_half_even (x * 100)) * (1 # 100))%Q).
  { unfold Qeq; simpl; lia. }
  split; lra.
Qed.
(** ** Properties of the till *)

Module TillProps.
Import Till TillSpec.

(** *** The stock check of checkout *)

Lemma check_stock_fails products c :
  Exists (short_of_stock products) c →
  ∃ err, check_stock products c = Some err ∧ is_checkout_error err.
Proof.
  induction c as [| line rest IH]; intros E.
  - inversion E.
  - simpl. unfold short_of_stock in E.
    destruct (products !! line_barcode line) as [product |] eqn:L.
    + destruct (decide (line_qty line > inv_stock_qty product)) as [G | G].
      * eexists; split; [reflexivity | exact I].
      * apply IH. inversion E as [? ? E1 | ? ? E1]; subst; [| exact E1].
        rewrite L in E1. contradiction.
    + eexists; split; [reflexivity | exact I].
Qed.

Lemma check_stock_passes products c :
  check_stock products c = None ↔ Forall (fun l => ¬ short_of_stock products l) c.
Proof.
  induction c as [| line rest IH]; simpl.
  - split; [constructor | reflexivity].
  - rewrite Forall_cons. unfold short_of_stock at 1.
    destruct (products !! line_barcode line) as [product |].
    + destruct (decide (line_qty line > inv_stock_qty product)) as [G | G].
      * split; [discriminate | tauto].
      * rewrite IH. tauto.
    + split; [discriminate | tauto].
Qed.

(** C1: when some cart line asks for more than the stock of its product, or
    its product is not in the inventory, checkout reports an error and
    returns the state it was given: no ledger row, no stock change, the
    same cart. *)
Theorem checkout_all_or_nothing sid ts to_excel_ok s :
  Exists (short_of_stock (PRODUCTS s)) (cart (session_state s)) →
  ∃ err, is_checkout_error err
         ∧ checkout sid ts to_excel_ok s = (s, [err]).
Proof.
  intros E. destruct (check_stock_fails _ _ E) as (err & C & Herr).
  exists err. split; [exact Herr |].
  unfold checkout. rewrite C. reflexivity.
Qed.


(** What a checkout that passes the stock check returns. *)
Lemma checkout_passes sid ts to_excel_ok s :
  check_stock (PRODUCTS s) (cart (session_state s)) = None →
  let c := cart (session_state s) in
  let member := member_id (session_state s) in
  let g := fold_left sell_line c (inventory_df s, PRODUCTS s) in
  checkout sid ts to_excel_ok s =
    (mkState (if to_excel_ok then g.1 else INVENTORY_FILE s)
             (SALES_FILE s ++ (sale_row sid ts member (session_state s) c <$> c))
             g.1 g.2
             (mkSession [] "" 0%Q (discount_type (session_state s))),
     (if to_excel_ok then [] else [error_failed_to_save_inventory])
       ++ [success_sale_saved member]).
Proof.
  intros C. unfold checkout. rewrite C.
  unfold update_inventory_after_checkout, save_sale, reset_session; simpl.
  destruct to_excel_ok; reflexivity.
Qed.

(** C7: when the stock check passes and writing the inventory file fails,
    the error is reported, the ledger rows of the sale stay appended, the
    data frame and the dict keep the decremented stock (they are what they
    are when the write succeeds), and the file is as it was. *)
Theorem failed_save_is_not_rolled_back sid ts s :
  check_stock (PRODUCTS s) (cart (session_state s)) = None →
  let c := cart (session_state s) in
  let failed := checkout sid ts false s in
  let saved := checkout sid ts true s in
  error_failed_to_save_inventory ∈ failed.2
  ∧ SALES_FILE failed.1
    = SALES_FILE s
        ++ (sale_row sid ts (member_id (session_state s)) (session_state s) c <$> c)
  ∧ inventory_df failed.1 = (fold_left sell_line c (inventory_df s, PRODUCTS s)).1
  ∧ PRODUCTS failed.1 = (fold_left sell_line c (inventory_df s, PRODUCTS s)).2
  ∧ inventory_df failed.1 = inventory_df saved.1
  ∧ PRODUCTS failed.1 = PRODUCTS saved.1
  ∧ SALES_FILE failed.1 = SALES_FILE saved.1
  ∧ INVENTORY_FILE failed.1 = INVENTORY_FILE s.
Proof.
  intros C c failed saved. subst failed saved.
  rewrite !(checkout_passes _ _ _ _ C). simpl.
  repeat split; try reflexivity. apply list_elem_of_here.
Qed.

(** C10: checkout of an empty cart passes the stock check, appends no
    ledger row, leaves the data frame and the dict as they are, writes the
    data frame to the inventory file, empties the cart, clears the
    membership id, sets the discount to 0 and reports success. *)
Theorem checkout_empty_cart sid ts s :
  cart (session_state s) = [] →
  check_stock (PRODUCTS s) (cart (session_state s)) = None
  ∧ checkout sid ts true s =
      (mkState (inventory_df s) (SALES_FILE s) (inventory_df s) (PRODUCTS s)
               (mkSession [] "" 0%Q (discount_type (session_state s))),
       [success_sale_saved (member_id (session_state s))]).
Proof.
  intros E.
  assert (C : check_stock (PRODUCTS s) (cart (session_state s)) = None)
    by (rewrite E; reflexivity).
  split; [exact C |].
  rewrite (checkout_passes _ _ _ _ C). rewrite E. simpl.
  rewrite app_nil_r. reflexivity.
Qed.


(** *** The cart *)

Lemma merge_line_no_line barcode qty stock c :
  merge_line barcode qty stock c = no_line ↔ barcode ∉ line_barcode <$> c.
Proof.
  induction c as [| line rest IH]; simpl.
  - split; [intros _; apply not_elem_of_nil | reflexivity].
  - rewrite not_elem_of_cons.
    destruct (decide (line_barcode line = barcode)) as [E | N].
    + split; [| intros [? _]; congruence].
      destruct (decide (line_qty line + qty > stock)); discriminate.
    + destruct (merge_line barcode qty stock rest).
      * split; [discriminate |]. intros [_ H]. apply IH in H. discriminate.
      * split; [discriminate |]. intros [_ H]. apply IH in H. discriminate.
      * split; [| reflexivity]. intros _. split; [congruence | by apply IH].
Qed.

(** With one line per product, the line the loop stops at is the line of
    the product. *)
Lemma merge_line_refuses barcode qty stock c line :
  NoDup (line_barcode <$> c) →
  line ∈ c → line_barcode line = barcode →
  line_qty line + qty > stock →
  merge_line barcode qty stock c = refused line.
Proof.
  induction c as [| l rest IH]; intros ND I B G.
  - inversion I.
  - simpl in *. apply NoDup_cons in ND as [NI ND].
    apply elem_of_cons in I as [-> | I].
    + rewrite decide_True by exact B. rewrite decide_True by exact G.
      reflexivity.
    + destruct (decide (line_barcode l = barcode)) as [E | N].
      * exfalso. apply NI. rewrite E, <- B. by apply list_elem_of_fmap_2.
      * rewrite (IH ND I B G). reflexivity.
Qed.

Lemma merge_line_merged barcode qty stock c c' :
  merge_line barcode qty stock c = merged c' →
  line_barcode <$> c' = line_barcode <$> c
  ∧ (1 <= qty → Forall (fun l => 1 <= line_qty l) c →
     Forall (fun l => 1 <= line_qty l) c').
Proof.
  revert c'. induction c as [| l rest IH]; intros c' M; simpl in M.
  - discriminate.
  - destruct (decide (line_barcode l = barcode)) as [E | N].
    + destruct (decide (line_qty l + qty > stock)); [discriminate |].
      injection M as <-. split; [reflexivity |].
      intros Q F. apply Forall_cons in F as [F1 F2].
      apply Forall_cons; split; [simpl; lia | exact F2].
    + destruct (merge_line barcode qty stock rest) as [r | |];
        try discriminate.
      injection M as <-. destruct (IH r eq_refl) as [B F]. split.
      * rewrite !fmap_cons. by rewrite B.
      * intros Q F0. apply Forall_cons in F0 as [F1 F2].
        apply Forall_cons; split; [exact F1 | by apply F].
Qed.

(** [add_to_cart] only ever replaces the cart. *)
Lemma add_to_cart_frame uuid barcode qty s :
  ∃ c, (add_to_cart uuid barcode qty s).1 = set_cart c s.
Proof.
  exists (cart (session_state (add_to_cart uuid barcode qty s).1)).
  unfold add_to_cart.
  destruct s as [f l df p [c m d t]]; simpl.
  destruct (p !! barcode) as [product |]; [| reflexivity].
  destruct (decide (qty > inv_stock_qty product)); [reflexivity |].
  destruct (merge_line barcode qty (inv_stock_qty product) c); reflexivity.
Qed.

(** C8: [add_to_cart] refuses, with one of its two stock warnings and
    without changing the state, a quantity above the stock of the product,
    and a quantity that together with the quantity of the product's line
    in the cart is above the stock (the cart has one line per product, as
    every cart of the till has); whenever it warns, the state is the one it
    was given; and it never changes the inventory file, the data frame, the
    dict or the ledger. *)
Theorem add_to_cart_checks_stock uuid barcode qty s :
  let r := add_to_cart uuid barcode qty s in
  (∀ product,
      PRODUCTS s !! barcode = Some product →
      NoDup (line_barcode <$> cart (session_state s)) →
      (qty > inv_stock_qty product
       ∨ ∃ line, line ∈ cart (session_state s)
                 ∧ line_barcode line = barcode
                 ∧ line_qty line + qty > inv_stock_qty product) →
      ∃ w, is_insufficient_stock w ∧ r = (s, [w]))
  ∧ (r.2 ≠ [] → r.1 = s)
  ∧ INVENTORY_FILE r.1 = INVENTORY_FILE s
  ∧ inventory_df r.1 = inventory_df s
  ∧ PRODUCTS r.1 = PRODUCTS s
  ∧ SALES_FILE r.1 = SALES_FILE s.
Proof.
  intros r. split; [| split].
  - intros product L ND H. subst r. unfold add_to_cart. rewrite L.
    destruct (decide (qty > inv_stock_qty product)) as [G | G].
    + eexists; split; [| reflexivity]. exact I.
    + destruct H as [H | (line & Hin & B & H)]; [contradiction |].
      rewrite (merge_line_refuses _ _ _ _ line ND Hin B H).
      eexists; split; [| reflexivity]. exact I.
  - subst r. unfold add_to_cart.
    destruct (PRODUCTS s !! barcode) as [product |]; [| reflexivity].
    destruct (decide (qty > inv_stock_qty product)); [reflexivity |].
    destruct (merge_line barcode qty (inv_stock_qty product)
                         (cart (session_state s)));
      simpl; intros H; [contradiction | reflexivity | contradiction].
  - destruct (add_to_cart_frame uuid barcode qty s) as [c E].
    subst r. rewrite E. repeat split; reflexivity.
Qed.


Lemma add_to_cart_cart_ok uuid barcode qty s :
  1 <= qty →
  cart_ok (cart (session_state s)) →
  cart_ok (cart (session_state (add_to_cart uuid barcode qty s).1)).
Proof.
  intros Q [F ND]. unfold add_to_cart.
  destruct (PRODUCTS s !! barcode) as [product |]; [| by split].
  destruct (decide (qty > inv_stock_qty product)); [by split |].
  destruct (merge_line barcode qty (inv_stock_qty product)
                       (cart (session_state s))) as [c' | l |] eqn:M.
  - destruct (merge_line_merged _ _ _ _ _ M) as [B F'].
    split; simpl; [by apply F' | by rewrite B].
  - by split.
  - apply merge_line_no_line in M. split; simpl.
    + apply Forall_app; split; [exact F |].
      apply Forall_cons; split; [exact Q | constructor].
    + rewrite fmap_app. apply NoDup_app. repeat split.
      * exact ND.
      * intros b Hb Hb'. simpl in Hb'. apply list_elem_of_singleton in Hb'.
        subst b. contradiction.
      * apply NoDup_singleton.
Qed.

(** The line that [find] returns is the one [decrement_first] changes. *)
Lemma decrement_first_cart_ok id c line :
  find (fun l => bool_decide (line_id l = id)) c = Some line →
  line_qty line > 1 →
  cart_ok c → cart_ok (decrement_first id c).
Proof.
  intros Fd G [F ND]. revert Fd F ND.
  induction c as [| l rest IH]; simpl; intros Fd F ND.
  - discriminate.
  - apply Forall_cons in F as [F1 F2]. rewrite ?fmap_cons in ND.
    apply NoDup_cons in ND as [NI ND].
    destruct (decide (line_id l = id)) as [E | N].
    + rewrite bool_decide_eq_true_2 in Fd by exact E.
      injection Fd as ->. split.
      * apply Forall_cons; split; [simpl; lia | exact F2].
      * rewrite fmap_cons. simpl. apply NoDup_cons; split; assumption.
    + rewrite bool_decide_eq_false_2 in Fd by exact N.
      destruct (IH Fd F2 ND) as [F' ND'].
      assert (B : line_barcode <$> decrement_first id rest
                  = line_barcode <$> rest).
      { clear. induction rest as [| x xs IHx]; simpl; [reflexivity |].
        destruct (decide (line_id x = id)); rewrite !fmap_cons; simpl;
          [reflexivity | by rewrite IHx]. }
      split.
      * apply Forall_cons; split; assumption.
      * rewrite fmap_cons, B. apply NoDup_cons; split; assumption.
Qed.

Lemma filter_cart_ok (P : CartLine → Prop) `{!∀ l, Decision (P l)} c :
  cart_ok c → cart_ok (filter P c).
Proof.
  intros [F ND]. induction c as [| l rest IH]; [by split |].
  apply Forall_cons in F as [F1 F2]. rewrite fmap_cons in ND.
  apply NoDup_cons in ND as [NI ND]. destruct (IH F2 ND) as [F' ND'].
  rewrite filter_cons. destruct (decide (P l)); [| by split].
  split.
  - apply Forall_cons; split; assumption.
  - rewrite fmap_cons. apply NoDup_cons; split; [| exact ND'].
    intros Hin. apply NI. apply list_elem_of_fmap in Hin as (x & -> & Hx).
    apply list_elem_of_filter in Hx as [_ Hx]. by apply list_elem_of_fmap_2.
Qed.

Lemma remove_one_cart_ok id s :
  cart_ok (cart (session_state s)) →
  cart_ok (cart (session_state (remove_one_from_cart id s))).
Proof.
  intros OK. unfold remove_one_from_cart.
  destruct (find _ (cart (session_state s))) as [line |] eqn:Fd;
    [| exact OK].
  destruct (decide (line_qty line > 1)) as [G | G]; simpl.
  - by apply (decrement_first_cart_ok id _ line).
  - by apply filter_cart_ok.
Qed.

Lemma checkout_cart sid ts ok s :
  (checkout sid ts ok s).1 = s
  ∨ cart (session_state (checkout sid ts ok s).1) = [].
Proof.
  destruct (check_stock (PRODUCTS s) (cart (session_state s))) eqn:C.
  - left. unfold checkout. rewrite C. reflexivity.
  - right. rewrite (checkout_passes _ _ _ _ C). reflexivity.
Qed.

Lemma run_event_cart_ok s e :
  cart_ok (cart (session_state s)) →
  cart_ok (cart (session_state (run_event s e).1)).
Proof.
  intros OK. destruct e as [u code q | u b | id | m | ty v | sid ts ok]; simpl.
  - unfold handle_scan. destruct (decide (q <= 0)); [exact OK |].
    destruct (decide (code = "")); [exact OK |].
    apply add_to_cart_cart_ok; [lia | exact OK].
  - apply add_to_cart_cart_ok; [lia | exact OK].
  - by apply remove_one_cart_ok.
  - exact OK.
  - unfold set_discount. destruct (Qlt_le_dec v 0); exact OK.
  - destruct (checkout_cart sid ts ok s) as [-> | ->]; [exact OK |].
    split; [constructor | apply NoDup_nil_2].
Qed.

Lemma run_cart_ok es s :
  cart_ok (cart (session_state s)) →
  cart_ok (cart (session_state (run es s))).
Proof.
  revert s. induction es as [| e es IH]; intros s OK; [exact OK |].
  apply IH. by apply run_event_cart_ok.
Qed.

(** C9: in the cart the session reaches from the empty cart by any
    sequence of actions (scans, selections by name, removals, checkouts,
    changes of member and discount), every line has a quantity of at least
    1 and no two lines have the same barcode. *)
Theorem cart_lines_positive_and_distinct es s :
  cart (session_state s) = [] →
  Forall (fun l => 1 <= line_qty l) (cart (session_state (run es s)))
  ∧ NoDup (line_barcode <$> cart (session_state (run es s))).
Proof.
  intros E. apply run_cart_ok. rewrite E.
  split; [constructor | apply NoDup_nil_2].
Qed.


(** *** The inventory after a checkout *)

Lemma sell_line_barcodes g line :
  inv_barcode <$> (sell_line g line).1 = inv_barcode <$> g.1.
Proof.
  unfold sell_line.
  destruct (list_find _ g.1) as [[idx row] |] eqn:Fd; [| reflexivity].
  apply list_find_Some in Fd as (L & _ & _). simpl.
  rewrite list_fmap_insert. simpl. apply list_insert_id.
  rewrite list_lookup_fmap, L. reflexivity.
Qed.

Lemma sell_line_keys g line b :
  is_Some ((sell_line g line).2 !! b) ↔ is_Some (g.2 !! b).
Proof.
  unfold sell_line.
  destruct (list_find _ g.1) as [[idx row] |]; [| reflexivity].
  simpl. rewrite lookup_alter. case_decide; [subst |]; [| reflexivity].
  apply fmap_is_Some.
Qed.

Lemma sell_line_nonneg g line :
  Forall (fun r => 0 <= inv_stock_qty r) g.1 →
  map_Forall (fun _ r => 0 <= inv_stock_qty r) g.2 →
  Forall (fun r => 0 <= inv_stock_qty r) (sell_line g line).1
  ∧ map_Forall (fun _ r => 0 <= inv_stock_qty r) (sell_line g line).2.
Proof.
  intros F M. unfold sell_line.
  destruct (list_find _ g.1) as [[idx row] |]; [| by split].
  simpl. split.
  - apply Forall_insert; [exact F | simpl; lia].
  - intros b r. rewrite lookup_alter. case_decide; [| apply M].
    intros (r0 & _ & ->)%fmap_Some. simpl. lia.
Qed.

Lemma sell_cart_nonneg c g :
  Forall (fun r => 0 <= inv_stock_qty r) g.1 →
  map_Forall (fun _ r => 0 <= inv_stock_qty r) g.2 →
  Forall (fun r => 0 <= inv_stock_qty r) (fold_left sell_line c g).1
  ∧ map_Forall (fun _ r => 0 <= inv_stock_qty r) (fold_left sell_line c g).2.
Proof.
  revert g. induction c as [| line rest IH]; intros g F M; [by split |].
  simpl. destruct (sell_line_nonneg g line F M) as [F' M']. by apply IH.
Qed.

Lemma sell_cart_barcodes c g :
  inv_barcode <$> (fold_left sell_line c g).1 = inv_barcode <$> g.1.
Proof.
  revert g. induction c as [| line rest IH]; intros g; [reflexivity |].
  simpl. rewrite IH. apply sell_line_barcodes.
Qed.

Lemma sell_cart_keys c g b :
  is_Some ((fold_left sell_line c g).2 !! b) ↔ is_Some (g.2 !! b).
Proof.
  revert g. induction c as [| line rest IH]; intros g; [reflexivity |].
  simpl. rewrite IH. apply sell_line_keys.
Qed.

(** Selling one line, when no two rows share a barcode. *)
Lemma sell_line_sold df products line :
  NoDup (inv_barcode <$> df) →
  (sell_line (df, products) line).1 = sold [line] <$> df.
Proof.
  intros ND. unfold sell_line. simpl.
  destruct (list_find _ df) as [[idx row] |] eqn:Fd.
  - apply list_find_Some in Fd as (L & B & _). simpl.
    apply list_eq. intros j. rewrite list_lookup_fmap.
    destruct (decide (j = idx)) as [-> | N].
    + rewrite list_lookup_insert_eq by (by eapply lookup_lt_Some).
      rewrite L. simpl. unfold sold. simpl.
      rewrite bool_decide_eq_true_2 by (by symmetry). reflexivity.
    + rewrite list_lookup_insert_ne by congruence.
      destruct (df !! j) as [y |] eqn:Lj; [| reflexivity]. simpl.
      unfold sold. simpl.
      rewrite bool_decide_eq_false_2; [reflexivity |].
      intros E. apply N.
      apply (NoDup_lookup _ j idx (inv_barcode y) ND);
        rewrite list_lookup_fmap; [by rewrite Lj |].
      rewrite L. simpl. congruence.
  - apply list_find_None in Fd. simpl.
    rewrite <- (list_fmap_id df) at 1. apply list_fmap_ext.
    intros i y Hy. unfold sold. simpl.
    rewrite bool_decide_eq_false_2; [reflexivity |].
    intros E. eapply Forall_lookup_1 in Fd; [| exact Hy]. by apply Fd.
Qed.

Lemma sold_barcode c r : inv_barcode (sold c r) = inv_barcode r.
Proof. unfold sold. by destruct (find _ c). Qed.

(** Selling a cart with one line per product: every row of the data frame
    whose product is in the cart gets stock [max (stock - qty) 0], every
    other row is as it was. *)
Lemma sell_cart_sold c df products :
  NoDup (inv_barcode <$> df) →
  NoDup (line_barcode <$> c) →
  (fold_left sell_line c (df, products)).1 = sold c <$> df.
Proof.
  revert df products. induction c as [| line rest IH]; intros df products NDf NDc.
  - simpl. symmetry. apply list_fmap_id.
  - rewrite fmap_cons in NDc. apply NoDup_cons in NDc as [NI NDc]. simpl.
    pose proof (sell_line_sold df products line NDf) as E.
    destruct (sell_line (df, products) line) as [df1 p1]. simpl in E. subst df1.
    rewrite IH; [| | exact NDc].
    + rewrite <- list_fmap_compose. apply list_fmap_ext. intros i r _. simpl.
      unfold sold at 2 3. simpl.
      destruct (bool_decide (line_barcode line = inv_barcode r)) eqn:B;
        [| reflexivity].
      apply bool_decide_eq_true in B. unfold sold. simpl.
      destruct (find _ rest) as [l |] eqn:Fd; [| reflexivity].
      exfalso. apply NI. apply find_some in Fd as [Hin Hb].
      apply bool_decide_eq_true in Hb. rewrite B, <- Hb.
      apply list_elem_of_fmap_2. by apply list_elem_of_In.
    + rewrite <- list_fmap_compose.
      erewrite list_fmap_ext; [exact NDf |]. intros i r _. simpl.
      apply sold_barcode.
Qed.


Lemma checkout_nonneg sid ts ok s :
  stock_nonneg s → stock_nonneg (checkout sid ts ok s).1.
Proof.
  intros (Ff & Fd & Fp).
  destruct (check_stock (PRODUCTS s) (cart (session_state s))) eqn:C.
  - unfold checkout. rewrite C. by repeat split.
  - rewrite (checkout_passes _ _ _ _ C).
    destruct (sell_cart_nonneg (cart (session_state s))
                (inventory_df s, PRODUCTS s) Fd Fp) as [Fd' Fp'].
    unfold stock_nonneg. simpl. destruct ok; by repeat split.
Qed.

Lemma run_event_nonneg s e :
  stock_nonneg s → stock_nonneg (run_event s e).1.
Proof.
  intros OK. destruct e as [u code q | u b | id | m | ty v | sid ts ok]; simpl.
  - unfold handle_scan. destruct (decide (q <= 0)); [exact OK |].
    destruct (decide (code = "")); [exact OK |].
    destruct (add_to_cart_frame u code q s) as [c ->]. exact OK.
  - destruct (add_to_cart_frame u b 1 s) as [c ->]. exact OK.
  - unfold remove_one_from_cart. destruct (find _ _); [| exact OK].
    destruct (decide _); exact OK.
  - exact OK.
  - unfold set_discount. destruct (Qlt_le_dec v 0); exact OK.
  - by apply checkout_nonneg.
Qed.

Lemma run_nonneg es s : stock_nonneg s → stock_nonneg (run es s).
Proof.
  revert s. induction es as [| e es IH]; intros s OK; [exact OK |].
  apply IH. by apply run_event_nonneg.
Qed.

(** C2: from a state in which no stock quantity is negative, no sequence
    of actions, so no sequence of checkouts, makes a stock quantity of the
    file, of the data frame or of the dict negative; and a checkout that
    passes the stock check leaves each row of the data frame with stock
    [max (stock - quantity sold) 0] when its product is in the cart and as
    it was otherwise (one row per barcode, one line per product). *)
Theorem stock_never_negative es s :
  stock_nonneg s →
  stock_nonneg (run es s)
  ∧ (∀ sid ts ok,
        NoDup (inv_barcode <$> inventory_df s) →
        NoDup (line_barcode <$> cart (session_state s)) →
        check_stock (PRODUCTS s) (cart (session_state s)) = None →
        inventory_df (checkout sid ts ok s).1
        = sold (cart (session_state s)) <$> inventory_df s)
  ∧ (∀ c r, 0 <= inv_stock_qty r → 0 <= inv_stock_qty (sold c r)).
Proof.
  intros OK. split; [by apply run_nonneg | split].
  - intros sid ts ok NDf NDc C. rewrite (checkout_passes _ _ _ _ C). simpl.
    by apply sell_cart_sold.
  - intros c r H. unfold sold. destruct (find _ c); [simpl; lia | exact H].
Qed.


(** *** The persisted line totals *)

Lemma sum_Q_cons x xs : sum_Q (x :: xs) = (x + sum_Q xs)%Q.
Proof. reflexivity. Qed.

Lemma sum_totals_cons r rows :
  sum_totals (r :: rows) = (sale_line_total r + sum_totals rows)%Q.
Proof. reflexivity. Qed.

Lemma cart_total_sum c : (cart_total c == sum_Q (pretotal <$> c))%Q.
Proof.
  unfold cart_total.
  assert (G : ∀ a, (fold_left (fun acc l => acc + pretotal l) c a
                    == a + sum_Q (pretotal <$> c))%Q).
  { induction c as [| l rest IH]; intros a.
    - unfold sum_Q; simpl. lra.
    - rewrite fmap_cons, sum_Q_cons. cbn [fold_left]. rewrite IH. lra. }
  rewrite G. lra.
Qed.

(** The totals under the cart: with a percentage discount the total is
    subtotal * (1 - discount/100). *)
Lemma calc_totals_percent ss :
  discount_type ss = percent →
  let '(subtotal, _, total) := calc_totals ss in
  (subtotal == sum_Q (pretotal <$> cart ss)
   ∧ total == subtotal * (1 - discount ss / 100))%Q.
Proof.
  intros E. unfold calc_totals. rewrite E. split.
  - apply cart_total_sum.
  - field.
Qed.

Lemma line_total_percent d c line :
  (0 <= d)%Q →
  (line_total percent d c line
   == line_unit_price line * inject_Z (line_qty line) * (1 - d / 100))%Q.
Proof.
  intros D. unfold line_total, pretotal.
  destruct (Qlt_le_dec 0 d) as [L | L].
  - field.
  - assert (E : (d == 0)%Q) by lra. rewrite E. field.
Qed.

Lemma sum_line_total_fixed d c0 c :
  (0 < cart_total c0)%Q →
  (sum_Q (line_total fixed d c0 <$> c)
   == sum_Q (pretotal <$> c) - (sum_Q (pretotal <$> c) / cart_total c0) * d)%Q.
Proof.
  intros T. induction c as [| l rest IH].
  - unfold sum_Q; simpl. field. lra.
  - rewrite !fmap_cons, !sum_Q_cons, IH.
    unfold line_total. destruct (Qlt_le_dec 0 (cart_total c0)); [| lra].
    field. lra.
Qed.

Lemma sum_totals_near sid ts member ss c0 c :
  (Qabs (sum_totals (sale_row sid ts member ss c0 <$> c)
         - sum_Q (line_total (discount_type ss) (discount ss) c0 <$> c))
   <= inject_Z (Z.of_nat (length c)) * (1 # 200))%Q.
Proof.
  induction c as [| l rest IH].
  - apply Qabs_Qle_condition. split; vm_compute; discriminate.
  - rewrite !fmap_cons, sum_Q_cons, sum_totals_cons.
    cbn [length]. rewrite Nat2Z.inj_succ, <- Z.add_1_r, inject_Z_plus.
    change (inject_Z 1) with 1%Q.
    pose proof (round2_near (line_total (discount_type ss) (discount ss) c0 l))
      as R.
    apply Qabs_Qle_condition in R. apply Qabs_Qle_condition in IH.
    apply Qabs_Qle_condition. cbn [sale_row sale_line_total]. split; lra.
Qed.


Lemma subtotal_cart_total c : (cart_total c == subtotal c)%Q.
Proof. apply cart_total_sum. Qed.

(** What [save_sale] computes for a line is the total of the allocation
    rule. *)
Lemma line_total_allocated ty d c line :
  (0 <= d)%Q → (0 <= subtotal c)%Q →
  (line_total ty d c line == allocated_total ty d c line)%Q.
Proof.
  intros D T. pose proof (subtotal_cart_total c) as E.
  unfold allocated_total. destruct ty.
  - by apply line_total_percent.
  - unfold line_total, pretotal.
    destruct (Qlt_le_dec 0 (cart_total c)) as [L | L];
      destruct (Qeq_dec (subtotal c) 0) as [Z0 | N0].
    + exfalso. lra.
    + rewrite E. reflexivity.
    + reflexivity.
    + exfalso. apply N0. lra.
Qed.

Lemma round2_whole_cents x : whole_cents (round2 x).
Proof. by eexists. Qed.

(** C3: the rows a checkout that passes the stock check appends, one per
    cart line, each carry as line total a whole number of cents within half
    a cent of the total of the allocation rule: with a percentage discount
    unit_price * qty * (1 - discount/100); with a fixed discount the
    pre-discount line total minus its share (line / subtotal) * discount,
    and the pre-discount line total itself when the subtotal is 0, the
    subtotal being the sum of unit_price * qty over the cart.  With a
    fixed discount and a positive subtotal the persisted totals of the
    sale add up to subtotal - discount within one cent per line.
    (Currency as exact rationals; nothing here depends on which way a
    total of exactly half a cent is rounded.) *)
Theorem persisted_line_totals sid ts to_excel_ok s :
  check_stock (PRODUCTS s) (cart (session_state s)) = None →
  (0 <= discount (session_state s))%Q →
  (0 <= subtotal (cart (session_state s)))%Q →
  let ss := session_state s in
  let c := cart ss in
  let d := discount ss in
  ∃ rows,
    SALES_FILE (checkout sid ts to_excel_ok s).1 = SALES_FILE s ++ rows
    ∧ length rows = length c
    ∧ (∀ i line row,
          c !! i = Some line → rows !! i = Some row →
          whole_cents (sale_line_total row)
          ∧ (Qabs (sale_line_total row
                   - allocated_total (discount_type ss) d c line)
             <= 1 # 200)%Q)
    ∧ (discount_type ss = fixed → (0 < subtotal c)%Q →
       (Qabs (sum_totals rows - (subtotal c - d))
        <= inject_Z (Z.of_nat (length c)) * (1 # 100))%Q).
Proof.
  intros C D T ss c d.
  change (0 <= subtotal c)%Q in T. change (0 <= d)%Q in D.
  exists (sale_row sid ts (member_id ss) ss c <$> c).
  split; [| split; [| split]].
  - rewrite (checkout_passes _ _ _ _ C). reflexivity.
  - apply length_fmap.
  - intros i line row Li Ri. rewrite list_lookup_fmap in Ri.
    rewrite Li in Ri. injection Ri as <-.
    cbn [sale_row sale_line_total]. fold d.
    split; [apply round2_whole_cents |].
    rewrite <- (line_total_allocated (discount_type ss) d c line D T).
    apply round2_near.
  - intros Ty Tpos.
    pose proof (sum_totals_near sid ts (member_id ss) ss c c) as N.
    rewrite Ty in N. fold d in N.
    pose proof (subtotal_cart_total c) as E.
    assert (S : (sum_Q (line_total fixed d c <$> c) == subtotal c - d)%Q).
    { rewrite (sum_line_total_fixed d c c) by lra.
      rewrite <- cart_total_sum, E. field. lra. }
    rewrite S in N. apply Qabs_Qle_condition in N. apply Qabs_Qle_condition.
    assert (0 <= inject_Z (Z.of_nat (length c)))%Q.
    { change 0%Q with (inject_Z 0). rewrite <- Zle_Qle. lia. }
    split; lra.
Qed.

(** *** Loading, and what stays true afterwards *)

Lemma load_spec file sales ss s :
  load file sales ss = Some s →
  INVENTORY_FILE s = file
  ∧ inventory_df s = active_rows file
  ∧ NoDup (inv_barcode <$> inventory_df s)
  ∧ in_sync s.
Proof.
  unfold load, to_dict. intros L.
  destruct (decide (NoDup (inv_barcode <$> active_rows file))) as [ND | ND];
    [| discriminate].
  injection L as <-. repeat split; try done.
  intros r Hr. simpl in *. exists r.
  apply elem_of_list_to_map_1.
  - rewrite <- list_fmap_compose.
    erewrite list_fmap_ext; [exact ND |]. by intros.
  - by apply (list_elem_of_fmap_2 (fun r => (inv_barcode r, r))).
Qed.

Lemma run_event_keys s e :
  inv_barcode <$> inventory_df (run_event s e).1 = inv_barcode <$> inventory_df s
  ∧ ∀ b, is_Some (PRODUCTS (run_event s e).1 !! b) ↔ is_Some (PRODUCTS s !! b).
Proof.
  destruct e as [u code q | u b | id | m | ty v | sid ts ok]; simpl.
  - unfold handle_scan. destruct (decide (q <= 0)); [done |].
    destruct (decide (code = "")); [done |].
    by destruct (add_to_cart_frame u code q s) as [c ->].
  - by destruct (add_to_cart_frame u b 1 s) as [c ->].
  - unfold remove_one_from_cart. destruct (find _ _); [| done].
    by destruct (decide _).
  - done.
  - unfold set_discount. by destruct (Qlt_le_dec v 0).
  - destruct (check_stock (PRODUCTS s) (cart (session_state s))) eqn:C.
    + unfold checkout. by rewrite C.
    + rewrite (checkout_passes _ _ _ _ C). simpl. split.
      * apply (sell_cart_barcodes _ (inventory_df s, PRODUCTS s)).
      * intros b. apply (sell_cart_keys _ (inventory_df s, PRODUCTS s)).
Qed.

(** The dict always has the key [sell_line] updates. *)
Lemma run_in_sync es s :
  NoDup (inv_barcode <$> inventory_df s) ∧ in_sync s →
  NoDup (inv_barcode <$> inventory_df (run es s)) ∧ in_sync (run es s).
Proof.
  revert s. induction es as [| e es IH]; intros s [ND S]; [done |].
  apply IH. destruct (run_event_keys s e) as [B K]. split.
  - by rewrite B.
  - intros r Hr. apply K.
    assert (Hb : inv_barcode r ∈ inv_barcode <$> inventory_df s)
      by (rewrite <- B; by apply list_elem_of_fmap_2).
    apply list_elem_of_fmap in Hb as (r0 & -> & Hr0). by apply S.
Qed.

(** What a checkout writes to the inventory file: the rows of the data
    frame, which are the active rows of the file that was loaded. *)
Lemma checkout_writes_data_frame sid ts s :
  check_stock (PRODUCTS s) (cart (session_state s)) = None →
  NoDup (inv_barcode <$> inventory_df s) →
  NoDup (line_barcode <$> cart (session_state s)) →
  INVENTORY_FILE (checkout sid ts true s).1
  = sold (cart (session_state s)) <$> inventory_df s.
Proof.
  intros C NDf NDc. rewrite (checkout_passes _ _ _ _ C). simpl.
  by apply sell_cart_sold.
Qed.

Lemma sold_inactive c r : inv_is_active (sold c r) = inv_is_active r.
Proof. unfold sold. by destruct (find _ c). Qed.

Lemma checkout_writes_active_rows_only sid ts file sales ss s :
  load file sales ss = Some s →
  check_stock (PRODUCTS s) (cart ss) = None →
  NoDup (line_barcode <$> cart ss) →
  Forall (fun r => inv_is_active r = true)
         (INVENTORY_FILE (checkout sid ts true s).1).
Proof.
  intros L C NDc. destruct (load_spec _ _ _ _ L) as (_ & Df & NDf & _).
  assert (Ess : session_state s = ss).
  { unfold load in L. destruct (to_dict _); [| discriminate].
    by injection L as <-. }
  rewrite <- Ess in *.
  rewrite (checkout_writes_data_frame _ _ _ C NDf NDc), Df.
  apply Forall_fmap, Forall_forall. intros r Hr. simpl.
  rewrite sold_inactive. unfold active_rows in Hr.
  by apply list_elem_of_filter in Hr as [Hr _].
Qed.

(** *** The scenarios of the specification *)

Import Sample.

Example load_shop : load shop_file [] new_session = Some shop.
Proof. vm_compute. reflexivity. Qed.

(** One line of 2 at 100 with 50 off the sale is persisted as 150.00. *)
Example fixed_discount_one_line :
  let c := [mkLine "l" "1001" "Apple" 2 100%Q "Fruit" "1kg"] in
  round2 <$> (line_total fixed 50%Q c <$> c) = [(15000 # 100)%Q].
Proof. vm_compute. reflexivity. Qed.

(** Lines of 100 and 200 with 30 off the sale are persisted as 90.00 and
    180.00. *)
Example fixed_discount_two_lines :
  sale_line_total <$> SALES_FILE (checkout "sale-1" noon true two_lines).1
  = [(9000 # 100)%Q; (18000 # 100)%Q].
Proof. vm_compute. reflexivity. Qed.

Example add_beyond_stock :
  add_to_cart "line-9" "1001" 11 shop
  = (shop, [warning_not_enough_stock "Apple" 10]).
Proof. vm_compute. reflexivity. Qed.

(** C4: the inventory file written by a checkout holds the rows of the data
    frame only, and the data frame was cut down to the active rows when the
    file was loaded.  Here the file has the rows apple, beer (not active)
    and milk; after loading it and checking out one apple and one milk, the
    file that is written has the rows of apple and milk with the new stock,
    and the row of beer, which was read at load, is gone. *)
Theorem checkout_drops_inactive_rows :
  load shop_file [] (session_state two_lines) = Some two_lines
  ∧ beer ∈ INVENTORY_FILE two_lines
  ∧ (checkout "sale-1" noon true two_lines).2 = [success_sale_saved "M-7"]
  ∧ INVENTORY_FILE (checkout "sale-1" noon true two_lines).1
    = [with_stock 9 apple; with_stock 4 milk]
  ∧ beer ∉ INVENTORY_FILE (checkout "sale-1" noon true two_lines).1.
Proof.
  split; [vm_compute; reflexivity |].
  split; [apply list_elem_of_further, list_elem_of_here |].
  split; [vm_compute; reflexivity |].
  assert (E : INVENTORY_FILE (checkout "sale-1" noon true two_lines).1
              = [with_stock 9 apple; with_stock 4 milk])
    by (vm_compute; reflexivity).
  split; [exact E |]. rewrite E.
  intros H. repeat (apply elem_of_cons in H as [H | H]; [discriminate H |]).
  by apply elem_of_nil in H.
Qed.

(** *** The theorems at the sample data *)

Lemma checkout_all_or_nothing_witness :
  Exists (short_of_stock (PRODUCTS too_many)) (cart (session_state too_many))
  ∧ ∃ err, is_checkout_error err
           ∧ checkout "sale-1" noon true too_many = (too_many, [err]).
Proof.
  assert (H : Exists (short_of_stock (PRODUCTS too_many))
                     (cart (session_state too_many))).
  { apply Exists_cons_tl, Exists_cons_hd. vm_compute. reflexivity. }
  split; [exact H |].
  exact (checkout_all_or_nothing "sale-1" noon true too_many H).
Defined.

Lemma shop_stock_nonneg : stock_nonneg shop.
Proof.
  split; [| split].
  - repeat constructor; discriminate.
  - repeat constructor; discriminate.
  - unfold shop, with_session. simpl.
    apply map_Forall_insert_2; [discriminate |].
    apply map_Forall_insert_2; [discriminate |].
    apply map_Forall_empty.
Defined.

Lemma stock_never_negative_witness :
  stock_nonneg shop ∧ stock_nonneg (run busy_morning shop).
Proof.
  split; [exact shop_stock_nonneg |].
  exact (proj1 (stock_never_negative busy_morning shop shop_stock_nonneg)).
Defined.

Lemma persisted_line_totals_witness :
  check_stock (PRODUCTS two_lines) (cart (session_state two_lines)) = None
  ∧ (0 <= discount (session_state two_lines))%Q
  ∧ (0 <= subtotal (cart (session_state two_lines)))%Q
  ∧ ∃ rows,
      SALES_FILE (checkout "sale-1" noon true two_lines).1
      = SALES_FILE two_lines ++ rows
      ∧ length rows = 2%nat.
Proof.
  assert (C : check_stock (PRODUCTS two_lines)
                          (cart (session_state two_lines)) = None)
    by (vm_compute; reflexivity).
  assert (D : (0 <= discount (session_state two_lines))%Q)
    by (vm_compute; discriminate).
  assert (T : (0 <= subtotal (cart (session_state two_lines)))%Q)
    by (vm_compute; discriminate).
  split; [exact C |]. split; [exact D |]. split; [exact T |].
  destruct (persisted_line_totals "sale-1" noon true two_lines C D T)
    as (rows & E & L & _).
  exists rows. split; [exact E | exact L].
Defined.

Lemma failed_save_is_not_rolled_back_witness :
  check_stock (PRODUCTS two_lines) (cart (session_state two_lines)) = None
  ∧ error_failed_to_save_inventory ∈ (checkout "sale-1" noon false two_lines).2
  ∧ INVENTORY_FILE (checkout "sale-1" noon false two_lines).1
    = INVENTORY_FILE two_lines.
Proof.
  assert (C : check_stock (PRODUCTS two_lines)
                          (cart (session_state two_lines)) = None)
    by (vm_compute; reflexivity).
  split; [exact C |].
  pose proof (failed_save_is_not_rolled_back "sale-1" noon two_lines C) as H.
  simpl in H. split; [exact (proj1 H) |].
  exact (proj2 (proj2 (proj2 (proj2 (proj2 (proj2 (proj2 H))))))).
Defined.

Lemma add_to_cart_checks_stock_witness :
  PRODUCTS eight_apples !! "1001" = Some apple
  ∧ NoDup (line_barcode <$> cart (session_state eight_apples))
  ∧ apple_line 8 ∈ cart (session_state eight_apples)
  ∧ line_qty (apple_line 8) + 3 > inv_stock_qty apple
  ∧ ∃ w, is_insufficient_stock w
         ∧ add_to_cart "line-9" "1001" 3 eight_apples = (eight_apples, [w]).
Proof.
  assert (L : PRODUCTS eight_apples !! "1001" = Some apple)
    by (vm_compute; reflexivity).
  assert (ND : NoDup (line_barcode <$> cart (session_state eight_apples)))
    by (apply NoDup_singleton).
  assert (Hin : apple_line 8 ∈ cart (session_state eight_apples))
    by (apply list_elem_of_here).
  assert (G : line_qty (apple_line 8) + 3 > inv_stock_qty apple)
    by reflexivity.
  repeat (split; [assumption |]).
  apply (proj1 (add_to_cart_checks_stock "line-9" "1001" 3 eight_apples)
               apple L ND).
  right. exists (apple_line 8). repeat split; assumption.
Defined.

Example browsing_cart :
  cart (session_state (run browsing shop))
  = [mkLine "line-1" "1001" "Apple" 5 100%Q "Fruit" "1kg";
     mkLine "line-5" "3003" "Milk" 3 200%Q "Dairy" "1l"].
Proof. vm_compute. reflexivity. Qed.

Lemma cart_lines_positive_and_distinct_witness :
  cart (session_state shop) = []
  ∧ Forall (fun l => 1 <= line_qty l)
           (cart (session_state (run browsing shop)))
  ∧ NoDup (line_barcode <$> cart (session_state (run browsing shop))).
Proof.
  split; [reflexivity |].
  exact (cart_lines_positive_and_distinct browsing shop eq_refl).
Defined.

Lemma checkout_empty_cart_witness :
  cart (session_state shop) = []
  ∧ checkout "sale-0" noon true shop
    = (mkState (inventory_df shop) (SALES_FILE shop) (inventory_df shop)
               (PRODUCTS shop) (mkSession [] "" 0%Q percent),
       [success_sale_saved ""]).
Proof.
  split; [reflexivity |].
  exact (proj2 (checkout_empty_cart "sale-0" noon shop eq_refl)).
Defined.

End TillProps.

(** ** Properties of the dashboard's reorder computation *)

Module DashboardProps.
Import Dashboard DashboardSpec.

(** *** Lists without duplicates, maps from lists *)

Section Lists.
Context {A B : Type} `{EqDecision A} `{EqDecision B}.

Lemma filter_remove_dups (P : A → Prop) `{!∀ x, Decision (P x)} (l : list A) :
  filter P (remove_dups l) = remove_dups (filter P l).
Proof.
  induction l as [| x l IH]; [reflexivity |].
  cbn [remove_dups]. rewrite (filter_cons P x l).
  destruct (decide (P x)) as [Px | Px].
  - cbn [remove_dups].
    destruct (decide_rel elem_of x l) as [I | I];
      destruct (decide_rel elem_of x (filter P l)) as [J | J].
    + exact IH.
    + exfalso. apply J. apply list_elem_of_filter. by split.
    + exfalso. apply list_elem_of_filter in J as [_ J]. contradiction.
    + rewrite filter_cons, decide_True by exact Px. by rewrite IH.
  - destruct (decide_rel elem_of x l) as [I | I]; [exact IH |].
    rewrite filter_cons, decide_False by exact Px. exact IH.
Qed.

Lemma remove_dups_fmap_inj (f : A → B) `{!Inj (=) (=) f} (l : list A) :
  remove_dups (f <$> l) = f <$> remove_dups l.
Proof.
  induction l as [| x l IH]; [reflexivity |].
  rewrite fmap_cons. cbn [remove_dups].
  destruct (decide_rel elem_of x l) as [I | I];
    destruct (decide_rel elem_of (f x) (f <$> l)) as [J | J].
  - exact IH.
  - exfalso. apply J. by apply list_elem_of_fmap_2.
  - exfalso. apply I. by apply (list_elem_of_fmap_inj_2 f).
  - rewrite fmap_cons. by rewrite IH.
Qed.

Lemma filter_fmap (f : A → B) (P : B → Prop) `{!∀ y, Decision (P y)}
      (l : list A) :
  filter P (f <$> l) = f <$> filter (fun x => P (f x)) l.
Proof.
  induction l as [| x l IH]; [reflexivity |].
  rewrite fmap_cons, !filter_cons.
  destruct (decide (P (f x))); [rewrite fmap_cons |]; by rewrite IH.
Qed.
End Lists.

(** A map built from the graph of a function over a list of keys. *)
Lemma lookup_graph {V : Type} (F : string → V) (keys : list string) (b : string) :
  (list_to_map ((fun k => (k, F k)) <$> keys) : gmap string V) !! b
  = if decide (b ∈ keys) then Some (F b) else None.
Proof.
  induction keys as [| k keys IH].
  - rewrite decide_False by apply not_elem_of_nil. apply lookup_empty.
  - rewrite fmap_cons. cbn [list_to_map foldr uncurry curry fst snd].
    change (foldr (fun '(k, v) m => <[k:=v]> m) ∅ ?l) with (list_to_map l : gmap string V).
    destruct (decide (k = b)) as [-> | N].
    + rewrite lookup_insert_eq.
      rewrite decide_True by apply list_elem_of_here. reflexivity.
    + rewrite lookup_insert_ne by exact N. rewrite IH.
      destruct (decide (b ∈ keys)) as [I | I].
      * rewrite decide_True by (by apply list_elem_of_further). reflexivity.
      * rewrite decide_False; [reflexivity |].
        intros [E | H]%elem_of_cons; [congruence | contradiction].
Qed.

Lemma elem_of_fmap_filter {A B : Type} `{EqDecision B} (f : A → B)
      (l : list A) (y : B) :
  y ∈ f <$> l ↔ filter (fun x => f x = y) l ≠ [].
Proof.
  induction l as [| x l IH].
  - split; [intros H; by apply elem_of_nil in H | done].
  - rewrite fmap_cons, filter_cons, elem_of_cons, IH.
    destruct (decide (f x = y)) as [E | N].
    + split; [discriminate | by left].
    + split; [intros [E | H]; [congruence | exact H] | by right].
Qed.

(** *** The merge *)

(** When no two inventory rows share a barcode, the merge has exactly the
    rows of the ledger, in their order. *)
Lemma sales_merged_rows (sales : list SaleRow) (inventory : list InvRow) :
  NoDup (inv_barcode <$> inventory) →
  m_sale <$> sales_merged sales inventory = sales.
Proof.
  intros ND.
  assert (F : ∀ b, (length (filter (fun r => inv_barcode r = b) inventory) <= 1)%nat).
  { intros b. induction inventory as [| r rest IH]; [simpl; lia |].
    rewrite fmap_cons in ND. apply NoDup_cons in ND as [NI ND].
    rewrite filter_cons. destruct (decide (inv_barcode r = b)) as [E | N].
    - assert (Z0 : filter (fun r => inv_barcode r = b) rest = []).
      { destruct (filter _ rest) as [| x xs] eqn:Fx; [reflexivity |].
        exfalso. apply NI.
        assert (Hx : x ∈ filter (fun r => inv_barcode r = b) rest)
          by (rewrite Fx; apply list_elem_of_here).
        apply list_elem_of_filter in Hx as [Hb Hx].
        rewrite E, <- Hb. by apply list_elem_of_fmap_2. }
      rewrite Z0. simpl. lia.
    - by apply IH. }
  unfold sales_merged. induction sales as [| s rest IH]; [reflexivity |].
  rewrite bind_cons, fmap_app, IH.
  specialize (F (sale_barcode s)).
  destruct (filter _ inventory) as [| r [| r' rs]]; simpl in *;
    [reflexivity | reflexivity | lia].
Qed.

(** *** The grouped sums and means, read by product *)

(** The (barcode, month) groups of one product are its months. *)
Lemma groups_of_product b rows :
  filter (fun k : string * Month => k.1 = b) (remove_dups (key <$> rows))
  = pair b <$> months_of b rows.
Proof.
  rewrite filter_remove_dups.
  rewrite (filter_fmap key (fun k : string * Month => k.1 = b)).
  unfold months_of, rows_of. rewrite <- remove_dups_fmap_inj.
  2: { intros x y [= E]. exact E. }
  f_equal. rewrite <- list_fmap_compose. apply list_fmap_ext.
  intros i m Hm. apply list_elem_of_lookup_2, list_elem_of_filter in Hm as [E _].
  simpl in *. unfold key. by rewrite E.
Qed.

Lemma group_sum b mo rows :
  sum_qty (filter (fun m => key m = (b, mo)) rows)
  = monthly_quantity b mo rows.
Proof.
  unfold monthly_quantity, rows_of. rewrite list_filter_filter. f_equal.
  apply list_filter_iff. intros m. unfold key. split.
  - intros [= E1 E2]. by split.
  - intros [E1 E2]. by rewrite E1, E2.
Qed.

Lemma monthly_quantities b rows :
  snd <$> filter (fun e : string * Month * Z => e.1.1 = b)
                 (qty_by_barcode_month rows)
  = (fun mo => monthly_quantity b mo rows) <$> months_of b rows.
Proof.
  unfold qty_by_barcode_month.
  rewrite (filter_fmap _ (fun e : string * Month * Z => e.1.1 = b)).
  cbn [fst].
  rewrite groups_of_product, <- !list_fmap_compose.
  apply list_fmap_ext. intros i mo _. simpl. apply group_sum.
Qed.

Lemma monthly_sales_per_product_lookup b rows :
  monthly_sales_per_product rows !! b = avgMonthlySales b rows.
Proof.
  unfold monthly_sales_per_product.
  rewrite (lookup_graph
             (fun b => mean (snd <$> filter (fun e : string * Month * Z => e.1.1 = b)
                                         (qty_by_barcode_month rows)))).
  rewrite monthly_quantities.
  assert (I : b ∈ remove_dups ((fun e : string * Month * Z => e.1.1)
                                <$> qty_by_barcode_month rows)
              ↔ months_of b rows ≠ []).
  { rewrite elem_of_remove_dups. unfold qty_by_barcode_month.
    rewrite <- list_fmap_compose.
    rewrite (elem_of_fmap_filter _ _ b). simpl.
    rewrite (groups_of_product b rows).
    split; intros H E; apply H; [by rewrite E | by apply fmap_nil_inv in E]. }
  unfold avgMonthlySales, mean.
  destruct (months_of b rows) as [| mo months] eqn:M.
  - rewrite decide_False; [reflexivity |]. intros H. by apply I in H.
  - rewrite decide_True by (by apply I). rewrite length_fmap. reflexivity.
Qed.


(** *** Truncation and the floor at zero *)

Lemma astype_int_truncate x : astype_int x = truncate x.
Proof.
  unfold astype_int, truncate. destruct x as [n d].
  destruct (Qlt_le_dec (n # d) 0) as [L | L].
  - unfold Qlt in L. simpl in L.
    unfold Qceiling, Qfloor, Qopp. simpl.
    rewrite <- (Z.quot_div_nonneg (- n) (Z.pos d)) by lia.
    rewrite Z.quot_opp_l by lia. lia.
  - unfold Qle in L. simpl in L. unfold Qfloor. simpl.
    symmetry. apply Z.quot_div_nonneg; lia.
Qed.

Lemma max0_Qmax x : max0 x = Qmax x 0.
Proof.
  unfold max0, Qmax, GenericMinMax.gmax.
  destruct (Qlt_le_dec x 0) as [L | L];
    destruct (Qcompare_spec x 0) as [E | G | G];
    try reflexivity; exfalso; lra.
Qed.

(** *** The analyzer against the specification *)

Lemma reorder_levels_lookup b rows :
  reorder_levels rows !! b = dynamic_reorder_level <$> avgMonthlySales b rows.
Proof.
  unfold reorder_levels.
  rewrite lookup_fmap, monthly_sales_per_product_lookup. reflexivity.
Qed.

Lemma fill_level_effective r rows :
  fill_level (inv_reorder_level r) (reorder_levels rows !! inv_barcode r)
  = effective_reorder_level r rows.
Proof.
  rewrite reorder_levels_lookup. unfold fill_level, effective_reorder_level.
  destruct (inv_reorder_level r); [reflexivity |].
  by destruct (avgMonthlySales (inv_barcode r) rows).
Qed.

Lemma reorder_analyzer_spec_rows (rows : list MergedRow)
      (inventory : list InvRow) :
  inventory_with_reorder rows inventory
  = (fun r =>
       mkReorder r
                 (dynamic_reorder_level <$> avgMonthlySales (inv_barcode r) rows)
                 (effective_reorder_level r rows)) <$> inventory
  ∧ ∀ r, r ∈ inventory_with_reorder rows inventory →
         reorder_level r = effective_reorder_level (r_inv r) rows.
Proof.
  assert (E : inventory_with_reorder rows inventory
              = (fun r =>
                   mkReorder r
                     (dynamic_reorder_level <$> avgMonthlySales (inv_barcode r) rows)
                     (effective_reorder_level r rows)) <$> inventory).
  { unfold inventory_with_reorder. apply list_fmap_ext. intros i r _.
    cbn beta zeta. rewrite fill_level_effective, reorder_levels_lookup.
    reflexivity. }
  split; [exact E |]. rewrite E.
  by intros r (r0 & -> & _)%list_elem_of_fmap.
Qed.

(** On the rows it is given, the analyzer computes for every
    inventory row the dynamic level max(ceil(avgMonthlySales * 2), 5),
    where avgMonthlySales is the mean of the product's monthly quantity
    sums over the months it appears in (none without sales), and the
    effective level: the explicit level if the row has one, else the
    dynamic level, else 5; a row is in the low-stock table iff its stock is
    at most its effective level; and the reorder quantity of a low-stock
    row is max(2 * avgMonthlySales - stock, 0) truncated to an integer,
    with average 0 for a product without sales. *)
Lemma reorder_analyzer_on_rows (rows : list MergedRow)
      (inventory : list InvRow) :
  inventory_with_reorder rows inventory
  = (fun r =>
       mkReorder r
                 (dynamic_reorder_level <$> avgMonthlySales (inv_barcode r) rows)
                 (effective_reorder_level r rows)) <$> inventory
  ∧ (∀ r, r ∈ low_stock_df rows inventory
          ↔ r ∈ inventory_with_reorder rows inventory
            ∧ is_low_stock (r_inv r) rows)
  ∧ low_stock_with_reorder_qty rows inventory
    = (fun r =>
         mkLow r
               (default 0%Q (avgMonthlySales (inv_barcode (r_inv r)) rows))
               (suggested_reorder_quantity (r_inv r) rows))
        <$> low_stock_df rows inventory.
Proof.
  destruct (reorder_analyzer_spec_rows rows inventory) as [E L0].
  split; [exact E | split].
  - intros r. unfold low_stock_df. rewrite list_elem_of_filter.
    pose proof (L0 r) as L.
    unfold is_low_stock.
    split; intros [H1 H2]; split; try assumption.
    + rewrite <- (L H2). exact H1.
    + rewrite (L H1). exact H2.
  - unfold low_stock_with_reorder_qty. apply list_fmap_ext. intros i r _.
    cbn beta zeta. rewrite monthly_sales_per_product_lookup.
    unfold suggested_reorder_quantity.
    rewrite astype_int_truncate, max0_Qmax. reflexivity.
Qed.

(** C6, as the code has it: whenever the dashboard gets to the reorder
    logic (some sale passes the filters), it computes for every inventory
    row, from the filtered sales (the ledger rows inside the selected date
    range whose category and brand are selected): the dynamic reorder
    level max(ceil(avgMonthlySales * 2), 5), where avgMonthlySales is the
    mean of the product's monthly quantity sums over the months it appears
    in among the filtered sales; the effective level: the explicit level
    if the row has one, else the dynamic level, else 5 when the product has
    no filtered sale; a row is in the low-stock table iff its stock is at
    most its effective level; and the reorder quantity of a low-stock row
    is max(2 * avgMonthlySales - stock, 0) truncated to an integer, with
    average 0 for a product without filtered sale. *)
Theorem reorder_analyzer_on_filtered_sales (sales : list SaleRow)
        (inventory : list InvRow) (f : Filters)
        (tables : list (string * Z) * list string) :
  DashboardRun.reorder_tables sales inventory f = Some tables →
  let rows := filtered_rows sales inventory f in
  rows ≠ []
  ∧ tables.1
    = (fun r => (inv_barcode r, effective_reorder_level r rows)) <$> inventory
  ∧ (∀ b, b ∈ tables.2 ↔
          ∃ r, r ∈ inventory ∧ inv_barcode r = b ∧ is_low_stock r rows)
  ∧ inventory_with_reorder rows inventory
    = (fun r =>
         mkReorder r
                   (dynamic_reorder_level <$> avgMonthlySales (inv_barcode r) rows)
                   (effective_reorder_level r rows)) <$> inventory
  ∧ (∀ r, r ∈ low_stock_df rows inventory
          ↔ r ∈ inventory_with_reorder rows inventory
            ∧ is_low_stock (r_inv r) rows)
  ∧ low_stock_with_reorder_qty rows inventory
    = (fun r =>
         mkLow r
               (default 0%Q (avgMonthlySales (inv_barcode (r_inv r)) rows))
               (suggested_reorder_quantity (r_inv r) rows))
        <$> low_stock_df rows inventory.
Proof.
  intros T rows. unfold DashboardRun.reorder_tables in T. fold rows in T.
  assert (NE : rows ≠ []) by (intros R; rewrite R in T; discriminate).
  destruct rows as [| m rest] eqn:R; [done |]. rewrite <- R in *. clear R m rest.
  injection T as <-.
  destruct (reorder_analyzer_on_rows rows inventory) as (E & L & Qy).
  split; [exact NE |].
  split; [| split; [| split; [exact E | split; [exact L | exact Qy]]]].
  - cbn [fst]. unfold effective_reorder_levels. fold rows. rewrite E.
    rewrite <- list_fmap_compose. reflexivity.
  - intros b. cbn [snd]. unfold low_stock_barcodes. fold rows.
    rewrite list_elem_of_fmap. split.
    + intros (x & -> & Hx). apply L in Hx as [Hx Low].
      rewrite E in Hx. apply list_elem_of_fmap in Hx as (r & -> & Hr).
      exists r. repeat split; assumption.
    + intros (r & Hr & <- & Low).
      exists (mkReorder r
                (dynamic_reorder_level <$> avgMonthlySales (inv_barcode r) rows)
                (effective_reorder_level r rows)).
      split; [reflexivity |]. apply L. split; [| exact Low].
      rewrite E.
      by apply (list_elem_of_fmap_2
                  (fun r => mkReorder r
                     (dynamic_reorder_level <$> avgMonthlySales (inv_barcode r) rows)
                     (effective_reorder_level r rows))).
Qed.

(** C6 as stated fails: the apples sold 4 in February and 6 in March, so
    over the ledger their average is 5, their level max(ceil(10), 5) = 10
    and with a stock of 10 they are low on stock; with the category Fruit
    deselected the dashboard gets to the reorder logic (the milk sale
    passes the filters) and gives them the fallback level 5 of a product
    without sales and no low-stock flag. *)
Lemma analyzer_reads_filtered_sales_only :
  avgMonthlySales "1001" (sales_merged Sample.ledger Sample.shop_file)
  = Some (10 # 2)%Q
  ∧ effective_reorder_level Sample.apple
      (sales_merged Sample.ledger Sample.shop_file) = 10
  ∧ is_low_stock Sample.apple (sales_merged Sample.ledger Sample.shop_file)
  ∧ DashboardRun.reorder_tables Sample.ledger Sample.shop_file Sample.dairy_only
    = Some ([("1001", 5); ("2002", 4); ("3003", 2)], ["2002"]).
Proof.
  split; [vm_compute; reflexivity |].
  split; [vm_compute; reflexivity |].
  split; [vm_compute; discriminate |].
  vm_compute. reflexivity.
Qed.

Lemma reorder_analyzer_on_filtered_sales_witness :
  DashboardRun.reorder_tables Sample.ledger Sample.shop_file Sample.all_sales
  = Some ([("1001", 10); ("2002", 4); ("3003", 2)], ["1001"; "2002"])
  ∧ [("1001", 10); ("2002", 4); ("3003", 2)]
    = (fun r => (inv_barcode r,
                 effective_reorder_level r
                   (filtered_rows Sample.ledger Sample.shop_file Sample.all_sales)))
        <$> Sample.shop_file.
Proof.
  assert (T : DashboardRun.reorder_tables Sample.ledger Sample.shop_file
                                          Sample.all_sales
              = Some ([("1001", 10); ("2002", 4); ("3003", 2)],
                      ["1001"; "2002"]))
    by (vm_compute; reflexivity).
  split; [exact T |].
  exact (proj1 (proj2 (reorder_analyzer_on_filtered_sales
                         Sample.ledger Sample.shop_file Sample.all_sales _ T))).
Defined.

(** The scenario of the specification: stock 10, no explicit level, monthly
    sales of 4 and 6: dynamic level 10, low stock, nothing to reorder. *)
Example reorder_scenario :
  let rows := filtered_rows Sample.ledger Sample.shop_file Sample.all_sales in
  avgMonthlySales "1001" rows = Some (10 # 2)%Q
  ∧ effective_reorder_level Sample.apple rows = 10
  ∧ is_low_stock Sample.apple rows
  ∧ suggested_reorder_quantity Sample.apple rows = 0.
Proof. vm_compute. repeat split; discriminate. Qed.


(** *** The filters *)

Lemma sales_filtered_agree f1 f2 (merged : list MergedRow) :
  (∀ m, m ∈ merged → passes f1 m = passes f2 m) →
  sales_filtered f1 merged = sales_filtered f2 merged.
Proof.
  unfold sales_filtered. induction merged as [| m rest IH]; intros H.
  - reflexivity.
  - rewrite !filter_cons, (H m) by apply list_elem_of_here.
    rewrite IH by (intros x Hx; apply H; by apply list_elem_of_further).
    reflexivity.
Qed.

(** With an explicit reorder level the filters do not matter. *)
Lemma explicit_level_ignores_filters rows1 rows2 r v :
  inv_reorder_level r = Some v →
  effective_reorder_level r rows1 = v ∧ effective_reorder_level r rows2 = v.
Proof. intros E. unfold effective_reorder_level. by rewrite E. Qed.

(** C5, as the code has it: the average monthly sales, the reorder levels
    and the low-stock rows are computed from the filtered sales, that is
    from the ledger rows inside the selected date range whose category and
    brand are selected; two filter settings that select the same ledger
    rows give the same effective reorder levels and the same low-stock
    rows. *)
Theorem reorder_levels_follow_the_filters (sales : list SaleRow)
        (inventory : list InvRow) (f1 f2 : Filters) :
  (∀ m, m ∈ sales_merged sales inventory → passes f1 m = passes f2 m) →
  effective_reorder_levels sales inventory f1
  = (fun r => (inv_barcode r,
               effective_reorder_level r (filtered_rows sales inventory f1)))
      <$> inventory
  ∧ effective_reorder_levels sales inventory f1
    = effective_reorder_levels sales inventory f2
  ∧ low_stock_barcodes sales inventory f1
    = low_stock_barcodes sales inventory f2.
Proof.
  intros H.
  assert (E : filtered_rows sales inventory f1 = filtered_rows sales inventory f2)
    by (by apply sales_filtered_agree).
  split; [| split].
  - unfold effective_reorder_levels.
    rewrite (proj1 (reorder_analyzer_spec_rows _ inventory)).
    rewrite <- list_fmap_compose. reflexivity.
  - unfold effective_reorder_levels. by rewrite E.
  - unfold low_stock_barcodes. by rewrite E.
Qed.

(** C5 as stated fails: deselecting the category Fruit changes the
    effective reorder level of the apples from 10 to 5 and takes them out
    of the low-stock rows, over the same ledger and the same inventory. *)
Lemma filters_change_reorder_levels :
  effective_reorder_levels Sample.ledger Sample.shop_file Sample.all_sales
  ≠ effective_reorder_levels Sample.ledger Sample.shop_file Sample.dairy_only
  ∧ low_stock_barcodes Sample.ledger Sample.shop_file Sample.all_sales
    ≠ low_stock_barcodes Sample.ledger Sample.shop_file Sample.dairy_only.
Proof. split; vm_compute; discriminate. Qed.

Lemma reorder_levels_follow_the_filters_witness :
  (∀ m, m ∈ sales_merged Sample.ledger Sample.shop_file →
        passes Sample.all_sales m = passes Sample.since_february m)
  ∧ effective_reorder_levels Sample.ledger Sample.shop_file Sample.all_sales
    = effective_reorder_levels Sample.ledger Sample.shop_file
                               Sample.since_february.
Proof.
  assert (H : ∀ m, m ∈ sales_merged Sample.ledger Sample.shop_file →
                   passes Sample.all_sales m = passes Sample.since_february m).
  { intros m Hm. vm_compute in Hm.
    repeat (apply elem_of_cons in Hm as [-> | Hm]; [vm_compute; reflexivity |]).
    by apply elem_of_nil in Hm. }
  split; [exact H |].
  exact (proj1 (proj2 (reorder_levels_follow_the_filters
                         Sample.ledger Sample.shop_file
                         Sample.all_sales Sample.since_february H))).
Defined.

End DashboardProps.

(** ** Further properties of the till *)

Module TillExtra.
Import Till TillSpec TillQuantities TillProps.

(** *** The dict mirrors the data frame *)

Lemma pairs_lookup df b :
  (list_to_map ((fun r => (inv_barcode r, r)) <$> df) : gmap string InvRow) !! b
  = snd <$> list_find (fun r => inv_barcode r = b) df.
Proof.
  induction df as [| r df IH]; [apply lookup_empty |].
  rewrite fmap_cons. cbn [list_to_map foldr uncurry curry fst snd].
  change (foldr (fun '(k, v) m => <[k:=v]> m) ∅ ?l)
    with (list_to_map l : gmap string InvRow).
  cbn [list_find]. destruct (decide (inv_barcode r = b)) as [E | N].
  - rewrite E, lookup_insert_eq. reflexivity.
  - rewrite lookup_insert_ne by exact N. rewrite IH.
    by destruct (list_find _ df) as [[i x] |].
Qed.

Lemma to_dict_mirrors df products :
  to_dict df = Some products ↔ NoDup (inv_barcode <$> df) ∧ mirrors products df.
Proof.
  unfold to_dict. split.
  - destruct (decide (NoDup (inv_barcode <$> df))) as [ND | ND];
      [| discriminate].
    intros [= <-]. split; [exact ND |]. intros b. apply pairs_lookup.
  - intros [ND M]. rewrite decide_True by exact ND. f_equal.
    apply map_eq. intros b. rewrite pairs_lookup. symmetry. apply M.
Qed.

Lemma mirrors_row products df b r :
  mirrors products df → products !! b = Some r → r ∈ df ∧ inv_barcode r = b.
Proof.
  intros M L. rewrite M in L.
  destruct (list_find _ df) as [[i x] |] eqn:Fd; [| discriminate].
  injection L as ->. apply list_find_Some in Fd as (Li & B & _).
  split; [by eapply list_elem_of_lookup_2 | exact B].
Qed.

Lemma mirrors_lookup products df r :
  NoDup (inv_barcode <$> df) → mirrors products df → r ∈ df →
  products !! inv_barcode r = Some r.
Proof.
  intros ND M Hr. rewrite M.
  destruct (list_find_elem_of (fun x => inv_barcode x = inv_barcode r) df r Hr eq_refl)
    as [[i x] Fd].
  rewrite Fd. simpl. f_equal.
  apply list_find_Some in Fd as (Li & B & _).
  apply list_elem_of_lookup in Hr as [j Lj].
  assert (i = j).
  { apply (NoDup_lookup _ i j (inv_barcode r) ND);
      rewrite list_lookup_fmap; [rewrite Li | rewrite Lj]; simpl; congruence. }
  subst j. congruence.
Qed.

Lemma sell_line_mirrors df products line :
  NoDup (inv_barcode <$> df) → mirrors products df →
  mirrors (sell_line (df, products) line).2 (sell_line (df, products) line).1.
Proof.
  intros ND M b.
  rewrite (sell_line_sold df products line ND).
  rewrite list_find_fmap.
  rewrite (list_find_ext _ (fun r => inv_barcode r = b))
    by (intros x; simpl; by rewrite sold_barcode).
  assert (G : snd <$> (prod_map id (sold [line])
                         <$> list_find (fun r => inv_barcode r = b) df)
              = sold [line] <$> products !! b).
  { rewrite M. by destruct (list_find _ df) as [[i x] |]. }
  rewrite G. clear G. unfold sell_line. cbn [fst snd].
  destruct (list_find (fun r => inv_barcode r = line_barcode line) df)
    as [[idx row] |] eqn:Fd; cbn [fst snd].
  - pose proof Fd as Fd'. apply list_find_Some in Fd' as (Li & B & _).
    rewrite lookup_alter. destruct (decide (line_barcode line = b)) as [<- | N].
    + rewrite M, Fd. simpl. f_equal. unfold sold. simpl.
      rewrite bool_decide_eq_true_2 by (by symmetry). reflexivity.
    + destruct (products !! b) as [r |] eqn:L; [| reflexivity].
      destruct (mirrors_row _ _ _ _ M L) as [_ Br]. simpl. f_equal.
      unfold sold. simpl. rewrite bool_decide_eq_false_2; [reflexivity |].
      congruence.
  - apply list_find_None in Fd.
    destruct (products !! b) as [r |] eqn:L; [| reflexivity].
    destruct (mirrors_row _ _ _ _ M L) as [Hr Br]. simpl. f_equal.
    unfold sold. simpl. rewrite bool_decide_eq_false_2; [reflexivity |].
    intros E. rewrite Forall_forall in Fd. by apply (Fd r Hr).
Qed.

Lemma sell_cart_mirrors c df products :
  NoDup (inv_barcode <$> df) → mirrors products df →
  mirrors (fold_left sell_line c (df, products)).2
          (fold_left sell_line c (df, products)).1.
Proof.
  revert df products. induction c as [| line rest IH]; intros df products ND M;
    [exact M |].
  simpl. pose proof (sell_line_mirrors df products line ND M) as M1.
  pose proof (sell_line_barcodes (df, products) line) as B1.
  destruct (sell_line (df, products) line) as [df1 p1]. simpl in *.
  apply IH; [by rewrite B1 | exact M1].
Qed.


(** *** The state of a session stays consistent *)

Lemma within_stock_passes products c :
  within_stock products c → check_stock products c = None.
Proof.
  intros W. apply check_stock_passes. eapply Forall_impl; [exact W |].
  intros l (p & L & Q). unfold short_of_stock. rewrite L. lia.
Qed.

Lemma merge_line_within products b q p c c' :
  products !! b = Some p →
  within_stock products c →
  merge_line b q (inv_stock_qty p) c = merged c' →
  within_stock products c'.
Proof.
  intros L. revert c'. induction c as [| l rest IH]; intros c' W M; simpl in M.
  - discriminate.
  - apply Forall_cons in W as [W1 W2].
    destruct (decide (line_barcode l = b)) as [E | N].
    + destruct (decide (line_qty l + q > inv_stock_qty p)); [discriminate |].
      injection M as <-. apply Forall_cons; split; [| exact W2].
      exists p. simpl. rewrite E. split; [exact L | lia].
    + destruct (merge_line b q (inv_stock_qty p) rest) as [r | |];
        try discriminate.
      injection M as <-. apply Forall_cons; split; [exact W1 | by apply IH].
Qed.

Lemma add_to_cart_consistent uuid b q s :
  1 <= q → consistent s → consistent (add_to_cart uuid b q s).1.
Proof.
  intros Q (D & OK & W). split; [| split].
  - by destruct (add_to_cart_frame uuid b q s) as [c ->].
  - by apply add_to_cart_cart_ok.
  - unfold add_to_cart.
    destruct (PRODUCTS s !! b) as [p |] eqn:L; [| exact W].
    destruct (decide (q > inv_stock_qty p)) as [G | G]; [exact W |].
    destruct (merge_line b q (inv_stock_qty p) (cart (session_state s)))
      as [c' | l |] eqn:M; simpl.
    + by apply (merge_line_within _ b q p (cart (session_state s))).
    + exact W.
    + apply Forall_app; split; [exact W |].
      apply Forall_cons; split; [| constructor].
      exists p. simpl. split; [exact L | lia].
Qed.

Lemma decrement_first_within products id c :
  within_stock products c → within_stock products (decrement_first id c).
Proof.
  induction c as [| l rest IH]; intros W; [exact W |].
  apply Forall_cons in W as [(p & L & Q) W2]. simpl.
  destruct (decide (line_id l = id)).
  - apply Forall_cons; split; [| exact W2]. exists p. simpl. split; [exact L | lia].
  - apply Forall_cons; split; [by exists p | by apply IH].
Qed.

Lemma remove_one_consistent id s :
  consistent s → consistent (remove_one_from_cart id s).
Proof.
  intros (D & OK & W). split; [| split].
  - unfold remove_one_from_cart. destruct (find _ _); [| exact D].
    by destruct (decide _).
  - by apply remove_one_cart_ok.
  - unfold remove_one_from_cart.
    destruct (find _ (cart (session_state s))) as [line |]; [| exact W].
    destruct (decide (line_qty line > 1)); simpl.
    + by apply decrement_first_within.
    + unfold within_stock in *. apply Forall_forall.
      intros l [_ Hl]%list_elem_of_filter.
      rewrite Forall_forall in W. by apply W.
Qed.

Lemma checkout_consistent sid ts ok s :
  consistent s → consistent (checkout sid ts ok s).1.
Proof.
  intros (D & OK & W).
  rewrite (checkout_passes _ _ _ _ (within_stock_passes _ _ W)).
  apply to_dict_mirrors in D as [ND M].
  pose proof (sell_cart_barcodes (cart (session_state s))
                                 (inventory_df s, PRODUCTS s)) as B.
  pose proof (sell_cart_mirrors (cart (session_state s)) _ _ ND M) as M'.
  unfold consistent. cbn [fst snd inventory_df PRODUCTS session_state cart] in *.
  split; [| split].
  - apply to_dict_mirrors. split; [by rewrite B | exact M'].
  - split; [constructor | apply NoDup_nil_2].
  - constructor.
Qed.

Lemma run_event_consistent s e :
  consistent s → consistent (run_event s e).1.
Proof.
  intros C. destruct e as [u code q | u b | id | m | ty v | sid ts ok]; simpl.
  - unfold handle_scan. destruct (decide (q <= 0)); [exact C |].
    destruct (decide (code = "")); [exact C |].
    apply add_to_cart_consistent; [lia | exact C].
  - apply add_to_cart_consistent; [lia | exact C].
  - by apply remove_one_consistent.
  - exact C.
  - unfold set_discount. destruct (Qlt_le_dec v 0); exact C.
  - by apply checkout_consistent.
Qed.

Lemma run_consistent es s : consistent s → consistent (run es s).
Proof.
  revert s. induction es as [| e es IH]; intros s C; [exact C |].
  apply IH. by apply run_event_consistent.
Qed.

Lemma load_consistent file sales ss s :
  load file sales ss = Some s → cart ss = [] → consistent s.
Proof.
  unfold load. intros L E.
  destruct (to_dict (active_rows file)) as [products |] eqn:D; [| discriminate].
  injection L as <-. unfold consistent. simpl. rewrite E.
  split; [exact D | split].
  - split; [constructor | apply NoDup_nil_2].
  - constructor.
Qed.


(** X1: in a till that was loaded, after any sequence of actions the dict
    [PRODUCTS] is exactly the dict [to_dict] builds from the current data
    frame: the two copies of the stock never drift apart. *)
Theorem products_mirror_inventory_df file sales ss s es :
  load file sales ss = Some s →
  cart ss = [] →
  to_dict (inventory_df (run es s)) = Some (PRODUCTS (run es s)).
Proof.
  intros L E. exact (proj1 (run_consistent es s (load_consistent _ _ _ _ L E))).
Qed.

(** X2: in a session that starts with an empty cart, every cart line is of
    a product of the dict and its quantity is at most that product's
    stock, whatever was scanned, selected, removed or checked out before. *)
Theorem cart_stays_within_stock file sales ss s es :
  load file sales ss = Some s →
  cart ss = [] →
  Forall (fun l => ∃ p, PRODUCTS (run es s) !! line_barcode l = Some p
                        ∧ line_qty l <= inv_stock_qty p)
         (cart (session_state (run es s))).
Proof.
  intros L E.
  exact (proj2 (proj2 (run_consistent es s (load_consistent _ _ _ _ L E)))).
Qed.

(** X3: in such a session the stock check of checkout never fails: a
    checkout reports the sale as saved (after the save error, if writing
    the file failed), appends one ledger row per cart line and empties the
    cart. *)
Theorem checkout_in_session_succeeds file sales ss s es sid ts ok :
  load file sales ss = Some s →
  cart ss = [] →
  let before := run es s in
  let after := checkout sid ts ok before in
  after.2 = (if ok then [] else [error_failed_to_save_inventory])
              ++ [success_sale_saved (member_id (session_state before))]
  ∧ length (SALES_FILE after.1)
    = (length (SALES_FILE before) + length (cart (session_state before)))%nat
  ∧ cart (session_state after.1) = [].
Proof.
  intros L E before after.
  destruct (run_consistent es s (load_consistent _ _ _ _ L E)) as (_ & _ & W).
  subst after. fold before in W.
  rewrite (checkout_passes _ _ _ _ (within_stock_passes _ _ W)). simpl.
  rewrite length_app, length_fmap. done.
Qed.

(** *** Stock and units sold *)

Lemma qty_in_cart_absent b c :
  b ∉ line_barcode <$> c → qty_in_cart b c = 0.
Proof.
  induction c as [| l rest IH]; intros N; [reflexivity |].
  rewrite fmap_cons in N. apply not_elem_of_cons in N as [N1 N2].
  simpl. rewrite decide_False by congruence. rewrite IH by exact N2. lia.
Qed.

Lemma qty_in_cart_find b c :
  NoDup (line_barcode <$> c) →
  qty_in_cart b c
  = match find (fun l => bool_decide (line_barcode l = b)) c with
    | Some l => line_qty l
    | None => 0
    end.
Proof.
  induction c as [| l rest IH]; intros ND; [reflexivity |].
  rewrite fmap_cons in ND. apply NoDup_cons in ND as [NI ND]. simpl.
  destruct (decide (line_barcode l = b)) as [E | N].
  - rewrite bool_decide_eq_true_2 by exact E.
    rewrite qty_in_cart_absent by (by rewrite <- E). lia.
  - rewrite bool_decide_eq_false_2 by exact N. rewrite IH by exact ND. lia.
Qed.

Lemma with_stock_same r : with_stock (inv_stock_qty r) r = r.
Proof. by destruct r. Qed.

(** Within stock, selling takes off exactly the quantity in the cart. *)
Lemma sold_exact products df c r :
  NoDup (inv_barcode <$> df) → mirrors products df →
  NoDup (line_barcode <$> c) → within_stock products c →
  r ∈ df →
  sold c r = with_stock (inv_stock_qty r - qty_in_cart (inv_barcode r) c) r.
Proof.
  intros NDf M NDc W Hr. rewrite (qty_in_cart_find _ _ NDc). unfold sold.
  destruct (find _ c) as [l |] eqn:Fd.
  - apply find_some in Fd as [Hl Bl]. apply bool_decide_eq_true in Bl.
    apply list_elem_of_In in Hl. unfold within_stock in W.
    rewrite Forall_forall in W. destruct (W l Hl) as (p & Lp & Q).
    rewrite Bl, (mirrors_lookup _ _ _ NDf M Hr) in Lp. injection Lp as <-.
    f_equal. lia.
  - rewrite Z.sub_0_r. symmetry. apply with_stock_same.
Qed.

Lemma checkout_inventory_df sid ts ok s :
  consistent s →
  inventory_df (checkout sid ts ok s).1
  = (fun r => with_stock (inv_stock_qty r
                          - qty_in_cart (inv_barcode r) (cart (session_state s))) r)
      <$> inventory_df s.
Proof.
  intros (D & [_ NDc] & W). apply to_dict_mirrors in D as [NDf M].
  rewrite (checkout_passes _ _ _ _ (within_stock_passes _ _ W)). simpl.
  rewrite (sell_cart_sold _ _ _ NDf NDc).
  apply list_fmap_ext. intros i r Hr.
  apply (sold_exact (PRODUCTS s) (inventory_df s)); try assumption.
  by eapply list_elem_of_lookup_2.
Qed.

(** X4: in such a session a checkout takes exactly the quantity in the cart
    off the stock of each row of the data frame; the floor at 0 of
    [max(current_stock - qty_sold, 0)] never applies. *)
Theorem checkout_decrements_exactly file sales ss s es sid ts ok :
  load file sales ss = Some s →
  cart ss = [] →
  let before := run es s in
  inventory_df (checkout sid ts ok before).1
  = (fun r =>
       with_stock (inv_stock_qty r
                   - qty_in_cart (inv_barcode r) (cart (session_state before))) r)
      <$> inventory_df before.
Proof.
  intros L E before. apply checkout_inventory_df.
  exact (run_consistent es s (load_consistent _ _ _ _ L E)).
Qed.


Lemma units_sold_app b l1 l2 :
  units_sold b (l1 ++ l2) = units_sold b l1 + units_sold b l2.
Proof.
  induction l1 as [| r l1 IH]; [reflexivity |]. simpl. rewrite IH. lia.
Qed.

Lemma units_sold_sale_rows b sid ts member ss c0 c :
  units_sold b (sale_row sid ts member ss c0 <$> c) = qty_in_cart b c.
Proof.
  induction c as [| l rest IH]; [reflexivity |].
  rewrite fmap_cons. simpl. by rewrite IH.
Qed.

Lemma stock_of_cons b r df :
  stock_of b (r :: df)
  = (if decide (inv_barcode r = b) then inv_stock_qty r else 0) + stock_of b df.
Proof. reflexivity. Qed.

Lemma stock_of_absent b df :
  b ∉ inv_barcode <$> df → stock_of b df = 0.
Proof.
  induction df as [| r rest IH]; intros N; [reflexivity |].
  rewrite fmap_cons in N. apply not_elem_of_cons in N as [N1 N2].
  rewrite stock_of_cons.
  destruct (decide (inv_barcode r = b)); [congruence |].
  rewrite IH by exact N2. lia.
Qed.

Lemma stock_of_decremented b (q : string → Z) df :
  NoDup (inv_barcode <$> df) →
  stock_of b ((fun r => with_stock (inv_stock_qty r - q (inv_barcode r)) r) <$> df)
  = stock_of b df - (if decide (b ∈ inv_barcode <$> df) then q b else 0).
Proof.
  induction df as [| r rest IH]; intros ND.
  - destruct (decide (b ∈ inv_barcode <$> [])) as [I | I]; [| reflexivity].
    by apply elem_of_nil in I.
  - rewrite !fmap_cons in *. apply NoDup_cons in ND as [NI ND].
    rewrite !stock_of_cons, (IH ND). cbn [with_stock inv_barcode inv_stock_qty].
    destruct (decide (b ∈ inv_barcode <$> rest)) as [I | I];
      destruct (decide (b ∈ inv_barcode r :: (inv_barcode <$> rest))) as [J | J];
      destruct (decide (inv_barcode r = b)) as [E | N]; try lia.
    + subst b. contradiction.
    + exfalso. apply J. by apply list_elem_of_further.
    + exfalso. apply J. by apply list_elem_of_further.
    + subst b. lia.
    + apply elem_of_cons in J as [? | ?]; [congruence | contradiction].
    + exfalso. apply J. subst b. apply list_elem_of_here.
Qed.

Lemma checkout_conserves sid ts ok s b :
  consistent s →
  stock_of b (inventory_df (checkout sid ts ok s).1)
  + units_sold b (SALES_FILE (checkout sid ts ok s).1)
  = stock_of b (inventory_df s) + units_sold b (SALES_FILE s).
Proof.
  intros C. rewrite (checkout_inventory_df _ _ _ _ C).
  destruct C as (D & [_ NDc] & W). apply to_dict_mirrors in D as [NDf M].
  rewrite (checkout_passes _ _ _ _ (within_stock_passes _ _ W)). simpl.
  rewrite units_sold_app, units_sold_sale_rows.
  rewrite (stock_of_decremented b
             (fun b => qty_in_cart b (cart (session_state s))) _ NDf).
  destruct (decide (b ∈ inv_barcode <$> inventory_df s)) as [I | I]; [lia |].
  rewrite (qty_in_cart_absent b); [lia |].
  intros (l & -> & Hl)%list_elem_of_fmap. apply I.
  unfold within_stock in W. rewrite Forall_forall in W.
  destruct (W l Hl) as (p & Lp & _).
  destruct (mirrors_row _ _ _ _ M Lp) as [Hp <-].
  by apply list_elem_of_fmap_2.
Qed.

(** Every action but a checkout leaves the stores alone. *)
Lemma run_event_stores s e :
  (∀ sid ts ok, e ≠ Checkout sid ts ok) →
  INVENTORY_FILE (run_event s e).1 = INVENTORY_FILE s
  ∧ SALES_FILE (run_event s e).1 = SALES_FILE s
  ∧ inventory_df (run_event s e).1 = inventory_df s
  ∧ PRODUCTS (run_event s e).1 = PRODUCTS s.
Proof.
  intros N. destruct e as [u code q | u b | id | m | ty v | sid ts ok]; simpl.
  - unfold handle_scan. destruct (decide (q <= 0)); [done |].
    destruct (decide (code = "")); [done |].
    by destruct (add_to_cart_frame u code q s) as [c ->].
  - by destruct (add_to_cart_frame u b 1 s) as [c ->].
  - unfold remove_one_from_cart. destruct (find _ _); [| done].
    by destruct (decide _).
  - done.
  - unfold set_discount. by destruct (Qlt_le_dec v 0).
  - by destruct (N sid ts ok).
Qed.

Lemma run_event_conserves s e b :
  consistent s →
  stock_of b (inventory_df (run_event s e).1)
  + units_sold b (SALES_FILE (run_event s e).1)
  = stock_of b (inventory_df s) + units_sold b (SALES_FILE s).
Proof.
  intros C. destruct e as [u code q | u b0 | id | m | ty v | sid ts ok].
  6: { by apply checkout_conserves. }
  all: match goal with
       | |- context [run_event ?s0 ?e0] =>
           destruct (run_event_stores s0 e0) as (_ & -> & -> & _);
           [intros; discriminate | reflexivity]
       end.
Qed.

Lemma run_conserves es s b :
  consistent s →
  stock_of b (inventory_df (run es s)) + units_sold b (SALES_FILE (run es s))
  = stock_of b (inventory_df s) + units_sold b (SALES_FILE s).
Proof.
  revert s. induction es as [| e es IH]; intros s C; [reflexivity |].
  simpl. rewrite IH by (by apply run_event_consistent).
  by apply run_event_conserves.
Qed.

(** X6: the ledger only grows at its end: whatever the session does, the
    ledger it started with is a prefix of the ledger it has. *)
Theorem ledger_is_append_only es s :
  SALES_FILE s `prefix_of` SALES_FILE (run es s).
Proof.
  revert s. induction es as [| e es IH]; intros s; [reflexivity |].
  simpl. etransitivity; [| apply IH].
  destruct e as [u code q | u b0 | id | m | ty v | sid ts ok].
  6: { simpl. destruct (check_stock (PRODUCTS s) (cart (session_state s))) eqn:C.
       - unfold checkout. rewrite C. reflexivity.
       - rewrite (checkout_passes _ _ _ _ C). simpl. by apply prefix_app_r. }
  all: match goal with
       | |- context [run_event ?s0 ?e0] =>
           destruct (run_event_stores s0 e0) as (_ & -> & _);
           [intros; discriminate | reflexivity]
       end.
Qed.


(** *** Quantities in the cart *)

Lemma qty_in_cart_cons b l c :
  qty_in_cart b (l :: c)
  = (if decide (line_barcode l = b) then line_qty l else 0) + qty_in_cart b c.
Proof. reflexivity. Qed.

Lemma qty_in_cart_app b c1 c2 :
  qty_in_cart b (c1 ++ c2) = qty_in_cart b c1 + qty_in_cart b c2.
Proof.
  induction c1 as [| l c1 IH]; [reflexivity |].
  rewrite <- app_comm_cons, !qty_in_cart_cons, IH. lia.
Qed.

Lemma qty_in_cart_line b c l :
  NoDup (line_barcode <$> c) → l ∈ c → line_barcode l = b →
  qty_in_cart b c = line_qty l.
Proof.
  induction c as [| x rest IH]; intros ND Hl B; [by apply elem_of_nil in Hl |].
  rewrite fmap_cons in ND. apply NoDup_cons in ND as [NI ND].
  rewrite qty_in_cart_cons. apply elem_of_cons in Hl as [-> | Hl].
  - rewrite decide_True by exact B.
    rewrite qty_in_cart_absent by (by rewrite <- B). lia.
  - rewrite decide_False.
    + rewrite (IH ND Hl B). lia.
    + intros E. apply NI. rewrite E, <- B. by apply list_elem_of_fmap_2.
Qed.

Lemma merge_line_merged_qty b q stock c c' b' :
  merge_line b q stock c = merged c' →
  qty_in_cart b' c' = qty_in_cart b' c + (if decide (b' = b) then q else 0).
Proof.
  revert c'. induction c as [| l rest IH]; intros c' M; simpl in M.
  - discriminate.
  - destruct (decide (line_barcode l = b)) as [E | N].
    + destruct (decide (line_qty l + q > stock)); [discriminate |].
      injection M as <-. rewrite !qty_in_cart_cons. simpl.
      destruct (decide (line_barcode l = b')); destruct (decide (b' = b));
        try lia; congruence.
    + destruct (merge_line b q stock rest) as [r | |]; try discriminate.
      injection M as <-. rewrite !qty_in_cart_cons, (IH r eq_refl). lia.
Qed.

Lemma merge_line_outcome b q stock c :
  match merge_line b q stock c with
  | merged _ => ∃ l, l ∈ c ∧ line_barcode l = b ∧ ¬ line_qty l + q > stock
  | refused l => l ∈ c ∧ line_barcode l = b ∧ line_qty l + q > stock
  | no_line => b ∉ line_barcode <$> c
  end.
Proof.
  induction c as [| l rest IH]; simpl; [apply not_elem_of_nil |].
  destruct (decide (line_barcode l = b)) as [E | N].
  - destruct (decide (line_qty l + q > stock)).
    + split; [apply list_elem_of_here | done].
    + exists l. split; [apply list_elem_of_here | done].
  - destruct (merge_line b q stock rest) as [r | x |].
    + destruct IH as (x & Hx & ?). exists x. split; [by apply list_elem_of_further | done].
    + destruct IH as (Hx & ?). split; [by apply list_elem_of_further | done].
    + apply not_elem_of_cons. by split.
Qed.

(** X7: for a product of the dict and a cart with one line of positive
    quantity per product, [add_to_cart] accepts (no warning) exactly when
    the units of the product already in the cart plus the new quantity fit
    in the stock; and when it accepts, the units of that product in the
    cart grow by the quantity, the units of every other product stay. *)
Theorem add_to_cart_accepts_iff uuid b q s p :
  PRODUCTS s !! b = Some p →
  cart_ok (cart (session_state s)) →
  let c := cart (session_state s) in
  let r := add_to_cart uuid b q s in
  (r.2 = [] ↔ qty_in_cart b c + q <= inv_stock_qty p)
  ∧ (r.2 = [] →
     ∀ b', qty_in_cart b' (cart (session_state r.1))
           = qty_in_cart b' c + (if decide (b' = b) then q else 0)).
Proof.
  intros L [F ND] c r. subst r. unfold add_to_cart. rewrite L. fold c.
  pose proof (merge_line_outcome b q (inv_stock_qty p) c) as O.
  destruct (decide (q > inv_stock_qty p)) as [G | G].
  - split; [| discriminate]. split; [discriminate |]. intros H. exfalso.
    destruct (merge_line b q (inv_stock_qty p) c) as [c' | l |] eqn:M.
    + destruct O as (l & Hl & B & _).
      rewrite (qty_in_cart_line b c l ND Hl B) in H.
      rewrite Forall_forall in F. specialize (F l Hl). simpl in F. lia.
    + destruct O as (Hl & B & _).
      rewrite (qty_in_cart_line b c l ND Hl B) in H.
      rewrite Forall_forall in F. specialize (F l Hl). simpl in F. lia.
    + rewrite (qty_in_cart_absent b c O) in H. lia.
  - destruct (merge_line b q (inv_stock_qty p) c) as [c' | l |] eqn:M; simpl.
    + split.
      * split; [intros _ | reflexivity].
        destruct O as (l & Hl & B & N).
        rewrite (qty_in_cart_line b c l ND Hl B). lia.
      * intros _ b'. by apply (merge_line_merged_qty b q (inv_stock_qty p)).
    + split; [| discriminate]. split; [discriminate |].
      destruct O as (Hl & B & N). rewrite (qty_in_cart_line b c l ND Hl B). lia.
    + split.
      * split; [intros _ | reflexivity]. rewrite (qty_in_cart_absent b c O). lia.
      * intros _ b'. rewrite qty_in_cart_app, qty_in_cart_cons. simpl.
        destruct (decide (b = b')); destruct (decide (b' = b));
          try congruence; unfold qty_in_cart; simpl; lia.
Qed.


(** *** Removing *)

Lemma find_unique_id c l :
  NoDup (line_id <$> c) → l ∈ c →
  find (fun x => bool_decide (line_id x = line_id l)) c = Some l.
Proof.
  induction c as [| x rest IH]; intros ND Hl; [by apply elem_of_nil in Hl |].
  rewrite fmap_cons in ND. apply NoDup_cons in ND as [NI ND]. simpl.
  apply elem_of_cons in Hl as [-> | Hl].
  - by rewrite bool_decide_eq_true_2.
  - rewrite bool_decide_eq_false_2; [by apply IH |].
    intros E. apply NI. rewrite E. by apply list_elem_of_fmap_2.
Qed.

Lemma find_absent_id id c :
  id ∉ line_id <$> c →
  find (fun x => bool_decide (line_id x = id)) c = None
  ∧ filter (fun x => line_id x ≠ id) c = c.
Proof.
  induction c as [| x rest IH]; intros N; [done |].
  rewrite fmap_cons in N. apply not_elem_of_cons in N as [N1 N2].
  destruct (IH N2) as [Fd Fl]. simpl.
  rewrite bool_decide_eq_false_2 by congruence.
  rewrite filter_cons, decide_True by congruence. by rewrite Fl.
Qed.

Lemma decrement_first_qty id c l b :
  find (fun x => bool_decide (line_id x = id)) c = Some l →
  qty_in_cart b (decrement_first id c)
  = qty_in_cart b c - (if decide (line_barcode l = b) then 1 else 0).
Proof.
  induction c as [| x rest IH]; simpl; intros Fd; [discriminate |].
  destruct (decide (line_id x = id)) as [E | N].
  - rewrite bool_decide_eq_true_2 in Fd by exact E. injection Fd as ->.
    rewrite !qty_in_cart_cons. simpl.
    destruct (decide (line_barcode l = b)); lia.
  - rewrite bool_decide_eq_false_2 in Fd by exact N.
    rewrite !qty_in_cart_cons, (IH Fd). lia.
Qed.

Lemma filter_id_qty c l b :
  NoDup (line_id <$> c) → l ∈ c →
  qty_in_cart b (filter (fun x => line_id x ≠ line_id l) c)
  = qty_in_cart b c - (if decide (line_barcode l = b) then line_qty l else 0).
Proof.
  induction c as [| x rest IH]; intros ND Hl; [by apply elem_of_nil in Hl |].
  rewrite fmap_cons in ND. apply NoDup_cons in ND as [NI ND].
  rewrite filter_cons, qty_in_cart_cons.
  apply elem_of_cons in Hl as [-> | Hl].
  - rewrite decide_False by (intros H; by apply H).
    rewrite (proj2 (find_absent_id (line_id x) rest NI)). lia.
  - rewrite decide_True.
    + rewrite qty_in_cart_cons, (IH ND Hl). lia.
    + intros E. apply NI. rewrite E. by apply list_elem_of_fmap_2.
Qed.

(** X8: with line ids that are all different and quantities of at least 1,
    [remove_one_from_cart] on the id of a cart line takes exactly one unit
    of that line's product out of the cart and leaves the units of every
    other product as they are; on an id that is not in the cart it does
    nothing. *)
Theorem remove_one_takes_one_unit id s :
  NoDup (line_id <$> cart (session_state s)) →
  Forall (fun l => 1 <= line_qty l) (cart (session_state s)) →
  (∀ l b, l ∈ cart (session_state s) → line_id l = id →
          qty_in_cart b (cart (session_state (remove_one_from_cart id s)))
          = qty_in_cart b (cart (session_state s))
            - (if decide (line_barcode l = b) then 1 else 0))
  ∧ (id ∉ line_id <$> cart (session_state s) → remove_one_from_cart id s = s).
Proof.
  intros ND F. split.
  - intros l b Hl <-. unfold remove_one_from_cart.
    rewrite (find_unique_id _ l ND Hl).
    destruct (decide (line_qty l > 1)) as [G | G]; simpl.
    + apply decrement_first_qty. by apply find_unique_id.
    + rewrite (filter_id_qty _ l b ND Hl).
      rewrite Forall_forall in F. specialize (F l Hl). simpl in F.
      destruct (decide (line_barcode l = b)); lia.
  - intros N. unfold remove_one_from_cart.
    by rewrite (proj1 (find_absent_id id _ N)).
Qed.

Lemma set_cart_same s : set_cart (cart (session_state s)) s = s.
Proof. by destruct s as [f l df p [c m d t]]. Qed.

Lemma find_app_absent id c k :
  id ∉ line_id <$> c →
  find (fun x => bool_decide (line_id x = id)) (c ++ k)
  = find (fun x => bool_decide (line_id x = id)) k
  ∧ filter (fun x => line_id x ≠ id) (c ++ k)
    = c ++ filter (fun x => line_id x ≠ id) k.
Proof.
  induction c as [| x rest IH]; intros N; [done |].
  rewrite fmap_cons in N. apply not_elem_of_cons in N as [N1 N2].
  destruct (IH N2) as [Fd Fl]. rewrite <- !app_comm_cons. simpl.
  rewrite bool_decide_eq_false_2 by congruence.
  rewrite filter_cons, decide_True by congruence. by rewrite Fl.
Qed.

(** X9: selecting a product that has no line in the cart and then pressing
    Remove 1 on the line just made (its id is new) gives back the state
    before the selection, whether the selection was accepted or not. *)
Theorem select_then_remove_restores uuid b s :
  uuid ∉ line_id <$> cart (session_state s) →
  b ∉ line_barcode <$> cart (session_state s) →
  remove_one_from_cart uuid (add_to_cart uuid b 1 s).1 = s.
Proof.
  intros Nid Nb.
  assert (Same : remove_one_from_cart uuid s = s).
  { unfold remove_one_from_cart. by rewrite (proj1 (find_absent_id uuid _ Nid)). }
  unfold add_to_cart.
  destruct (PRODUCTS s !! b) as [p |]; [| exact Same].
  destruct (decide (1 > inv_stock_qty p)); [exact Same |].
  rewrite (proj2 (merge_line_no_line b 1 (inv_stock_qty p) _) Nb).
  cbn [fst]. unfold remove_one_from_cart.
  destruct s as [f l df products [c m d t]]. simpl in *.
  destruct (find_app_absent uuid c
              [mkLine uuid b (inv_name p) 1 (inv_price p) (inv_category p)
                      (inv_pack_size p)] Nid) as [Fd Fl].
  rewrite Fd. simpl. rewrite bool_decide_eq_true_2 by reflexivity.
  destruct (decide (1 > 1)); [lia |]. simpl. rewrite Fl.
  rewrite filter_cons, decide_False by (intros H; by apply H).
  simpl. by rewrite app_nil_r.
Qed.


(** *** The total under the cart and the totals in the ledger *)

Lemma sum_line_total_percent d c0 c :
  (0 <= d)%Q →
  (TillSpec.sum_Q (line_total percent d c0 <$> c)
   == TillSpec.sum_Q (pretotal <$> c)
      - d / 100 * TillSpec.sum_Q (pretotal <$> c))%Q.
Proof.
  intros D. induction c as [| l rest IH].
  - unfold TillSpec.sum_Q; simpl. field.
  - rewrite !fmap_cons, !sum_Q_cons, IH, (line_total_percent d c0 l D).
    unfold pretotal. field.
Qed.

(** X10: with a percentage discount of at least 0, or a fixed discount and
    a positive subtotal, the total that [calc_totals] shows under the cart
    is the sum of the line totals [save_sale] computes, and the sum of the
    rounded line totals it writes is within half a cent per line of the
    total shown. *)
Theorem shown_total_is_persisted sid ts member ss :
  match discount_type ss with
  | percent => (0 <= discount ss)%Q
  | fixed => (0 < cart_total (cart ss))%Q
  end →
  let c := cart ss in
  let total := (calc_totals ss).2 in
  (TillSpec.sum_Q (line_total (discount_type ss) (discount ss) c <$> c)
   == total)%Q
  ∧ (Qabs (sum_totals (sale_row sid ts member ss c <$> c) - total)
     <= inject_Z (Z.of_nat (length c)) * (1 # 200))%Q.
Proof.
  intros H c total.
  assert (E : (TillSpec.sum_Q (line_total (discount_type ss) (discount ss) c <$> c)
               == total)%Q).
  { subst total. unfold calc_totals. fold c. cbn [snd].
    destruct (discount_type ss).
    - rewrite (sum_line_total_percent _ c c H), <- cart_total_sum. reflexivity.
    - rewrite (sum_line_total_fixed _ c c H), <- cart_total_sum. field.
      fold c in H. lra. }
  split; [exact E |].
  pose proof (sum_totals_near sid ts member ss c c) as N.
  rewrite E in N. exact N.
Qed.

(** *** What is written to the inventory file *)

Lemma sell_line_active g line :
  Forall (fun r => inv_is_active r = true) g.1 →
  Forall (fun r => inv_is_active r = true) (sell_line g line).1.
Proof.
  intros F. unfold sell_line.
  destruct (list_find _ g.1) as [[idx row] |] eqn:Fd; [| exact F].
  apply list_find_Some in Fd as (Li & _ & _). simpl.
  apply Forall_insert; [exact F |]. simpl.
  rewrite Forall_forall in F. apply F. by eapply list_elem_of_lookup_2.
Qed.

Lemma sell_cart_active c g :
  Forall (fun r => inv_is_active r = true) g.1 →
  Forall (fun r => inv_is_active r = true) (fold_left sell_line c g).1.
Proof.
  revert g. induction c as [| l rest IH]; intros g F; [exact F |].
  simpl. apply IH. by apply sell_line_active.
Qed.

Lemma run_event_data_frame s e :
  Forall (fun r => inv_is_active r = true) (inventory_df s) →
  Forall (fun r => inv_is_active r = true) (inventory_df (run_event s e).1)
  ∧ inv_barcode <$> inventory_df (run_event s e).1
    = inv_barcode <$> inventory_df s.
Proof.
  intros F. split; [| apply run_event_keys].
  destruct e as [u code q | u b0 | id | m | ty v | sid ts ok].
  6: { simpl. destruct (check_stock (PRODUCTS s) (cart (session_state s))) eqn:C.
       - unfold checkout. by rewrite C.
       - rewrite (checkout_passes _ _ _ _ C). simpl.
         by apply (sell_cart_active _ (inventory_df s, PRODUCTS s)). }
  all: match goal with
       | |- context [run_event ?s0 ?e0] =>
           destruct (run_event_stores s0 e0) as (_ & _ & -> & _);
           [intros; discriminate | exact F]
       end.
Qed.

Lemma run_data_frame es s :
  Forall (fun r => inv_is_active r = true) (inventory_df s) →
  Forall (fun r => inv_is_active r = true) (inventory_df (run es s))
  ∧ inv_barcode <$> inventory_df (run es s) = inv_barcode <$> inventory_df s.
Proof.
  revert s. induction es as [| e es IH]; intros s F; [done |].
  destruct (run_event_data_frame s e F) as [F1 B1].
  destruct (IH _ F1) as [F2 B2]. simpl. split; [exact F2 | by rewrite B2].
Qed.

Lemma load_data_frame file sales ss s :
  load file sales ss = Some s →
  inventory_df s = active_rows file
  ∧ Forall (fun r => inv_is_active r = true) (inventory_df s).
Proof.
  intros L. destruct (load_spec _ _ _ _ L) as (_ & -> & _). split; [done |].
  apply Forall_forall. intros r Hr. unfold active_rows in Hr.
  by apply list_elem_of_filter in Hr as [Hr _].
Qed.

(** X11: whenever in a session a checkout writes the inventory file, the
    file then is the data frame: it has one row for each active row of the
    file that was loaded, with the same barcodes in the same order, and no
    inactive row. *)
Theorem saved_file_is_the_active_rows file sales ss s es sid ts :
  load file sales ss = Some s →
  cart ss = [] →
  let after := (checkout sid ts true (run es s)).1 in
  INVENTORY_FILE after = inventory_df after
  ∧ inv_barcode <$> INVENTORY_FILE after = inv_barcode <$> active_rows file
  ∧ Forall (fun r => inv_is_active r = true) (INVENTORY_FILE after).
Proof.
  intros L E after.
  destruct (load_data_frame _ _ _ _ L) as [Df F].
  pose proof (run_data_frame (es ++ [Checkout sid ts true]) s F) as [F' B'].
  assert (R : run (es ++ [Checkout sid ts true]) s = after).
  { unfold run. rewrite fold_left_app. reflexivity. }
  rewrite R, Df in *.
  assert (S : INVENTORY_FILE after = inventory_df after).
  { subst after.
    destruct (run_consistent es s (load_consistent _ _ _ _ L E)) as (_ & _ & W).
    by rewrite (checkout_passes _ _ _ _ (within_stock_passes _ _ W)). }
  rewrite S. done.
Qed.

Lemma run_keys es s b :
  is_Some (PRODUCTS (run es s) !! b) ↔ is_Some (PRODUCTS s !! b).
Proof.
  revert s. induction es as [| e es IH]; intros s; [done |].
  simpl. rewrite IH. apply run_event_keys.
Qed.

(** X12: a barcode that no active row of the loaded file has is never
    found by [add_to_cart], at any point of the session: the call warns
    that the barcode is not in the inventory and changes nothing.  This is
    so for the barcode of an inactive product. *)
Theorem inactive_product_is_not_found file sales ss s es uuid b q :
  load file sales ss = Some s →
  (∀ r, r ∈ file → inv_barcode r = b → inv_is_active r = false) →
  add_to_cart uuid b q (run es s) = (run es s, [warning_not_found b]).
Proof.
  intros L H.
  assert (N : PRODUCTS (run es s) !! b = None).
  { apply eq_None_not_Some. rewrite run_keys. intros [r Lr].
    unfold load in L.
    destruct (to_dict (active_rows file)) as [products |] eqn:D;
      [| discriminate].
    injection L as <-. simpl in Lr.
    apply to_dict_mirrors in D as [_ M].
    destruct (mirrors_row _ _ _ _ M Lr) as [Hr Br].
    unfold active_rows in Hr. apply list_elem_of_filter in Hr as [A Hr].
    rewrite (H r Hr Br) in A. discriminate. }
  unfold add_to_cart. by rewrite N.
Qed.

(** *** Running the script again after every action *)

Lemma active_rows_all df :
  Forall (fun r => inv_is_active r = true) df → active_rows df = df.
Proof.
  unfold active_rows. induction 1 as [| r df A _ IH]; [reflexivity |].
  rewrite filter_cons, decide_True by exact A. by rewrite IH.
Qed.

Lemma active_rows_active file :
  Forall (fun r => inv_is_active r = true) (active_rows file).
Proof.
  apply Forall_forall. intros r Hr. unfold active_rows in Hr.
  by apply list_elem_of_filter in Hr as [Hr _].
Qed.

(** The file on disk holds what the data frame holds. *)
Lemma rerun_same s :
  to_dict (inventory_df s) = Some (PRODUCTS s) →
  active_rows (INVENTORY_FILE s) = inventory_df s →
  TillSession.rerun s = Some s.
Proof.
  intros D F. unfold TillSession.rerun, load. rewrite F, D.
  by destruct s.
Qed.

Lemma run_event_file s e :
  consistent s →
  active_rows (INVENTORY_FILE s) = inventory_df s →
  TillSession.saves e →
  active_rows (INVENTORY_FILE (run_event s e).1) = inventory_df (run_event s e).1.
Proof.
  intros C F Sv. destruct e as [u code q | u b0 | id | m | ty v | sid ts ok].
  6: { simpl in Sv. subst ok. simpl.
       destruct C as (_ & _ & W).
       rewrite (checkout_passes _ _ _ _ (within_stock_passes _ _ W)).
       cbn [fst INVENTORY_FILE inventory_df]. apply active_rows_all.
       apply (sell_cart_active _ (inventory_df s, PRODUCTS s)). cbn [fst].
       rewrite <- F. apply active_rows_active. }
  all: match goal with
       | |- context [run_event ?s0 ?e0] =>
           destruct (run_event_stores s0 e0) as (-> & _ & -> & _);
           [intros; discriminate | exact F]
       end.
Qed.

Lemma session_is_run es s :
  consistent s →
  active_rows (INVENTORY_FILE s) = inventory_df s →
  Forall TillSession.saves es →
  TillSession.session es s = Some (run es s).
Proof.
  revert s. induction es as [| e es IH]; intros s C F Sv; [reflexivity |].
  apply Forall_cons in Sv as [Se Sv]. cbn [TillSession.session].
  pose proof (run_event_consistent s e C) as C1.
  pose proof (run_event_file s e C F Se) as F1.
  rewrite (rerun_same _ (proj1 C1) F1). by apply IH.
Qed.

Lemma load_file_in_sync file sales ss s :
  load file sales ss = Some s →
  active_rows (INVENTORY_FILE s) = inventory_df s
  ∧ inventory_df s = active_rows file ∧ SALES_FILE s = sales.
Proof.
  unfold load. intros L. destruct (to_dict _); [| discriminate].
  by injection L as <-.
Qed.

(** X5: in a session in which the script is run again after every action
    and every checkout writes the inventory file, no run fails, and for
    every barcode the stock in the data frame plus the units of it in the
    ledger stays what it was when the till was first loaded: every unit
    that leaves the stock is in the ledger, and nothing else changes
    either. *)
Theorem stock_plus_sold_is_constant file sales ss s es b :
  load file sales ss = Some s →
  cart ss = [] →
  Forall TillSession.saves es →
  ∃ s', TillSession.session es s = Some s'
        ∧ stock_of b (inventory_df s') + units_sold b (SALES_FILE s')
          = stock_of b (active_rows file) + units_sold b sales.
Proof.
  intros L E Sv. destruct (load_file_in_sync _ _ _ _ L) as (F & Df & Sf).
  pose proof (load_consistent _ _ _ _ L E) as C.
  exists (run es s). split; [by apply session_is_run |].
  rewrite (run_conserves es s b C). by rewrite Df, Sf.
Qed.


End TillExtra.

(** ** Further properties of the dashboard *)

Module DashboardExtra.
Import Dashboard DashboardSpec DashboardProps Reports ReportSums.

(** *** The merge and the filters *)

Lemma bind_empty {A B : Type} (f : A → list B) : ([] : list A) ≫= f = [].
Proof. reflexivity. Qed.

Lemma sales_merged_cons s sales inventory :
  sales_merged (s :: sales) inventory
  = sales_merged [s] inventory ++ sales_merged sales inventory.
Proof.
  unfold sales_merged. rewrite !bind_cons, bind_empty, app_nil_r. reflexivity.
Qed.

Lemma sales_merged_one s inventory m :
  m ∈ sales_merged [s] inventory ↔
  m_sale m = s
  ∧ match m_inv m with
    | Some r => r ∈ inventory ∧ inv_barcode r = sale_barcode s
    | None => ∀ r, r ∈ inventory → inv_barcode r ≠ sale_barcode s
    end.
Proof.
  unfold sales_merged. rewrite bind_cons, bind_empty, app_nil_r.
  destruct (filter (fun r => inv_barcode r = sale_barcode s) inventory)
    as [| r0 rs] eqn:Fl.
  - rewrite list_elem_of_singleton. split.
    + intros ->. split; [reflexivity |]. simpl. intros r Hr E.
      assert (H : r ∈ filter (fun r => inv_barcode r = sale_barcode s) inventory)
        by (apply list_elem_of_filter; by split).
      rewrite Fl in H. by apply elem_of_nil in H.
    + intros [E H]. destruct m as [s' [r |]]; simpl in *; subst s'.
      * destruct H as [Hr Br].
        assert (H : r ∈ filter (fun r => inv_barcode r = sale_barcode s) inventory)
          by (apply list_elem_of_filter; by split).
        rewrite Fl in H. by apply elem_of_nil in H.
      * reflexivity.
  - rewrite <- Fl. rewrite list_elem_of_fmap. split.
    + intros (r & -> & Hr). apply list_elem_of_filter in Hr as [Br Hr].
      simpl. done.
    + intros [E H]. destruct m as [s' [r |]]; simpl in *; subst s'.
      * destruct H as [Hr Br]. exists r. split; [reflexivity |].
        apply list_elem_of_filter. by split.
      * exfalso. assert (H0 : r0 ∈ filter (fun r => inv_barcode r = sale_barcode s) inventory)
          by (rewrite Fl; apply list_elem_of_here).
        apply list_elem_of_filter in H0 as [B0 H0]. by apply (H r0).
Qed.

Lemma elem_of_sales_merged sales inventory m :
  m ∈ sales_merged sales inventory ↔
  m_sale m ∈ sales
  ∧ match m_inv m with
    | Some r => r ∈ inventory ∧ inv_barcode r = sale_barcode (m_sale m)
    | None => ∀ r, r ∈ inventory → inv_barcode r ≠ sale_barcode (m_sale m)
    end.
Proof.
  induction sales as [| s rest IH].
  - unfold sales_merged. rewrite bind_empty. split.
    + intros H. by apply elem_of_nil in H.
    + intros [H _]. by apply elem_of_nil in H.
  - rewrite sales_merged_cons, elem_of_app, IH, sales_merged_one, elem_of_cons.
    split.
    + intros [[E H] | [E H]]; [subst s; split; [by left | exact H] |
                                split; [by right | exact H]].
    + intros [[E | E] H]; [left; subst s; by split | right; by split].
Qed.

(** X13: the merge is a left join: every ledger row is in it at least
    once, with or without a matching inventory row, and every row of the
    merge is a ledger row. *)
Theorem merge_keeps_every_sale (sales : list SaleRow) (inventory : list InvRow)
        (s : SaleRow) :
  s ∈ sales ↔ s ∈ m_sale <$> sales_merged sales inventory.
Proof.
  rewrite list_elem_of_fmap. split.
  - intros Hs.
    destruct (filter (fun r => inv_barcode r = sale_barcode s) inventory)
      as [| r0 rs] eqn:Fl.
    + exists (mkMerged s None). split; [reflexivity |].
      apply elem_of_sales_merged. split; [exact Hs |]. simpl. intros r Hr E.
      assert (H : r ∈ filter (fun r => inv_barcode r = sale_barcode s) inventory)
        by (apply list_elem_of_filter; by split).
      rewrite Fl in H. by apply elem_of_nil in H.
    + exists (mkMerged s (Some r0)). split; [reflexivity |].
      apply elem_of_sales_merged. split; [exact Hs |]. simpl.
      assert (H : r0 ∈ filter (fun r => inv_barcode r = sale_barcode s) inventory)
        by (rewrite Fl; apply list_elem_of_here).
      apply list_elem_of_filter in H as [B H]. by split.
  - intros (m & -> & Hm). by apply elem_of_sales_merged in Hm as [Hm _].
Qed.

(** X14: when no two inventory rows have the same barcode, the merge has
    exactly the ledger rows, each once and in the order of the ledger, so
    no sale is counted twice. *)
Theorem merge_is_the_ledger (sales : list SaleRow) (inventory : list InvRow) :
  NoDup (inv_barcode <$> inventory) →
  m_sale <$> sales_merged sales inventory = sales.
Proof. apply sales_merged_rows. Qed.

Lemma passes_matched f m :
  passes f m = true →
  ∃ r, m_inv m = Some r
       ∧ inv_brand r ∈ selected_brands f
       ∧ sale_category (m_sale m) ∈ selected_categories f
       ∧ date_leb (date_range f).1 (m_date m) = true
       ∧ date_leb (m_date m) (date_range f).2 = true.
Proof.
  unfold passes. intros H.
  apply andb_true_iff in H as [H Hb]. apply andb_true_iff in H as [H Hc].
  apply andb_true_iff in H as [H1 H2].
  destruct (m_inv m) as [r |]; [| discriminate].
  exists r. repeat split; try assumption.
  - by apply bool_decide_eq_true in Hb.
  - by apply bool_decide_eq_true in Hc.
Qed.

(** X15: a sale of a barcode that no inventory row has is in no filtered
    row, whatever the filters: it counts in no figure of the dashboard.
    Every filtered row carries the inventory row of its barcode. *)
Theorem unmatched_sales_are_filtered_out (sales : list SaleRow)
        (inventory : list InvRow) (f : Filters) (m : MergedRow) :
  m ∈ filtered_rows sales inventory f →
  ∃ r, m_inv m = Some r ∧ r ∈ inventory
       ∧ inv_barcode r = sale_barcode (m_sale m)
       ∧ sale_barcode (m_sale m) ∈ inv_barcode <$> inventory.
Proof.
  unfold filtered_rows, sales_filtered. intros [P Hm]%list_elem_of_filter.
  destruct (passes_matched f m P) as (r & Mr & _).
  apply elem_of_sales_merged in Hm as [_ H]. rewrite Mr in H.
  destruct H as [Hr Br]. exists r. repeat split; try assumption.
  rewrite <- Br. by apply list_elem_of_fmap_2.
Qed.


(** *** Sums over groups *)

Section Groups.
Context {A K : Type} `{EqDecision K} (by_key : A → option K).

Lemma sum_Z_of_cons (w : A → Z) x l :
  sum_Z_of w (x :: l) = w x + sum_Z_of w l.
Proof. reflexivity. Qed.

Lemma sum_Q_of_cons (w : A → Q) x l :
  sum_Q_of w (x :: l) = (w x + sum_Q_of w l)%Q.
Proof. reflexivity. Qed.

(** The sums of the groups of the keys [ks] add up to the sum over the
    rows whose key is one of [ks]. *)
Lemma group_sums_Z (w : A → Z) (ks : list K) (l : list A) :
  NoDup ks →
  foldr Z.add 0 ((fun k => sum_Z_of w (filter (fun x => by_key x = Some k) l)) <$> ks)
  = sum_Z_of w (filter (fun x => by_key x ∈ Some <$> ks) l).
Proof.
  intros ND. induction l as [| x l IH].
  - rewrite filter_nil. induction ks as [| k ks IHk]; [reflexivity |].
    apply NoDup_cons in ND as [_ ND]. rewrite fmap_cons. cbn [foldr].
    rewrite (IHk ND), filter_nil. reflexivity.
  - transitivity ((if decide (by_key x ∈ Some <$> ks) then w x else 0)
                  + foldr Z.add 0
                      ((fun k => sum_Z_of w (filter (fun x => by_key x = Some k) l))
                         <$> ks)).
    + clear IH. induction ks as [| k ks IHk].
      * rewrite decide_False by apply not_elem_of_nil. reflexivity.
      * apply NoDup_cons in ND as [NI ND]. rewrite !fmap_cons.
        cbn [foldr]. rewrite (IHk ND). rewrite filter_cons.
        destruct (decide (by_key x = Some k)) as [E | N].
        -- rewrite sum_Z_of_cons.
           rewrite (decide_True (P := by_key x ∈ Some k :: (Some <$> ks)))
             by (rewrite E; apply list_elem_of_here).
           rewrite decide_False; [lia |].
           rewrite E. intros H. apply NI.
           by apply (list_elem_of_fmap_inj_2 Some).
        -- destruct (decide (by_key x ∈ Some <$> ks)) as [I | I].
           ++ rewrite decide_True by (by apply list_elem_of_further). lia.
           ++ rewrite decide_False; [lia |].
              intros [? | ?]%elem_of_cons; [congruence | contradiction].
    + rewrite IH, filter_cons.
      destruct (decide (by_key x ∈ Some <$> ks)); [by rewrite sum_Z_of_cons | lia].
Qed.

Lemma group_sums_Q (w : A → Q) (ks : list K) (l : list A) :
  NoDup ks →
  (foldr Qplus 0 ((fun k => sum_Q_of w (filter (fun x => by_key x = Some k) l)) <$> ks)
   == sum_Q_of w (filter (fun x => by_key x ∈ Some <$> ks) l))%Q.
Proof.
  intros ND. induction l as [| x l IH].
  - rewrite filter_nil. induction ks as [| k ks IHk]; [reflexivity |].
    apply NoDup_cons in ND as [_ ND]. rewrite fmap_cons. cbn [foldr].
    rewrite (IHk ND). rewrite filter_nil. unfold sum_Q_of. simpl. lra.
  - transitivity ((if decide (by_key x ∈ Some <$> ks) then w x else 0)
                  + foldr Qplus 0
                      ((fun k => sum_Q_of w (filter (fun x => by_key x = Some k) l))
                         <$> ks))%Q.
    + clear IH. induction ks as [| k ks IHk].
      * rewrite decide_False by apply not_elem_of_nil. simpl. lra.
      * apply NoDup_cons in ND as [NI ND]. rewrite !fmap_cons.
        cbn [foldr]. rewrite (IHk ND). rewrite filter_cons.
        destruct (decide (by_key x = Some k)) as [E | N].
        -- rewrite sum_Q_of_cons.
           rewrite (decide_True (P := by_key x ∈ Some k :: (Some <$> ks)))
             by (rewrite E; apply list_elem_of_here).
           rewrite decide_False; [lra |].
           rewrite E. intros H. apply NI.
           by apply (list_elem_of_fmap_inj_2 Some).
        -- destruct (decide (by_key x ∈ Some <$> ks)) as [I | I].
           ++ rewrite decide_True by (by apply list_elem_of_further). lra.
           ++ rewrite decide_False; [lra |].
              intros [? | ?]%elem_of_cons; [congruence | contradiction].
    + rewrite IH, filter_cons.
      destruct (decide (by_key x ∈ Some <$> ks));
        [rewrite sum_Q_of_cons; lra | lra].
Qed.

(** Every row with a key is in the group of its key. *)
Lemma filter_keyed (l : list A) :
  filter (fun x => by_key x ∈ Some <$> remove_dups (omap by_key l)) l
  = filter (fun x => is_Some (by_key x)) l.
Proof.
  assert (G : ∀ l0 : list A, (∀ x, x ∈ l0 → x ∈ l) →
              filter (fun x => by_key x ∈ Some <$> remove_dups (omap by_key l)) l0
              = filter (fun x => is_Some (by_key x)) l0).
  { induction l0 as [| x l0 IH]; intros Sub; [reflexivity |].
    rewrite !filter_cons, IH by (intros y Hy; apply Sub; by apply list_elem_of_further).
    destruct (decide (is_Some (by_key x))) as [[k Ek] | N].
    - rewrite decide_True; [reflexivity |].
      rewrite Ek. apply list_elem_of_fmap_2, elem_of_remove_dups.
      apply list_elem_of_omap. exists x. split; [| exact Ek].
      apply Sub, list_elem_of_here.
    - rewrite decide_False; [reflexivity |].
      intros (k & Ek & _)%list_elem_of_fmap. apply N. by exists k. }
  by apply G.
Qed.

End Groups.


Lemma filter_all {A : Type} (P : A → Prop) `{!∀ x, Decision (P x)} (l : list A) :
  (∀ x, x ∈ l → P x) → filter P l = l.
Proof.
  induction l as [| x l IH]; intros All; [reflexivity |].
  rewrite filter_cons, decide_True by (apply All, list_elem_of_here).
  rewrite IH; [reflexivity |]. intros y Hy. by apply All, list_elem_of_further.
Qed.

(** *** The average monthly sales *)

Lemma monthly_quantities_add_up b rows :
  foldr Z.add 0 ((fun mo => monthly_quantity b mo rows) <$> months_of b rows)
  = sum_qty (rows_of b rows).
Proof.
  unfold monthly_quantity, months_of.
  pose proof (group_sums_Z (fun m => Some (month m))
                (fun m => sale_qty (m_sale m))
                (remove_dups (month <$> rows_of b rows)) (rows_of b rows)
                (NoDup_remove_dups _)) as G.
  rewrite filter_all in G.
  - change (sum_Z_of (fun m => sale_qty (m_sale m)) (rows_of b rows))
      with (sum_qty (rows_of b rows)) in G.
    rewrite <- G. f_equal. apply list_fmap_ext. intros i mo _.
    change (sum_qty ?l) with (sum_Z_of (fun m => sale_qty (m_sale m)) l).
    f_equal. apply list_filter_iff. intros m. split; [congruence |].
    by intros [= ->].
  - intros m Hm. apply list_elem_of_fmap_2, elem_of_remove_dups.
    by apply list_elem_of_fmap_2.
Qed.

(** X16: the average monthly sales the dashboard computes for a product is
    the total quantity of the product in the filtered rows divided by the
    number of different calendar months it was sold in; a product without
    a filtered row has no average. *)
Theorem average_is_total_over_months (rows : list MergedRow) (b : string) :
  monthly_sales_per_product rows !! b
  = match months_of b rows with
    | [] => None
    | months =>
        Some (inject_Z (sum_qty (rows_of b rows))
              / inject_Z (Z.of_nat (length months)))%Q
    end.
Proof.
  rewrite monthly_sales_per_product_lookup. unfold avgMonthlySales.
  pose proof (monthly_quantities_add_up b rows) as E.
  destruct (months_of b rows) as [| mo months]; [reflexivity |].
  by rewrite E.
Qed.

(** *** Reorder levels and quantities *)

Lemma fill_level_floor dyn rows b :
  dyn = reorder_levels rows !! b → 5 <= fill_level None dyn.
Proof.
  intros ->. unfold fill_level, reorder_levels. rewrite lookup_fmap.
  destruct (monthly_sales_per_product rows !! b); simpl; [| lia].
  unfold dynamic_level. lia.
Qed.

(** Without explicit level the effective level is at least 5, on any
    rows. *)
Lemma low_at_five_on_rows (sales : list SaleRow)
      (inventory : list InvRow) (f : Filters) (r : InvRow) :
  r ∈ inventory →
  inv_reorder_level r = None →
  inv_stock_qty r <= 5 →
  inv_barcode r ∈ low_stock_barcodes sales inventory f
  ∧ ∃ level, (inv_barcode r, level) ∈ effective_reorder_levels sales inventory f
             ∧ 5 <= level.
Proof.
  intros Hr E S. set (rows := filtered_rows sales inventory f).
  set (dyn := reorder_levels rows !! inv_barcode r).
  assert (L : 5 <= fill_level (inv_reorder_level r) dyn)
    by (rewrite E; by apply (fill_level_floor dyn rows (inv_barcode r))).
  assert (I : mkReorder r dyn (fill_level (inv_reorder_level r) dyn)
              ∈ inventory_with_reorder rows inventory).
  { unfold inventory_with_reorder.
    by apply (list_elem_of_fmap_2
                (fun r => mkReorder r (reorder_levels rows !! inv_barcode r)
                            (fill_level (inv_reorder_level r)
                                        (reorder_levels rows !! inv_barcode r)))). }
  split.
  - unfold low_stock_barcodes. fold rows.
    apply (list_elem_of_fmap_2 (fun x => inv_barcode (r_inv x))
             _ (mkReorder r dyn (fill_level (inv_reorder_level r) dyn))).
    unfold low_stock_df. apply list_elem_of_filter. split; [simpl; lia | exact I].
  - exists (fill_level (inv_reorder_level r) dyn). split; [| exact L].
    unfold effective_reorder_levels. fold rows.
    by apply (list_elem_of_fmap_2 (fun x => (inv_barcode (r_inv x), reorder_level x))
                _ (mkReorder r dyn (fill_level (inv_reorder_level r) dyn))).
Qed.

Lemma reorder_tables_Some sales inventory f tables :
  DashboardRun.reorder_tables sales inventory f = Some tables →
  filtered_rows sales inventory f ≠ []
  ∧ tables = (effective_reorder_levels sales inventory f,
              low_stock_barcodes sales inventory f).
Proof.
  unfold DashboardRun.reorder_tables.
  destruct (filtered_rows sales inventory f); [discriminate |].
  intros [= <-]. done.
Qed.

(** X17: whenever the dashboard gets to the reorder logic (some sale
    passes the filters), a product without explicit reorder level has an
    effective level of at least 5, so with a stock of 5 or less it is in
    the low-stock table under every such filter setting. *)
Theorem stock_of_five_or_less_is_low (sales : list SaleRow)
        (inventory : list InvRow) (f : Filters) (r : InvRow)
        (tables : list (string * Z) * list string) :
  DashboardRun.reorder_tables sales inventory f = Some tables →
  r ∈ inventory →
  inv_reorder_level r = None →
  inv_stock_qty r <= 5 →
  inv_barcode r ∈ tables.2
  ∧ ∃ level, (inv_barcode r, level) ∈ tables.1 ∧ 5 <= level.
Proof.
  intros T Hr E S. apply reorder_tables_Some in T as [_ ->].
  by apply low_at_five_on_rows.
Qed.

(** X18: the reorder quantity of a low-stock row is never negative; it is 0
    when the stock covers twice the average monthly sales, and otherwise
    it brings the stock up to twice the average, rounded down: stock plus
    reorder quantity is at most twice the average and less than one unit
    below it. *)
Theorem reorder_quantity_bounds (rows : list MergedRow)
        (inventory : list InvRow) (l : LowStockRow) :
  l ∈ low_stock_with_reorder_qty rows inventory →
  let stock := inject_Z (inv_stock_qty (r_inv (l_row l))) in
  let target := (2 * avg_monthly_sales l)%Q in
  0 <= reorder_qty l
  ∧ ((target <= stock)%Q → reorder_qty l = 0)
  ∧ ((stock < target)%Q →
     (stock + inject_Z (reorder_qty l) <= target)%Q
     ∧ (target < stock + inject_Z (reorder_qty l) + 1)%Q).
Proof.
  unfold low_stock_with_reorder_qty.
  intros (r & -> & _)%list_elem_of_fmap. cbn [l_row avg_monthly_sales reorder_qty].
  set (avg := default 0%Q (monthly_sales_per_product rows !! inv_barcode (r_inv r))).
  set (stock := inject_Z (inv_stock_qty (r_inv r))).
  cbn zeta. unfold max0, astype_int.
  destruct (Qlt_le_dec (2 * avg - stock) 0) as [Neg | Pos].
  - destruct (Qlt_le_dec 0 0) as [Bad | _]; [lra |].
    change (Qfloor 0) with 0. split; [lia |]. split; [reflexivity |].
    intros H. lra.
  - destruct (Qlt_le_dec (2 * avg - stock) 0) as [Bad | _]; [lra |].
    pose proof (Qfloor_le (2 * avg - stock)) as Lo.
    pose proof (Qlt_floor (2 * avg - stock)) as Hi.
    rewrite inject_Z_plus in Hi. change (inject_Z 1) with 1%Q in Hi.
    assert (Z0 : 0 <= Qfloor (2 * avg - stock)).
    { change 0 with (Qfloor 0). by apply Qfloor_resp_le. }
    split; [exact Z0 |]. split.
    + intros H. assert (E : (2 * avg - stock == 0)%Q) by lra.
      rewrite (Qfloor_comp _ _ E). reflexivity.
    + intros _. split; lra.
Qed.


(** *** The breakdown tables add up to the KPIs *)

Lemma units_column_perm {K : Type} (t1 t2 : list (K * Breakdown)) :
  t1 ≡ₚ t2 → units_column t1 = units_column t2.
Proof.
  induction 1 as [| x l l' _ IH | x y l | l l' l'' _ IH1 _ IH2];
    unfold units_column in *; simpl; lia.
Qed.

Lemma sales_column_perm {K : Type} (t1 t2 : list (K * Breakdown)) :
  t1 ≡ₚ t2 → (sales_column t1 == sales_column t2)%Q.
Proof.
  induction 1 as [| x l l' _ IH | x y l | l l' l'' _ IH1 _ IH2];
    unfold sales_column in *; cbn [foldr]; lra.
Qed.

Lemma profit_column_perm {K : Type} (t1 t2 : list (K * Breakdown)) :
  t1 ≡ₚ t2 → (profit_column t1 == profit_column t2)%Q.
Proof.
  induction 1 as [| x l l' _ IH | x y l | l l' l'' _ IH1 _ IH2];
    unfold profit_column in *; cbn [foldr]; lra.
Qed.

Lemma total_sales_sum rows :
  total_sales rows = sum_Q_of (fun m => sale_line_total (m_sale m)) rows.
Proof.
  unfold total_sales, Reports.sum_Q, sum_Q_of.
  induction rows as [| m rows IH]; [reflexivity |].
  rewrite fmap_cons. simpl. by rewrite IH.
Qed.

Lemma calc_profit_sum df : (calc_profit df == sum_Q_of profit_of df)%Q.
Proof.
  unfold calc_profit, Reports.sum_Q, sum_Q_of.
  induction df as [| m df IH]; [reflexivity |].
  cbn [omap list_omap foldr]. unfold profit_of at 1.
  destruct (cost m) as [c |]; cbn [fmap option_fmap option_map foldr].
  - rewrite IH. reflexivity.
  - rewrite IH. lra.
Qed.

Lemma total_profit_sum rows :
  Forall (fun m => is_Some (m_inv m)) rows →
  (total_profit rows == sum_Q_of profit_of rows)%Q.
Proof.
  unfold total_profit, total_cost, Reports.sum_Q. rewrite total_sales_sum.
  induction 1 as [| m rows [r Mr] _ IH]; [reflexivity |].
  rewrite !sum_Q_of_cons.
  assert (C : cost m = Some (inv_cost_price r * inject_Z (sale_qty (m_sale m)))%Q)
    by (unfold cost; by rewrite Mr).
  assert (P : profit_of m
              = (sale_line_total (m_sale m)
                 - inv_cost_price r * inject_Z (sale_qty (m_sale m)))%Q)
    by (unfold profit_of; by rewrite C).
  assert (O : omap cost (m :: rows)
              = (inv_cost_price r * inject_Z (sale_qty (m_sale m)))%Q
                  :: omap cost rows)
    by (cbn [omap list_omap]; by rewrite C).
  rewrite O, P. cbn [foldr]. lra.
Qed.

Section Tables.
Context {K : Type} `{EqDecision K} (by_key : MergedRow → option K).

Lemma table_units rows :
  units_column (table by_key rows)
  = total_units (filter (fun m => is_Some (by_key m)) rows).
Proof.
  unfold table, groupby. rewrite <- list_fmap_compose.
  rewrite <- (filter_keyed by_key rows).
  change (total_units ?l) with (sum_Z_of (fun m => sale_qty (m_sale m)) l).
  rewrite <- (group_sums_Z by_key _ _ rows (NoDup_remove_dups _)).
  unfold units_column.
  induction (remove_dups (omap by_key rows)) as [| k ks IH]; [reflexivity |].
  rewrite !fmap_cons. simpl. rewrite IH. reflexivity.
Qed.

Lemma table_sales rows :
  (sales_column (table by_key rows)
   == total_sales (filter (fun m => is_Some (by_key m)) rows))%Q.
Proof.
  unfold table, groupby. rewrite <- list_fmap_compose.
  rewrite <- (filter_keyed by_key rows), total_sales_sum.
  rewrite <- (group_sums_Q by_key _ _ rows (NoDup_remove_dups _)).
  unfold sales_column.
  induction (remove_dups (omap by_key rows)) as [| k ks IH]; [reflexivity |].
  rewrite !fmap_cons. cbn [foldr]. rewrite IH.
  cbn [compose fst snd agg b_total_sales]. rewrite total_sales_sum. reflexivity.
Qed.

Lemma table_profit rows :
  (profit_column (table by_key rows)
   == sum_Q_of profit_of (filter (fun m => is_Some (by_key m)) rows))%Q.
Proof.
  unfold table, groupby. rewrite <- list_fmap_compose.
  rewrite <- (filter_keyed by_key rows).
  rewrite <- (group_sums_Q by_key _ _ rows (NoDup_remove_dups _)).
  unfold profit_column.
  induction (remove_dups (omap by_key rows)) as [| k ks IH]; [reflexivity |].
  rewrite !fmap_cons. cbn [foldr]. rewrite IH.
  cbn [compose fst snd agg b_profit]. rewrite calc_profit_sum. reflexivity.
Qed.

End Tables.

Lemma sorted_table_perm {K : Type} (t : list (K * Breakdown)) :
  sort_by_total_sales t ≡ₚ t.
Proof. apply merge_sort_Permutation. Qed.

(** X19: the rows of the sales-by-category table add up to the KPIs: the
    units sold of all categories are the Units Sold figure and their total
    sales are the Total Sales figure, over whatever rows the table and the
    KPIs are computed from. *)
Theorem categories_add_up_to_the_kpis (rows : list MergedRow) :
  units_column (sales_by_category rows) = total_units rows
  ∧ (sales_column (sales_by_category rows) == total_sales rows)%Q.
Proof.
  unfold sales_by_category.
  assert (All : filter (fun m => is_Some (Some (sale_category (m_sale m)))) rows
                = rows) by (apply filter_all; by eauto).
  split.
  - rewrite (units_column_perm _ _ (sorted_table_perm _)).
    fold (table (fun m => Some (sale_category (m_sale m))) rows).
    by rewrite table_units, All.
  - rewrite (sales_column_perm _ _ (sorted_table_perm _)).
    fold (table (fun m => Some (sale_category (m_sale m))) rows).
    by rewrite table_sales, All.
Qed.

Lemma filtered_rows_matched sales inventory f :
  Forall (fun m => is_Some (m_inv m)) (filtered_rows sales inventory f).
Proof.
  apply Forall_forall. intros m Hm.
  unfold filtered_rows, sales_filtered in Hm.
  apply list_elem_of_filter in Hm as [P _].
  destruct (passes_matched f m P) as (r & -> & _). by exists r.
Qed.

(** X20: on the filtered sales, where every row has its inventory row, the
    sales-by-brand table adds up to the Units Sold and Total Sales
    figures, and the profits of both tables add up to the Total Profit
    figure (total sales minus total cost). *)
Theorem filtered_breakdowns_add_up (sales : list SaleRow)
        (inventory : list InvRow) (f : Filters) :
  let rows := filtered_rows sales inventory f in
  units_column (sales_by_brand rows) = total_units rows
  ∧ (sales_column (sales_by_brand rows) == total_sales rows)%Q
  ∧ (profit_column (sales_by_brand rows) == total_profit rows)%Q
  ∧ (profit_column (sales_by_category rows) == total_profit rows)%Q.
Proof.
  intros rows. pose proof (filtered_rows_matched sales inventory f) as M.
  fold rows in M.
  assert (Brand : filter (fun m => is_Some (inv_brand <$> m_inv m)) rows = rows).
  { apply filter_all. intros m Hm. rewrite Forall_forall in M.
    destruct (M m Hm) as [r ->]. by eexists. }
  assert (Cat : filter (fun m => is_Some (Some (sale_category (m_sale m)))) rows
                = rows) by (apply filter_all; by eauto).
  unfold sales_by_brand, sales_by_category.
  repeat split.
  - rewrite (units_column_perm _ _ (sorted_table_perm _)).
    fold (table (fun m => inv_brand <$> m_inv m) rows).
    by rewrite table_units, Brand.
  - rewrite (sales_column_perm _ _ (sorted_table_perm _)).
    fold (table (fun m => inv_brand <$> m_inv m) rows).
    by rewrite table_sales, Brand.
  - rewrite (profit_column_perm _ _ (sorted_table_perm _)).
    fold (table (fun m => inv_brand <$> m_inv m) rows).
    rewrite table_profit, Brand. symmetry. by apply total_profit_sum.
  - rewrite (profit_column_perm _ _ (sorted_table_perm _)).
    fold (table (fun m => Some (sale_category (m_sale m))) rows).
    rewrite table_profit, Cat. symmetry. by apply total_profit_sum.
Qed.


(** X21: the monthly sales table adds up to the KPIs as well: the units
    of all months are the Units Sold figure and the sales of all months
    the Total Sales figure, each row counted in exactly one month. *)
Theorem months_add_up_to_the_kpis (rows : list MergedRow) :
  sum_Z_of (fun r : Month * (Q * Z) => r.2.2) (monthly_sales rows)
  = total_units rows
  ∧ (sum_Q_of (fun r : Month * (Q * Z) => r.2.1) (monthly_sales rows)
     == total_sales rows)%Q.
Proof.
  assert (All : filter (fun m => is_Some (Some (month m))) rows = rows)
    by (apply filter_all; by eauto).
  unfold monthly_sales, groupby. rewrite <- list_fmap_compose. split.
  - rewrite <- All at 2. rewrite <- (filter_keyed (fun m => Some (month m)) rows).
    change (total_units ?l) with (sum_Z_of (fun m => sale_qty (m_sale m)) l).
    rewrite <- (group_sums_Z (fun m => Some (month m)) _ _ rows
                  (NoDup_remove_dups _)).
    induction (remove_dups (omap (fun m => Some (month m)) rows)) as [| k ks IH];
      [reflexivity |].
    rewrite !fmap_cons, sum_Z_of_cons. cbn [foldr]. rewrite IH. reflexivity.
  - rewrite <- All at 2. rewrite <- (filter_keyed (fun m => Some (month m)) rows).
    rewrite total_sales_sum.
    rewrite <- (group_sums_Q (fun m => Some (month m)) _ _ rows
                  (NoDup_remove_dups _)).
    induction (remove_dups (omap (fun m => Some (month m)) rows)) as [| k ks IH];
      [reflexivity |].
    rewrite !fmap_cons, sum_Q_of_cons. cbn [foldr]. rewrite IH.
    cbn [compose fst snd]. rewrite total_sales_sum. reflexivity.
Qed.

(** *** Explicit reorder levels *)

Lemma filter_ext_in {A : Type} (P Q : A → Prop)
      `{!∀ x, Decision (P x)} `{!∀ x, Decision (Q x)} (l : list A) :
  (∀ x, x ∈ l → P x ↔ Q x) → filter P l = filter Q l.
Proof.
  induction l as [| x l IH]; intros E; [reflexivity |].
  rewrite !filter_cons.
  rewrite IH by (intros y Hy; apply E; by apply list_elem_of_further).
  pose proof (E x (list_elem_of_here _ _)) as Ex.
  destruct (decide (P x)); destruct (decide (Q x)); tauto || reflexivity.
Qed.

Lemma low_stock_barcodes_explicit rows inventory :
  Forall (fun r => is_Some (inv_reorder_level r)) inventory →
  (fun r => inv_barcode (r_inv r)) <$> low_stock_df rows inventory
  = inv_barcode
      <$> filter (fun r => inv_stock_qty r <= default 0 (inv_reorder_level r))
                 inventory.
Proof.
  intros F. unfold low_stock_df, inventory_with_reorder.
  rewrite (filter_fmap _ (fun r => inv_stock_qty (r_inv r) <= reorder_level r)).
  rewrite <- list_fmap_compose.
  rewrite (filter_ext_in _ (fun r => inv_stock_qty r <= default 0 (inv_reorder_level r)));
    [reflexivity |].
  intros r Hr. rewrite Forall_forall in F. destruct (F r Hr) as [v E].
  simpl. rewrite E. reflexivity.
Qed.

(** With explicit levels everywhere the rows do not matter. *)
Lemma explicit_levels_on_rows
      (sales1 sales2 : list SaleRow) (inventory : list InvRow)
      (f1 f2 : Filters) :
  Forall (fun r => is_Some (inv_reorder_level r)) inventory →
  effective_reorder_levels sales1 inventory f1
  = (fun r => (inv_barcode r, default 0 (inv_reorder_level r))) <$> inventory
  ∧ effective_reorder_levels sales1 inventory f1
    = effective_reorder_levels sales2 inventory f2
  ∧ low_stock_barcodes sales1 inventory f1
    = low_stock_barcodes sales2 inventory f2.
Proof.
  intros F.
  assert (E : ∀ sales f,
             effective_reorder_levels sales inventory f
             = (fun r => (inv_barcode r, default 0 (inv_reorder_level r)))
                 <$> inventory).
  { intros sales f. unfold effective_reorder_levels, inventory_with_reorder.
    rewrite <- list_fmap_compose. apply list_fmap_ext. intros i r Hr.
    rewrite Forall_forall in F.
    destruct (F r (list_elem_of_lookup_2 _ _ _ Hr)) as [v Ev].
    simpl. by rewrite Ev. }
  split; [apply E | split].
  - by rewrite !E.
  - unfold low_stock_barcodes. by rewrite !low_stock_barcodes_explicit.
Qed.

(** X22: when every inventory row has an explicit reorder level, two runs
    of the dashboard that both get to the reorder logic give the same
    tables, whatever their ledgers and filter settings are: the effective
    levels are the explicit levels and the low-stock rows are the rows
    with stock at or below them. *)
Theorem explicit_levels_ignore_sales_and_filters
        (sales1 sales2 : list SaleRow) (inventory : list InvRow)
        (f1 f2 : Filters) (t1 t2 : list (string * Z) * list string) :
  Forall (fun r => is_Some (inv_reorder_level r)) inventory →
  DashboardRun.reorder_tables sales1 inventory f1 = Some t1 →
  DashboardRun.reorder_tables sales2 inventory f2 = Some t2 →
  t1.1 = (fun r => (inv_barcode r, default 0 (inv_reorder_level r))) <$> inventory
  ∧ t1.2 = inv_barcode
             <$> filter (fun r => inv_stock_qty r <= default 0 (inv_reorder_level r))
                        inventory
  ∧ t1 = t2.
Proof.
  intros F T1 T2.
  apply reorder_tables_Some in T1 as [_ ->].
  apply reorder_tables_Some in T2 as [_ ->].
  destruct (explicit_levels_on_rows sales1 sales2 inventory f1 f2 F)
    as (E1 & E2 & E3).
  cbn [fst snd]. split; [exact E1 |]. split.
  - unfold low_stock_barcodes. by apply low_stock_barcodes_explicit.
  - by rewrite E2, E3.
Qed.

End DashboardExtra.

(** ** The till and the dashboard together *)

Module TillDashboard.
Import Till TillSpec TillQuantities TillProps TillExtra TillView.
Import Dashboard.

(** X23: in a session, when the cart shows the reorder warning for a line
    and the checkout that follows writes the inventory file, a run of the
    dashboard on this file that gets to the reorder logic has the product
    in its low-stock table, whatever its ledger and filters are; the
    remaining stock in the warning is the stock written to the file. *)
Theorem warned_line_is_low_stock_after_sale
        file sales ss s es sid ts (l : CartLine) (name : string) (remaining : Z)
        (ledger : list SaleRow) (f : Filters)
        (tables : list (string * Z) * list string) :
  load file sales ss = Some s →
  cart ss = [] →
  let before := run es s in
  let after := (checkout sid ts true before).1 in
  l ∈ cart (session_state before) →
  low_stock_item (PRODUCTS before) l = Some (name, remaining) →
  DashboardRun.reorder_tables ledger (INVENTORY_FILE after) f = Some tables →
  line_barcode l ∈ tables.2
  ∧ stock_of (line_barcode l) (INVENTORY_FILE after) = remaining.
Proof.
  intros L E before after Hl Wn Tb.
  apply DashboardExtra.reorder_tables_Some in Tb as [_ ->]. cbn [snd].
  pose proof (run_consistent es s (load_consistent _ _ _ _ L E)) as C.
  fold before in C.
  assert (File : INVENTORY_FILE after
                 = (fun r => with_stock
                               (inv_stock_qty r
                                - qty_in_cart (inv_barcode r)
                                              (cart (session_state before))) r)
                     <$> inventory_df before).
  { subst after. rewrite <- (checkout_inventory_df sid ts true before C).
    destruct C as (_ & _ & W).
    by rewrite (checkout_passes _ _ _ _ (within_stock_passes _ _ W)). }
  destruct C as (D & [_ NDc] & W). apply to_dict_mirrors in D as [NDf M].
  unfold low_stock_item in Wn.
  destruct (PRODUCTS before !! line_barcode l) as [p |] eqn:Lp; [| discriminate].
  destruct (inv_reorder_level p) as [lv |] eqn:Lv; [| discriminate].
  destruct (decide (inv_stock_qty p - line_qty l <= lv)) as [Le |];
    [| discriminate].
  injection Wn as _ <-.
  destruct (mirrors_row _ _ _ _ M Lp) as [Hp Bp].
  assert (Q : qty_in_cart (inv_barcode p) (cart (session_state before))
              = line_qty l)
    by (apply qty_in_cart_line; [exact NDc | exact Hl | by symmetry]).
  set (p' := with_stock (inv_stock_qty p - line_qty l) p).
  assert (Hp' : p' ∈ INVENTORY_FILE after).
  { rewrite File. subst p'. rewrite <- Q.
    by apply (list_elem_of_fmap_2
                (fun r => with_stock (inv_stock_qty r
                                      - qty_in_cart (inv_barcode r)
                                          (cart (session_state before))) r)). }
  split.
  - unfold low_stock_barcodes.
    set (rows := filtered_rows ledger (INVENTORY_FILE after) f).
    rewrite <- Bp.
    apply (list_elem_of_fmap_2 (fun x => inv_barcode (r_inv x)) _
             (mkReorder p' (reorder_levels rows !! inv_barcode p')
                        (fill_level (inv_reorder_level p')
                                    (reorder_levels rows !! inv_barcode p')))).
    unfold low_stock_df. apply list_elem_of_filter. split.
    + simpl. rewrite Lv. simpl. exact Le.
    + unfold inventory_with_reorder.
      by apply (list_elem_of_fmap_2
                  (fun r => mkReorder r (reorder_levels rows !! inv_barcode r)
                              (fill_level (inv_reorder_level r)
                                          (reorder_levels rows !! inv_barcode r)))).
  - rewrite File, <- Bp.
    rewrite (stock_of_decremented (inv_barcode p)
               (fun b => qty_in_cart b (cart (session_state before))) _ NDf).
    rewrite decide_True by (by apply list_elem_of_fmap_2). rewrite Q.
    assert (S : stock_of (inv_barcode p) (inventory_df before) = inv_stock_qty p).
    { clear -NDf Hp. induction (inventory_df before) as [| x rest IH];
        [by apply elem_of_nil in Hp |].
      rewrite fmap_cons in NDf. apply NoDup_cons in NDf as [NI ND].
      rewrite stock_of_cons. apply elem_of_cons in Hp as [<- | Hp].
      - rewrite decide_True by reflexivity.
        rewrite stock_of_absent by exact NI. lia.
      - rewrite decide_False.
        + rewrite (IH ND Hp). lia.
        + intros Ex. apply NI. rewrite Ex. by apply list_elem_of_fmap_2. }
    rewrite S. reflexivity.
Qed.

End TillDashboard.

(** ** The further properties at the sample data *)

Module ExtraSample.
Import Till TillSpec TillQuantities TillProps TillExtra TillView Sample.
Import Dashboard DashboardSpec DashboardExtra Reports ReportSums TillDashboard.
Import MoreSample.

Lemma load_shop_again : load shop_file [] new_session = Some shop.
Proof. vm_compute. reflexivity. Defined.

Lemma products_mirror_inventory_df_witness :
  load shop_file [] new_session = Some shop
  ∧ cart new_session = []
  ∧ to_dict (inventory_df (run busy_morning shop))
    = Some (PRODUCTS (run busy_morning shop)).
Proof.
  split; [exact load_shop_again |]. split; [reflexivity |].
  exact (products_mirror_inventory_df shop_file [] new_session shop
           busy_morning load_shop_again eq_refl).
Defined.

Lemma cart_stays_within_stock_witness :
  load shop_file [] new_session = Some shop
  ∧ cart new_session = []
  ∧ Forall (fun l => ∃ p, PRODUCTS (run browsing shop) !! line_barcode l = Some p
                          ∧ line_qty l <= inv_stock_qty p)
           (cart (session_state (run browsing shop))).
Proof.
  split; [exact load_shop_again |]. split; [reflexivity |].
  exact (cart_stays_within_stock shop_file [] new_session shop browsing
           load_shop_again eq_refl).
Defined.

Lemma checkout_in_session_succeeds_witness :
  load shop_file [] new_session = Some shop
  ∧ cart new_session = []
  ∧ (checkout "sale-9" noon false (run browsing shop)).2
    = [error_failed_to_save_inventory; success_sale_saved ""].
Proof.
  split; [exact load_shop_again |]. split; [reflexivity |].
  exact (proj1 (checkout_in_session_succeeds shop_file [] new_session shop
                  browsing "sale-9" noon false load_shop_again eq_refl)).
Defined.

Lemma checkout_decrements_exactly_witness :
  load shop_file [] new_session = Some shop
  ∧ cart new_session = []
  ∧ inventory_df (checkout "sale-9" noon true (run browsing shop)).1
    = (fun r =>
         with_stock (inv_stock_qty r
                     - qty_in_cart (inv_barcode r)
                         (cart (session_state (run browsing shop)))) r)
        <$> inventory_df (run browsing shop).
Proof.
  split; [exact load_shop_again |]. split; [reflexivity |].
  exact (checkout_decrements_exactly shop_file [] new_session shop browsing
           "sale-9" noon true load_shop_again eq_refl).
Defined.

Lemma saving_morning_saves : Forall TillSession.saves saving_morning.
Proof. repeat (apply Forall_cons; split; [exact I || reflexivity |]). constructor. Defined.

Lemma stock_plus_sold_is_constant_witness :
  load shop_file [] new_session = Some shop
  ∧ cart new_session = []
  ∧ Forall TillSession.saves saving_morning
  ∧ ∃ s', TillSession.session saving_morning shop = Some s'
          ∧ stock_of "3003" (inventory_df s') + units_sold "3003" (SALES_FILE s')
            = stock_of "3003" (active_rows shop_file) + units_sold "3003" [].
Proof.
  split; [exact load_shop_again |]. split; [reflexivity |].
  split; [exact saving_morning_saves |].
  exact (stock_plus_sold_is_constant shop_file [] new_session shop
           saving_morning "3003" load_shop_again eq_refl saving_morning_saves).
Defined.


Lemma add_to_cart_accepts_iff_witness :
  PRODUCTS eight_apples !! "1001" = Some apple
  ∧ cart_ok (cart (session_state eight_apples))
  ∧ ((add_to_cart "line-9" "1001" 2 eight_apples).2 = []
     ↔ qty_in_cart "1001" (cart (session_state eight_apples)) + 2
       <= inv_stock_qty apple).
Proof.
  assert (L : PRODUCTS eight_apples !! "1001" = Some apple)
    by (vm_compute; reflexivity).
  assert (OK : cart_ok (cart (session_state eight_apples))).
  { split; [| apply NoDup_singleton].
    apply Forall_cons; split; [discriminate | constructor]. }
  split; [exact L |]. split; [exact OK |].
  exact (proj1 (add_to_cart_accepts_iff "line-9" "1001" 2 eight_apples apple L OK)).
Defined.

Lemma remove_one_takes_one_unit_witness :
  NoDup (line_id <$> cart (session_state two_lines))
  ∧ Forall (fun l => 1 <= line_qty l) (cart (session_state two_lines))
  ∧ qty_in_cart "3003"
      (cart (session_state (remove_one_from_cart "line-2" two_lines)))
    = qty_in_cart "3003" (cart (session_state two_lines)) - 1.
Proof.
  assert (ND : NoDup (line_id <$> cart (session_state two_lines))).
  { apply NoDup_cons. split; [| apply NoDup_singleton].
    intros H. apply list_elem_of_singleton in H. discriminate H. }
  assert (F : Forall (fun l => 1 <= line_qty l) (cart (session_state two_lines))).
  { apply Forall_cons; split; [discriminate |].
    apply Forall_cons; split; [discriminate | constructor]. }
  split; [exact ND |]. split; [exact F |].
  exact (proj1 (remove_one_takes_one_unit "line-2" two_lines ND F)
               (milk_line 1) "3003"
               (list_elem_of_further _ _ _ (list_elem_of_here _ _)) eq_refl).
Defined.

Lemma select_then_remove_restores_witness :
  ("line-9" ∉ line_id <$> cart (session_state eight_apples))
  ∧ ("3003" ∉ line_barcode <$> cart (session_state eight_apples))
  ∧ remove_one_from_cart "line-9" (add_to_cart "line-9" "3003" 1 eight_apples).1
    = eight_apples.
Proof.
  assert (N1 : "line-9" ∉ line_id <$> cart (session_state eight_apples)).
  { intros H. apply list_elem_of_singleton in H. discriminate H. }
  assert (N2 : "3003" ∉ line_barcode <$> cart (session_state eight_apples)).
  { intros H. apply list_elem_of_singleton in H. discriminate H. }
  split; [exact N1 |]. split; [exact N2 |].
  exact (select_then_remove_restores "line-9" "3003" eight_apples N1 N2).
Defined.

Lemma shown_total_is_persisted_witness :
  (0 < cart_total (cart (session_state two_lines)))%Q
  ∧ (TillSpec.sum_Q
       (line_total fixed 30 (cart (session_state two_lines))
          <$> cart (session_state two_lines))
     == (calc_totals (session_state two_lines)).2)%Q.
Proof.
  assert (H : (0 < cart_total (cart (session_state two_lines)))%Q)
    by (vm_compute; reflexivity).
  split; [exact H |].
  exact (proj1 (shown_total_is_persisted "sale-1" noon "M-7"
                  (session_state two_lines) H)).
Defined.

Lemma saved_file_is_the_active_rows_witness :
  load shop_file [] new_session = Some shop
  ∧ cart new_session = []
  ∧ inv_barcode <$> INVENTORY_FILE (checkout "sale-9" noon true (run browsing shop)).1
    = inv_barcode <$> active_rows shop_file.
Proof.
  split; [exact load_shop_again |]. split; [reflexivity |].
  exact (proj1 (proj2 (saved_file_is_the_active_rows shop_file [] new_session
                         shop browsing "sale-9" noon load_shop_again eq_refl))).
Defined.

Lemma inactive_product_is_not_found_witness :
  load shop_file [] new_session = Some shop
  ∧ (∀ r, r ∈ shop_file → inv_barcode r = "2002" → inv_is_active r = false)
  ∧ add_to_cart "line-9" "2002" 1 (run browsing shop)
    = (run browsing shop, [warning_not_found "2002"]).
Proof.
  assert (H : ∀ r, r ∈ shop_file → inv_barcode r = "2002"
                   → inv_is_active r = false).
  { intros r Hr B. unfold shop_file in Hr.
    apply elem_of_cons in Hr as [-> | Hr]; [discriminate B |].
    apply elem_of_cons in Hr as [-> | Hr]; [reflexivity |].
    apply list_elem_of_singleton in Hr as ->. discriminate B. }
  split; [exact load_shop_again |]. split; [exact H |].
  exact (inactive_product_is_not_found shop_file [] new_session shop browsing
           "line-9" "2002" 1 load_shop_again H).
Defined.


Lemma merge_is_the_ledger_witness :
  NoDup (inv_barcode <$> shop_file)
  ∧ m_sale <$> sales_merged ledger shop_file = ledger.
Proof.
  assert (ND : NoDup (inv_barcode <$> shop_file)).
  { repeat (apply NoDup_cons; split;
              [intros H; repeat (apply elem_of_cons in H as [H | H];
                                 [discriminate H |]);
               by apply elem_of_nil in H |]).
    apply NoDup_nil_2. }
  split; [exact ND |]. exact (merge_is_the_ledger ledger shop_file ND).
Defined.

Lemma unmatched_sales_are_filtered_out_witness :
  first_sale ∈ filtered_rows ledger shop_file all_sales
  ∧ ∃ r, m_inv first_sale = Some r ∧ r ∈ shop_file
         ∧ inv_barcode r = sale_barcode (m_sale first_sale)
         ∧ sale_barcode (m_sale first_sale) ∈ inv_barcode <$> shop_file.
Proof.
  assert (H : first_sale ∈ filtered_rows ledger shop_file all_sales).
  { vm_compute. apply list_elem_of_here. }
  split; [exact H |].
  exact (unmatched_sales_are_filtered_out ledger shop_file all_sales first_sale H).
Defined.

Lemma stock_of_five_or_less_is_low_witness :
  DashboardRun.reorder_tables ledger [few_apples; milk] dairy_only
  = Some ([("1001", 5); ("3003", 2)], ["1001"])
  ∧ few_apples ∈ [few_apples; milk]
  ∧ inv_reorder_level few_apples = None
  ∧ inv_stock_qty few_apples <= 5
  ∧ inv_barcode few_apples ∈ ["1001"].
Proof.
  assert (T : DashboardRun.reorder_tables ledger [few_apples; milk] dairy_only
              = Some ([("1001", 5); ("3003", 2)], ["1001"]))
    by (vm_compute; reflexivity).
  assert (H1 : few_apples ∈ [few_apples; milk]) by apply list_elem_of_here.
  assert (H3 : inv_stock_qty few_apples <= 5) by discriminate.
  split; [exact T |]. split; [exact H1 |]. split; [reflexivity |].
  split; [exact H3 |].
  exact (proj1 (stock_of_five_or_less_is_low ledger [few_apples; milk] dairy_only
                  few_apples _ T H1 eq_refl H3)).
Defined.

Lemma reorder_quantity_bounds_witness :
  apple_reorder
    ∈ low_stock_with_reorder_qty (filtered_rows ledger shop_file all_sales)
                                 shop_file
  ∧ 0 <= reorder_qty apple_reorder.
Proof.
  assert (H : apple_reorder
                ∈ low_stock_with_reorder_qty
                    (filtered_rows ledger shop_file all_sales) shop_file).
  { vm_compute. apply list_elem_of_here. }
  split; [exact H |].
  exact (proj1 (reorder_quantity_bounds _ shop_file apple_reorder H)).
Defined.

Lemma explicit_levels_ignore_sales_and_filters_witness :
  Forall (fun r => is_Some (inv_reorder_level r)) [beer; milk]
  ∧ DashboardRun.reorder_tables ledger [beer; milk] all_sales
    = Some ([("2002", 4); ("3003", 2)], ["2002"])
  ∧ DashboardRun.reorder_tables [sale "3003" "Milk" "Dairy" (mkDate 2024 1 5) 9 200%Q]
                                [beer; milk] dairy_only
    = Some ([("2002", 4); ("3003", 2)], ["2002"]).
Proof.
  assert (F : Forall (fun r => is_Some (inv_reorder_level r)) [beer; milk]).
  { apply Forall_cons; split; [by eexists |].
    apply Forall_cons; split; [by eexists | constructor]. }
  assert (T1 : DashboardRun.reorder_tables ledger [beer; milk] all_sales
               = Some ([("2002", 4); ("3003", 2)], ["2002"]))
    by (vm_compute; reflexivity).
  assert (T2 : ∃ t2, DashboardRun.reorder_tables
                       [sale "3003" "Milk" "Dairy" (mkDate 2024 1 5) 9 200%Q]
                       [beer; milk] dairy_only = Some t2)
    by (eexists; vm_compute; reflexivity).
  destruct T2 as [t2 T2].
  split; [exact F |]. split; [exact T1 |].
  rewrite T2. f_equal. symmetry.
  exact (proj2 (proj2 (explicit_levels_ignore_sales_and_filters
                         ledger _ [beer; milk] all_sales dairy_only _ t2
                         F T1 T2))).
Defined.

Lemma warned_line_is_low_stock_after_sale_witness :
  load shop_file [] new_session = Some shop
  ∧ cart new_session = []
  ∧ three_milk ∈ cart (session_state (run [Scan "line-1" "3003" 3] shop))
  ∧ low_stock_item (PRODUCTS (run [Scan "line-1" "3003" 3] shop)) three_milk
    = Some ("Milk", 2)
  ∧ DashboardRun.reorder_tables ledger
      (INVENTORY_FILE
         (checkout "sale-9" noon true (run [Scan "line-1" "3003" 3] shop)).1)
      all_sales
    = Some ([("1001", 10); ("3003", 2)], ["1001"; "3003"])
  ∧ "3003" ∈ ["1001"; "3003"].
Proof.
  assert (Hl : three_milk ∈ cart (session_state (run [Scan "line-1" "3003" 3] shop))).
  { vm_compute. apply list_elem_of_here. }
  assert (W : low_stock_item (PRODUCTS (run [Scan "line-1" "3003" 3] shop))
                             three_milk = Some ("Milk", 2))
    by (vm_compute; reflexivity).
  assert (T : DashboardRun.reorder_tables ledger
                (INVENTORY_FILE
                   (checkout "sale-9" noon true
                             (run [Scan "line-1" "3003" 3] shop)).1)
                all_sales
              = Some ([("1001", 10); ("3003", 2)], ["1001"; "3003"]))
    by (vm_compute; reflexivity).
  split; [exact load_shop_again |]. split; [reflexivity |].
  split; [exact Hl |]. split; [exact W |]. split; [exact T |].
  exact (proj1 (warned_line_is_low_stock_after_sale shop_file [] new_session shop
                  [Scan "line-1" "3003" 3] "sale-9" noon three_milk "Milk" 2
                  ledger all_sales _ load_shop_again eq_refl Hl W T)).
Defined.

End ExtraSample.
